(** * AI model retirement feed: normalization, deduplication, change detection

    A shallow embedding of the five scripts of the repository
    ([scrape.py] and the four single-source scripts) and the properties
    of their normalization, deduplication, snapshot and feed logic.

    Conventions of the embedding.
    - A Python [str] is a [string]; its characters are taken in the ASCII
      range, so the classes [\d], [\s], [\w] of [re] and [str.strip] are
      the ASCII ones.
    - A Python [dict] from field names to text (one table row) is a
      [gmap string string]; a [dict] whose insertion order is observable
      (the deduplication table, the snapshot) is an association list with
      Python's update-in-place semantics ([odict]).
    - A raised exception is a value of [result]; [try/except ValueError]
      is a match on it.
    - Files are fields of an explicit state record; the [csv], [json] and
      XML libraries are taken to read back what they wrote.
    - The pages are read outside the embedding: the scrapers are taken
      from the texts of the cells of the tables on. *)

From Stdlib Require Import ZArith Ascii String List Bool Lia.
From Stdlib Require Import DecimalString DecimalPos DecimalZ.
From Stdlib Require Import Sorted.
From Stdlib Require OrderedTypeEx.
From stdpp Require Import base tactics option list strings gmap.

Local Open Scope Z_scope.

(** ** Python results: a value or a raised exception *)

Inductive exn := ValueError | KeyError | RuntimeError.

Inductive result (A : Type) : Type :=
| Ok (a : A)
| Raise (e : exn).
Arguments Ok {A} a.
Arguments Raise {A} e.

#[export] Instance result_ret : MRet result := fun A a => Ok a.
#[export] Instance result_bind : MBind result := fun A B f r =>
  match r with
  | Ok a => f a
  | Raise e => Raise e
  end.
#[export] Instance result_fmap : FMap result := fun A B f r =>
  match r with
  | Ok a => Ok (f a)
  | Raise e => Raise e
  end.

Definition returns {A} (r : result A) : Prop := exists a, r = Ok a.

(** ** Text: characters, classes, [str.strip] *)

Module text.

Definition chars (s : string) : list ascii := list_ascii_of_string s.
Definition str (l : list ascii) : string := string_of_list_ascii l.

Definition code (c : ascii) : nat := nat_of_ascii c.

Definition between (lo hi : nat) (c : ascii) : bool :=
  (lo <=? code c)%nat && (code c <=? hi)%nat.

(** [\d] *)
Definition is_digit (c : ascii) : bool := between 48 57 c.
(** [[A-Za-z]] *)
Definition is_alpha (c : ascii) : bool := between 65 90 c || between 97 122 c.
(** [\w] *)
Definition is_word (c : ascii) : bool :=
  is_alpha c || is_digit c || (code c =? 95)%nat.
(** [\s] and [str.isspace]: tab, newline, vertical tab, form feed,
    carriage return, the four separators 28..31 and the space. *)
Definition is_space (c : ascii) : bool :=
  between 9 13 c || between 28 32 c.

Definition newline : ascii := ascii_of_nat 10.

Definition digit_val (c : ascii) : Z := Z.of_nat (code c) - 48.

Definition lower (c : ascii) : ascii :=
  if between 65 90 c then ascii_of_nat (code c + 32) else c.

Fixpoint lstrip (l : list ascii) : list ascii :=
  match l with
  | c :: l' => if is_space c then lstrip l' else l
  | [] => []
  end.

Definition rstrip (l : list ascii) : list ascii := rev (lstrip (rev l)).

(** [s.strip()] *)
Definition strip_chars (l : list ascii) : list ascii := rstrip (lstrip l).
Definition strip (s : string) : string := str (strip_chars (chars s)).

(** [int(s)] on a run of decimal digits, as the groups [(\d{..})] are. *)
Definition int_digits (l : list ascii) : Z :=
  fold_left (fun acc c => 10 * acc + digit_val c) l 0.

Definition int (l : list ascii) : result Z :=
  match l with
  | [] => Raise ValueError
  | _ => if forallb is_digit l then Ok (int_digits l) else Raise ValueError
  end.

(** Decimal rendering on a fixed width, as [%02d] and [%04d]. *)
Definition digit_char (n : Z) : ascii := ascii_of_nat (Z.to_nat (48 + n mod 10)).
Definition pad2 (n : Z) : list ascii := [digit_char (n / 10); digit_char n].
Definition pad4 (n : Z) : list ascii :=
  [digit_char (n / 1000); digit_char (n / 100); digit_char (n / 10); digit_char n].

Fixpoint is_prefix (p s : list ascii) : bool :=
  match p, s with
  | [], _ => true
  | a :: p', b :: s' => Ascii.eqb a b && is_prefix p' s'
  | _ :: _, [] => false
  end.

(** [s.replace(old, new)] for a non-empty [old]; [skip] counts the
    characters of the occurrence being replaced that are still to pass. *)
Fixpoint replace_from (old new : list ascii) (skip : nat) (s : list ascii) : list ascii :=
  match s with
  | [] => []
  | c :: s' =>
      match skip with
      | S k => replace_from old new k s'
      | O =>
          if is_prefix old s then new ++ replace_from old new (length old - 1) s'
          else c :: replace_from old new 0 s'
      end
  end.

Definition replace (s old new : string) : string :=
  str (replace_from (chars old) (chars new) 0 (chars s)).

(** [sep.join(l)] *)
Fixpoint join (sep : string) (l : list string) : string :=
  match l with
  | [] => ""
  | x :: l' =>
      match l' with
      | [] => x
      | _ => x +:+ sep +:+ join sep l'
      end
  end.

(** [str(n)] for an integer. *)
Definition str_int (n : Z) : string := NilZero.string_of_int (Z.to_int n).

(** [s.lower()] *)
Definition lower_str (s : string) : string := str (map lower (chars s)).

(** [s.strip(cs)]: the characters of a class are removed at both ends. *)
Fixpoint lstrip_of (p : ascii -> bool) (l : list ascii) : list ascii :=
  match l with
  | c :: l' => if p c then lstrip_of p l' else l
  | [] => []
  end.

Definition strip_of (p : ascii -> bool) (s : string) : string :=
  str (rev (lstrip_of p (rev (lstrip_of p (chars s))))).

(** [needle in hay] *)
Fixpoint contains_from (needle hay : list ascii) : bool :=
  is_prefix needle hay
  || match hay with
     | [] => false
     | _ :: hay' => contains_from needle hay'
     end.

Definition contains (needle hay : string) : bool :=
  contains_from (chars needle) (chars hay).

(** [s.startswith(p)] *)
Definition startswith (s p : string) : bool := is_prefix (chars p) (chars s).

End text.

(** ** The fragment of [re] the scripts use

    A pattern is a sequence of items: a literal, a greedy bounded
    repetition of a character class, [\b], [$] and the parentheses of a
    capturing group.  [run] is a backtracking matcher anchored at the
    current position, [search] tries the positions from left to right,
    [findall] collects the successive non-overlapping matches and
    [sub_empty] is [sub("", _)]. *)

Module re.
Import text.

Inductive item :=
| Lit (c : ascii)
| Cls (p : ascii -> bool) (lo : nat) (hi : option nat)
| WordB
| Dollar
| GOpen
| GClose.

Definition pattern := list item.

Record Match := mkMatch
  { m_text : list ascii;            (* group 0 *)
    m_groups : list (list ascii);   (* groups 1.. *)
    m_rest : list ascii }.

Definition below (n : nat) (hi : option nat) : bool :=
  match hi with
  | None => true
  | Some h => (n <? h)%nat
  end.

(** Greedy [p{lo,hi}]: take one more character when allowed, give it
    back when the rest of the pattern fails. [taken] is reversed. *)
Fixpoint rep {R} (p : ascii -> bool) (lo : nat) (hi : option nat)
    (k : list ascii -> option ascii -> list ascii -> option R)
    (n : nat) (taken : list ascii) (prev : option ascii) (s : list ascii)
    : option R :=
  let stop := if (lo <=? n)%nat then k taken prev s else None in
  match s with
  | c :: s' =>
      if p c && below n hi then
        match rep p lo hi k (S n) (c :: taken) (Some c) s' with
        | Some r => Some r
        | None => stop
        end
      else stop
  | [] => stop
  end.

Definition word_at (o : option ascii) : bool :=
  match o with
  | Some c => is_word c
  | None => false
  end.

(** [txt] (the text matched so far) and [groups] are reversed; [opens]
    is the stack of the lengths of [txt] at the open parentheses. *)
Fixpoint run (items : pattern) (txt : list ascii) (opens : list nat)
    (groups : list (list ascii)) (prev : option ascii) (s : list ascii)
    : option Match :=
  match items with
  | [] => Some (mkMatch (rev txt) (rev groups) s)
  | Lit c :: items' =>
      match s with
      | c' :: s' =>
          if Ascii.eqb c c' then run items' (c' :: txt) opens groups (Some c') s'
          else None
      | [] => None
      end
  | Cls p lo hi :: items' =>
      rep p lo hi
        (fun taken prev' s' => run items' (taken ++ txt) opens groups prev' s')
        0%nat [] prev s
  | WordB :: items' =>
      if xorb (word_at prev) (word_at (head s)) then run items' txt opens groups prev s
      else None
  | Dollar :: items' =>
      match s with
      | [] => run items' txt opens groups prev s
      | [c] => if Ascii.eqb c newline then run items' txt opens groups prev s else None
      | _ => None
      end
  | GOpen :: items' => run items' txt (length txt :: opens) groups prev s
  | GClose :: items' =>
      match opens with
      | start :: opens' =>
          run items' txt opens' (rev (firstn (length txt - start) txt) :: groups) prev s
      | [] => None
      end
  end.

Definition match_here (items : pattern) (prev : option ascii) (s : list ascii)
    : option Match :=
  run items [] [] [] prev s.

Fixpoint search_from (items : pattern) (prev : option ascii) (s : list ascii)
    : option Match :=
  match match_here items prev s with
  | Some m => Some m
  | None =>
      match s with
      | [] => None
      | c :: s' => search_from items (Some c) s'
      end
  end.

(** [pattern.search(s)] *)
Definition search (items : pattern) (s : string) : option Match :=
  search_from items None (chars s).

(** The successive matches; [skip] counts the characters of the last
    match that are still to be passed. *)
Fixpoint scan (items : pattern) (skip : nat) (prev : option ascii) (s : list ascii)
    : list Match :=
  match skip with
  | S k =>
      match s with
      | [] => []
      | c :: s' => scan items k (Some c) s'
      end
  | O =>
      match match_here items prev s with
      | Some m =>
          m :: match s with
               | [] => []
               | c :: s' => scan items (length (m_text m) - 1) (Some c) s'
               end
      | None =>
          match s with
          | [] => []
          | c :: s' => scan items 0 (Some c) s'
          end
      end
  end.

(** [pattern.findall(s)] for a pattern with one group: the texts of
    group 1. *)
Definition findall (items : pattern) (s : string) : list (list ascii) :=
  flat_map (fun m => firstn 1 (m_groups m)) (scan items 0 None (chars s)).

(** [pattern.sub("", s)]: every match is deleted. The patterns below
    match no empty text; an empty match deletes nothing. *)
Fixpoint sub_from (items : pattern) (skip : nat) (prev : option ascii) (s : list ascii)
    : list ascii :=
  match s with
  | [] => []
  | c :: s' =>
      match skip with
      | S k => sub_from items k (Some c) s'
      | O =>
          match match_here items prev s with
          | Some m =>
              match length (m_text m) with
              | O => c :: sub_from items 0 (Some c) s'
              | S k => sub_from items k (Some c) s'
              end
          | None => c :: sub_from items 0 (Some c) s'
          end
      end
  end.

Definition sub_empty (items : pattern) (s : string) : string :=
  str (sub_from items 0 None (chars s)).

(** [pattern.sub(repl, s)] for a pattern that matches no empty text:
    every match is replaced by [repl]. *)
Fixpoint sub_with_from (items : pattern) (repl : list ascii) (skip : nat)
    (prev : option ascii) (s : list ascii) : list ascii :=
  match s with
  | [] => []
  | c :: s' =>
      match skip with
      | S k => sub_with_from items repl k (Some c) s'
      | O =>
          match match_here items prev s with
          | Some m =>
              match length (m_text m) with
              | O => c :: sub_with_from items repl 0 (Some c) s'
              | S k => repl ++ sub_with_from items repl k (Some c) s'
              end
          | None => c :: sub_with_from items repl 0 (Some c) s'
          end
      end
  end.

Definition sub_with (items : pattern) (repl s : string) : string :=
  str (sub_with_from items (chars repl) 0 None (chars s)).

End re.


(** ** Ordered dictionaries

    A Python [dict] keeps its keys in insertion order; assigning to a key
    that is present replaces the value in place. *)

Module odict.
Section defs.
Context {K V : Type} `{EqDecision K}.

Fixpoint get (k : K) (d : list (K * V)) : option V :=
  match d with
  | [] => None
  | (k', v) :: d' => if decide (k = k') then Some v else get k d'
  end.

(** [d[k] = v] *)
Fixpoint set (k : K) (v : V) (d : list (K * V)) : list (K * V) :=
  match d with
  | [] => [(k, v)]
  | (k', v') :: d' =>
      if decide (k = k') then (k, v) :: d' else (k', v') :: set k v d'
  end.

Definition keys (d : list (K * V)) : list K := map fst d.
(** [list(d.values())] *)
Definition values (d : list (K * V)) : list V := map snd d.
End defs.

(** [{f(k): v for k, v in d.items()}] *)
Definition map_keys {K K' V : Type} `{EqDecision K'} (f : K -> K') (d : list (K * V))
    : list (K' * V) :=
  fold_left (fun acc kv => set (f (fst kv)) (snd kv) acc) d [].
End odict.

(** A [for] loop whose body may raise. *)
Fixpoint for_each {A S : Type} (body : S -> A -> result S) (xs : list A) (st : S)
    : result S :=
  match xs with
  | [] => Ok st
  | x :: xs' => st' ← body st x; for_each body xs' st'
  end.

(** ** Rows: [Dict[str, str]] *)

Abbreviation row := (gmap string string).

Module pyrow.
(** [row[k]] *)
Definition getitem (r : row) (k : string) : result string :=
  match r !! k with
  | Some v => Ok v
  | None => Raise KeyError
  end.

(** [row.get(k, "")] *)
Definition get_or_empty (r : row) (k : string) : string := default ""%string (r !! k).

(** The truth value of an optional text: [None] and [""] are false. *)
Definition truthy (o : option string) : bool :=
  match o with
  | Some s => negb (String.eqb s "")
  | None => false
  end.
End pyrow.

(** ** Calendar dates: [datetime], [strptime], [strftime] *)

Module datetime.
Import text.

Record date := mkdate { year : Z; month : Z; day : Z }.

Definition is_leap (y : Z) : bool :=
  (y mod 4 =? 0) && (negb (y mod 100 =? 0) || (y mod 400 =? 0)).

Definition days_in_month (y m : Z) : Z :=
  if m =? 2 then (if is_leap y then 29 else 28)
  else if (m =? 4) || (m =? 6) || (m =? 9) || (m =? 11) then 30
  else 31.

Definition valid (y m d : Z) : bool :=
  (1 <=? y) && (y <=? 9999) && (1 <=? m) && (m <=? 12)
  && (1 <=? d) && (d <=? days_in_month y m).

(** [datetime(y, m, d).date()]: out-of-range fields raise [ValueError]. *)
Definition make (y m d : Z) : result date :=
  if valid y m d then Ok (mkdate y m d) else Raise ValueError.

(** [a < b] and [a == b] on dates. *)
Definition ltb (a b : date) : bool :=
  (year a <? year b)
  || ((year a =? year b)
      && ((month a <? month b) || ((month a =? month b) && (day a <? day b)))).

Definition eqb (a b : date) : bool :=
  (year a =? year b) && (month a =? month b) && (day a =? day b).

(** [min(d0 :: ds)]: the first of the least dates. *)
Definition min_date (d0 : date) (ds : list date) : date :=
  fold_left (fun best d => if ltb d best then d else best) ds d0.

(** *** [strptime]

    [strptime] turns the format into a regular expression whose
    directives are ordered alternations, matches it at the start of the
    text and refuses text that is left over.  A directive below lists
    its ways to match in the order [re] tries them. *)

Definition digit_in (lo hi : nat) (c : ascii) : bool := between (48 + lo) (48 + hi) c.

(** [%Y]: [\d\d\d\d] *)
Definition directive_Y (s : list ascii) : list (Z * list ascii) :=
  match s with
  | a :: b :: c :: d :: r =>
      if forallb is_digit [a; b; c; d] then [(int_digits [a; b; c; d], r)] else []
  | _ => []
  end.

Definition two (pa pb : ascii -> bool) (s : list ascii) : list (Z * list ascii) :=
  match s with
  | a :: b :: r => if pa a && pb b then [(int_digits [b], r)] else []
  | _ => []
  end.

Definition two_digits (pa pb : ascii -> bool) (s : list ascii) : list (Z * list ascii) :=
  match s with
  | a :: b :: r => if pa a && pb b then [(int_digits [a; b], r)] else []
  | _ => []
  end.

Definition one_digit (pa : ascii -> bool) (s : list ascii) : list (Z * list ascii) :=
  match s with
  | a :: r => if pa a then [(int_digits [a], r)] else []
  | _ => []
  end.

(** [%m]: [1[0-2]|0[1-9]|[1-9]] *)
Definition directive_m (s : list ascii) : list (Z * list ascii) :=
  two_digits (digit_in 1 1) (digit_in 0 2) s
  ++ two_digits (digit_in 0 0) (digit_in 1 9) s
  ++ one_digit (digit_in 1 9) s.

(** [%d]: [3[0-1]|[1-2]\d|0[1-9]|[1-9]| [1-9]] *)
Definition directive_d (s : list ascii) : list (Z * list ascii) :=
  two_digits (digit_in 3 3) (digit_in 0 1) s
  ++ two_digits (digit_in 1 2) is_digit s
  ++ two_digits (digit_in 0 0) (digit_in 1 9) s
  ++ one_digit (digit_in 1 9) s
  ++ two (fun c => Ascii.eqb c " ") (digit_in 1 9) s.

Definition literal (c : ascii) (s : list ascii) : list (list ascii) :=
  match s with
  | c' :: r => if Ascii.eqb c c' then [r] else []
  | [] => []
  end.

(** A space of the format stands for [\s+]: the longest run first. *)
Fixpoint spaces (s : list ascii) : list (list ascii) :=
  match s with
  | c :: r => if is_space c then spaces r ++ [r] else []
  | [] => []
  end.

(** The full month names of the C locale, longest first, matched
    without regard to case. *)
Definition month_names : list (string * Z) :=
  [("september", 9); ("february", 2); ("november", 11); ("december", 12);
   ("january", 1); ("october", 10); ("august", 8); ("march", 3);
   ("april", 4); ("june", 6); ("july", 7); ("may", 5)]%string.

Fixpoint strip_prefix_ci (p s : list ascii) : option (list ascii) :=
  match p, s with
  | [], _ => Some s
  | a :: p', b :: s' => if Ascii.eqb a (lower b) then strip_prefix_ci p' s' else None
  | _ :: _, [] => None
  end.

(** [%B] *)
Definition directive_B (s : list ascii) : list (Z * list ascii) :=
  flat_map (fun nm => match strip_prefix_ci (chars (fst nm)) s with
                      | Some r => [(snd nm, r)]
                      | None => []
                      end) month_names.

Definition finish (found : list (Z * Z * Z * list ascii)) : result date :=
  match found with
  | (y, m, d, []) :: _ => make y m d
  | _ => Raise ValueError
  end.

(** [datetime.strptime(s, "%Y-%m-%d").date()] *)
Definition strptime_Ymd (s : list ascii) : result date :=
  finish ('(y, r) ← directive_Y s; r ← literal "-" r;
          '(m, r) ← directive_m r; r ← literal "-" r;
          '(d, r) ← directive_d r; [(y, m, d, r)]).

(** [datetime.strptime(s, "%B %d %Y").date()] *)
Definition strptime_BdY (s : list ascii) : result date :=
  finish ('(m, r) ← directive_B s; r ← spaces r;
          '(d, r) ← directive_d r; r ← spaces r;
          '(y, r) ← directive_Y r; [(y, m, d, r)]).

(** [d.strftime("%Y-%m-%d")]. [%Y] is taken on four digits; an
    interpreter that leaves the padding of [%Y] to the C library may
    render a year below 1000 without its leading zeros. *)
Definition strftime_Ymd (d : date) : string :=
  str (pad4 (year d) ++ "-"%char :: pad2 (month d) ++ "-"%char :: pad2 (day d)).

End datetime.


(** ** The regular expressions of the scripts *)

Module patterns.
Import text re.

(** [-\d{8}$] *)
Definition DATE_SUFFIX_RE : pattern :=
  [Lit "-"; Cls is_digit 8 (Some 8%nat); Dollar].

(** [([A-Za-z]+)\s+(\d{1,2}),\s+(\d{4})] *)
Definition CLAUDE_DATE_RE : pattern :=
  [GOpen; Cls is_alpha 1 None; GClose; Cls is_space 1 None;
   GOpen; Cls is_digit 1 (Some 2%nat); GClose; Lit ","; Cls is_space 1 None;
   GOpen; Cls is_digit 4 (Some 4%nat); GClose].

(** [(\d{1,2})/(\d{1,2})/(\d{4})] *)
Definition AWS_DATE_RE : pattern :=
  [GOpen; Cls is_digit 1 (Some 2%nat); GClose; Lit "/";
   GOpen; Cls is_digit 1 (Some 2%nat); GClose; Lit "/";
   GOpen; Cls is_digit 4 (Some 4%nat); GClose].

(** [\b(\d{4}-\d{2}-\d{2})\b] *)
Definition ISO_DATE_RE : pattern :=
  [WordB; GOpen; Cls is_digit 4 (Some 4%nat); Lit "-"; Cls is_digit 2 (Some 2%nat);
   Lit "-"; Cls is_digit 2 (Some 2%nat); GClose; WordB].

(** [\s+] *)
Definition SPACES_RE : pattern := [Cls is_space 1 None].

(** [[^a-z0-9\s]] *)
Definition NOT_WORD_RE : pattern :=
  [Cls (fun c => negb (between 97 122 c || is_digit c || is_space c)) 1 (Some 1%nat)].

End patterns.

(** [try: dates.append(e) except ValueError: pass] *)
Definition try_append (dates : list datetime.date) (r : result datetime.date)
    : result (list datetime.date) :=
  match r with
  | Ok d => Ok (dates ++ [d])
  | Raise ValueError => Ok dates
  | Raise e => Raise e
  end.

(** [min(dates).strftime("%Y-%m-%d")], or [None] for no date. *)
Definition earliest (dates : list datetime.date) : option string :=
  match dates with
  | [] => None
  | d0 :: ds => Some (datetime.strftime_Ymd (datetime.min_date d0 ds))
  end.

(** [f"{month} {day} {year}"] *)
Definition month_day_year (month day year : list ascii) : list ascii :=
  month ++ " "%char :: day ++ " "%char :: year.

(** ** [scrape.py]: the three sources in one script *)

Module scrape.
Import text re patterns pyrow.

Definition normalize_model_name (name : option string) : option string :=
  match name with
  | Some n => if truthy name then Some (sub_empty DATE_SUFFIX_RE (strip n)) else name
  | None => None
  end.

Definition iso_dates (t : string) : result (list datetime.date) :=
  for_each (fun dates m => try_append dates (datetime.strptime_Ymd m))
           (findall ISO_DATE_RE t) [].

Definition claude_date (t : string) (dates : list datetime.date)
    : result (list datetime.date) :=
  match search CLAUDE_DATE_RE t with
  | Some m =>
      match m_groups m with
      | [month; day; year] =>
          try_append dates (datetime.strptime_BdY (month_day_year month day year))
      | _ => Raise ValueError
      end
  | None => Ok dates
  end.

Definition aws_date (t : string) (dates : list datetime.date)
    : result (list datetime.date) :=
  match search AWS_DATE_RE t with
  | Some m =>
      match m_groups m with
      | [month; day; year] =>
          try_append dates
            (y ← int year; mo ← int month; d ← int day; datetime.make y mo d)
      | _ => Raise ValueError
      end
  | None => Ok dates
  end.

Definition normalize_date_from_text (text : option string) : result (option string) :=
  match text with
  | Some t =>
      if truthy text then
        dates ← iso_dates t;
        dates ← claude_date t dates;
        dates ← aws_date t dates;
        Ok (earliest dates)
      else Ok None
  | None => Ok None
  end.

(** *** Deduplication *)

Definition retirement_date_of (r : row) : result datetime.date :=
  s ← getitem r "retirement_date"; datetime.strptime_Ymd (chars s).

Definition dedup_body (best : list (string * row)) (r : row)
    : result (list (string * row)) :=
  key ← getitem r "model_name";
  date ← retirement_date_of r;
  match odict.get key best with
  | None => Ok (odict.set key r best)
  | Some existing =>
      existing_date ← retirement_date_of existing;
      if datetime.ltb date existing_date then Ok (odict.set key r best)
      else if datetime.eqb date existing_date then
        if truthy (r !! "recommended_replacement")
           && negb (truthy (existing !! "recommended_replacement"))
        then Ok (odict.set key r best)
        else Ok best
      else Ok best
  end.

Definition deduplicate_rows (rows : list row) : result (list row) :=
  best ← for_each dedup_body rows [];
  Ok (odict.values best).

(** *** The rows the scrapers build

    The three scrapers walk the tables of their page and hand the texts
    of the cells of a table row to the same statements: the date is
    normalized, a row without a date is skipped, the names are
    normalized and the row is appended; the rows of the page are then
    deduplicated.  [raw_repl] is [""] where the table has no replacement
    cell. *)

Definition CLAUDE_URL : string :=
  "https://platform.claude.com/docs/en/about-claude/model-deprecations".
Definition AWS_URL : string :=
  "https://docs.aws.amazon.com/bedrock/latest/userguide/model-lifecycle.html".
Definition AZURE_URL : string :=
  "https://learn.microsoft.com/en-us/azure/ai-foundry/openai/concepts/model-retirements".

(** [normalize_model_name] of a [str] is a [str]. *)
Definition model_name_of (raw : string) : string :=
  default raw (normalize_model_name (Some raw)).

Definition append_row (source : string) (rows : list row)
    (cells : string * string * string) : result (list row) :=
  let '(raw_model, raw_date, raw_repl) := cells in
  date ← normalize_date_from_text (Some raw_date);
  match date with
  | Some d =>
      if truthy date then
        Ok (rows ++ [ {[ "source" := source;
                         "model_name" := model_name_of raw_model;
                         "retirement_date" := d;
                         "recommended_replacement" := model_name_of raw_repl ]} ])
      else Ok rows
  | None => Ok rows
  end.

Definition scraped_rows (source : string) (cells : list (string * string * string))
    : result (list row) :=
  rows ← for_each (append_row source) cells [];
  deduplicate_rows rows.

(** *** The feed: one item per row *)

Record rss_item := mk_item
  { title : string; description : string; guid : string; pubDate : string }.

Definition rss_item_of (now : string) (r : row) : result rss_item :=
  model ← getitem r "model_name";
  source ← getitem r "source";
  date ← getitem r "retirement_date";
  let description :=
    "Source: " +:+ source +:+ String newline ("Model: " +:+ model)
      +:+ String newline ("Retirement date: " +:+ date) in
  description ←
    (if truthy (r !! "recommended_replacement") then
       repl ← getitem r "recommended_replacement";
       Ok (description +:+ String newline ("Recommended replacement: " +:+ repl))
     else Ok description);
  Ok {| title := model +:+ " retirement update";
        description := description;
        guid := source +:+ "|" +:+ model +:+ "|" +:+ date;
        pubDate := now |}.

(** The items [write_rss(rows, path)] puts in the channel. *)
Definition write_rss (now : string) (rows : list row) : result (list rss_item) :=
  for_each (fun items r => item ← rss_item_of now r; Ok (items ++ [item])) rows [].

(** *** The CSV snapshot and the comparison with it *)

Definition fieldnames : list string :=
  ["source"; "model_name"; "retirement_date"; "recommended_replacement"].

(** One line of [csv.DictWriter]: a key outside [fieldnames] raises
    [ValueError], a missing one is written empty. *)
Definition csv_line (r : row) : result row :=
  if forallb (fun k => bool_decide (k ∈ fieldnames)) (map fst (map_to_list r)) then
    Ok (list_to_map (map (fun k => (k, get_or_empty r k)) fieldnames))
  else Raise ValueError.

(** The lines [write_csv(rows, path)] leaves in the file. *)
Definition write_csv (rows : list row) : result (list row) :=
  for_each (fun lines r => line ← csv_line r; Ok (lines ++ [line])) rows [].

Definition load_existing_csv (lines : list row)
    : result (list ((string * string) * row)) :=
  for_each (fun existing r =>
              source ← getitem r "source";
              model ← getitem r "model_name";
              Ok (odict.set (source, model) r existing)) lines [].

Definition diff_body (existing_rows : list ((string * string) * row))
    (changes : list row) (r : row) : result (list row) :=
  source ← getitem r "source";
  model ← getitem r "model_name";
  match odict.get (source, model) existing_rows with
  | None => Ok (changes ++ [r])
  | Some existing =>
      date ← getitem r "retirement_date";
      existing_date ← getitem existing "retirement_date";
      if negb (String.eqb date existing_date)
         || negb (String.eqb (get_or_empty r "recommended_replacement")
                             (get_or_empty existing "recommended_replacement"))
      then Ok (changes ++ [r])
      else Ok changes
  end.

Definition diff_rows (new_rows : list row)
    (existing_rows : list ((string * string) * row)) : result (list row) :=
  for_each (diff_body existing_rows) new_rows [].

(** *** The script body

    The files under [output/]: [None] is a file that does not exist.
    [all_rows] is what the three scrapers returned, [now] the clock.
    [SystemExit(0)] ends a run as its last statement does; a run that
    raises is not followed further. *)

Record files := mk_files
  { model_retirements_csv : option (list row);
    model_retirements_changes_csv : option (list row);
    rss_xml : option (list rss_item) }.

Definition main (now : string) (all_rows : list row) (fs : files) : result files :=
  match all_rows with
  | [] => Raise RuntimeError
  | _ =>
      match model_retirements_csv fs with
      | None =>
          (* First run: no existing file *)
          lines ← write_csv all_rows;
          items ← write_rss now all_rows;
          Ok {| model_retirements_csv := Some lines;
                model_retirements_changes_csv := model_retirements_changes_csv fs;
                rss_xml := Some items |}
      | Some lines =>
          (* Subsequent runs: diff against existing data *)
          existing ← load_existing_csv lines;
          changes ← diff_rows all_rows existing;
          match changes with
          | [] => Ok fs
          | _ =>
              changed_lines ← write_csv changes;
              items ← write_rss now all_rows;
              Ok {| model_retirements_csv := model_retirements_csv fs;
                    model_retirements_changes_csv := Some changed_lines;
                    rss_xml := Some items |}
          end
      end
  end.

End scrape.

(** ** [scrape_claude_retirements.py] *)

Module scrape_claude_retirements.
Import text re patterns pyrow.

Definition normalize_retirement_date (raw_date : option string) : result (option string) :=
  match raw_date with
  | Some t =>
      if truthy raw_date then
        match search CLAUDE_DATE_RE t with
        | None => Raise ValueError
        | Some m =>
            match m_groups m with
            | [month; day; year] =>
                parsed ← datetime.strptime_BdY (month_day_year month day year);
                Ok (Some (datetime.strftime_Ymd parsed))
            | _ => Raise ValueError
            end
        end
      else Ok None
  | None => Ok None
  end.

Definition normalize_model_name (model_name : option string) : option string :=
  match model_name with
  | Some n => if truthy model_name then Some (sub_empty DATE_SUFFIX_RE n) else model_name
  | None => None
  end.

(** Keep the row with a non-empty replacement, else the first one. *)
Definition dedup_body (deduped : list (string * row)) (r : row)
    : result (list (string * row)) :=
  key ← getitem r "deprecated_model_name";
  match odict.get key deduped with
  | None => Ok (odict.set key r deduped)
  | Some existing =>
      let existing_has_replacement := truthy (existing !! "recommended_replacement") in
      let current_has_replacement := truthy (r !! "recommended_replacement") in
      if negb existing_has_replacement && current_has_replacement
      then Ok (odict.set key r deduped)
      else Ok deduped
  end.

Definition deduplicate_deprecations (rows : list row) : result (list row) :=
  deduped ← for_each dedup_body rows [];
  Ok (odict.values deduped).

End scrape_claude_retirements.

(** ** [scrape_aws_retirements.py] *)

Module scrape_aws_retirements.
Import text re patterns pyrow.

Definition normalize_retirement_date (raw_date : option string) : result (option string) :=
  match raw_date with
  | Some t =>
      if truthy raw_date then
        match search AWS_DATE_RE t with
        | None => Ok None
        | Some m =>
            match m_groups m with
            | [month; day; year] =>
                match (y ← int year; mo ← int month; d ← int day; datetime.make y mo d) with
                | Ok dt => Ok (Some (datetime.strftime_Ymd dt))
                | Raise ValueError => Ok None
                | Raise e => Raise e
                end
            | _ => Raise ValueError
            end
        end
      else Ok None
  | None => Ok None
  end.

End scrape_aws_retirements.

(** ** [scrape_openai_retirements.py] *)

Module scrape_openai_retirements.
Import text re patterns pyrow.

(** [text or ""] *)
Definition extract_earliest_date (text : option string) : result (option string) :=
  let matches := findall ISO_DATE_RE (default ""%string text) in
  match matches with
  | [] => Ok None
  | _ =>
      dates ← for_each (fun dates m => try_append dates (datetime.strptime_Ymd m)) matches [];
      Ok (earliest dates)
  end.

Definition retirement_date_of (r : row) : result datetime.date :=
  s ← getitem r "retirement_date"; datetime.strptime_Ymd (chars s).

(** Keep the earliest retirement date. *)
Definition dedup_body (best_rows : list (string * row)) (r : row)
    : result (list (string * row)) :=
  model ← getitem r "model_name";
  current_date ← retirement_date_of r;
  match odict.get model best_rows with
  | None => Ok (odict.set model r best_rows)
  | Some existing =>
      existing_date ← retirement_date_of existing;
      if datetime.ltb current_date existing_date
      then Ok (odict.set model r best_rows)
      else Ok best_rows
  end.

Definition deduplicate_by_earliest_retirement (rows : list row) : result (list row) :=
  best_rows ← for_each dedup_body rows [];
  Ok (odict.values best_rows).

End scrape_openai_retirements.



(** ** [scrape_ms_retirements.py]: the multi-tab source with a JSON
    snapshot and an accumulating feed *)

Module scrape_ms_retirements.
Import text pyrow.

Definition MS_URL_BASE : string :=
  "https://learn.microsoft.com/en-us/azure/ai-foundry/openai/concepts/model-retirements".

Definition TAB_MAP : list (string * string) :=
  [("Text", "text"); ("Audio", "audio"); ("Image and video", "image");
   ("Embedding", "embedding")].

(** *** The texts of the page *)

(** Map a section heading to one of the keys of [TAB_MAP]. *)
Definition canonical_type_from_title (title : string) : option string :=
  if negb (truthy (Some title)) then None
  else
    let s := lower_str (strip title) in
    let s := replace s "&" "and" in
    let s := re.sub_with patterns.NOT_WORD_RE " " s in
    let s := re.sub_with patterns.SPACES_RE " " s in
    if contains "embedding" s then Some "Embedding"
    else if contains "audio" s || contains "speech" s then Some "Audio"
    else if contains "image" s || contains "video" s || contains "vision" s
    then Some "Image and video"
    else if contains "text" s || contains "text generation" s || contains "chat" s
    then Some "Text"
    else None.

(** Surrounding backticks and white space are removed, runs of white
    space become one space. *)
Definition normalize_text (s : option string) : string :=
  match s with
  | None => ""
  | Some s =>
      let s := strip (strip_of (fun c => Ascii.eqb c "`") (strip s)) in
      re.sub_with patterns.SPACES_RE " " s
  end.

(** [header_key] of [parse_table]: the canonical name of a column. *)
Definition header_key (h : string) : string :=
  let hl := lower_str h in
  if contains "model version" hl || (contains "version" hl && negb (contains "model" hl))
  then "Version"
  else if contains "model name" hl || String.eqb hl "model" || startswith hl "model "
  then "Model"
  else if contains "lifecycle" hl || contains "status" hl then "Lifecycle status"
  else if contains "deprecation" hl then "Deprecation date"
  else if contains "retirement" hl then "Retirement date"
  else if contains "replacement" hl then "Replacement model"
  else h.

(** The rows of a table, from the texts of its header cells and of the
    cells of its [tr] elements; [thead] tells that the table has a
    [thead] element. *)
Definition table_row (keys values : list string) (type_label : string) : row :=
  let r : row :=
    fold_left (fun (r : row) '(i, v) =>
                 <[ nth i keys ("Col" +:+ str_int (Z.of_nat (S i))) := v ]> r)
              (combine (seq 0 (length values)) values) ∅ in
  let r : row := (fun v => normalize_text (Some v)) <$> r in
  <[ "Type" := type_label ]> r.

Definition parse_table (thead : bool) (header_texts : list string)
    (trs : list (list string)) (type_label : string) : list row :=
  let headers := map (fun h => normalize_text (Some h)) header_texts in
  let keys := map header_key headers in
  fold_left
    (fun rows cols =>
       if (length cols <? 2)%nat then rows
       else
         let values := map (fun c => normalize_text (Some c)) cols in
         if negb thead && bool_decide (values = headers) then rows
         else rows ++ [table_row keys values type_label])
    trs [].

(** Key by (Type, Model, Version) *)
Definition key_for_row (r : row) : list string :=
  [get_or_empty r "Type"; get_or_empty r "Model"; get_or_empty r "Version"].

(** *** The snapshot file

    The JSON document is the ordered list of its members; an identity
    tuple is flattened with ["||".join] and recovered with
    [split("||")]. *)

Definition cons_head (c : ascii) (pieces : list string) : list string :=
  match pieces with
  | p :: pieces' => String c p :: pieces'
  | [] => [String c ""]
  end.

(** [s.split("||")] *)
Fixpoint split (s : string) : list string :=
  match s with
  | EmptyString => [""]
  | String c s' =>
      match s' with
      | String c' s'' =>
          if Ascii.eqb c "|" && Ascii.eqb c' "|" then "" :: split s''
          else cons_head c (split s')
      | EmptyString => cons_head c (split s')
      end
  end.

Definition load_snapshot (file : option (list (string * row)))
    : list (list string * row) :=
  match file with
  | None => []
  | Some raw => odict.map_keys split raw
  end.

Definition save_snapshot (snapshot : list (list string * row)) : list (string * row) :=
  odict.map_keys (join "||") snapshot.

(** *** Change detection *)

Inductive change :=
| new (key : list string) (new_row : row) (message : string)
| update (key : list string) (old_row new_row : row)
         (diffs : list (string * (string * string))) (message : string)
| baseline (key : list string) (message : string).

Definition change_key (ch : change) : list string :=
  match ch with
  | new k _ _ | update k _ _ _ _ | baseline k _ => k
  end.

Definition change_message (ch : change) : string :=
  match ch with
  | new _ _ m | update _ _ _ _ m | baseline _ m => m
  end.

Definition FIELDS : list string :=
  ["Lifecycle status"; "Deprecation date"; "Retirement date"; "Replacement model"].

(** The [diffs] dictionary of one row, filled field by field. *)
Definition field_diffs (old_row r : row) : list (string * (string * string)) :=
  fold_left
    (fun diffs field =>
       if negb (String.eqb (get_or_empty old_row field) (get_or_empty r field))
       then odict.set field (get_or_empty old_row field, get_or_empty r field) diffs
       else diffs)
    FIELDS [].

(** [f"{f}: '{a}' → '{b}'"] *)
Definition diff_text (d : string * (string * string)) : string :=
  fst d +:+ ": '" +:+ fst (snd d) +:+ "' → '" +:+ snd (snd d) +:+ "'".

(** [f"[{k[0]}] {k[1]} {k[2]}"] *)
Definition key_text (k : list string) : string :=
  "[" +:+ nth 0 k "" +:+ "] " +:+ nth 1 k "" +:+ " " +:+ nth 2 k "".

Definition compare_body (old : list (list string * row))
    (st : list change * list (list string * row)) (r : row)
    : list change * list (list string * row) :=
  let k := key_for_row r in
  let new_snapshot := odict.set k r (snd st) in
  match odict.get k old with
  | None =>
      (fst st ++ [new k r ("New model listed in Current models: " +:+ key_text k)],
       new_snapshot)
  | Some old_row =>
      let diffs := field_diffs old_row r in
      match diffs with
      | [] => (fst st, new_snapshot)
      | _ =>
          (fst st ++ [update k old_row r diffs
                        ("Updated fields for " +:+ key_text k +:+ ": "
                         +:+ join ", " (map diff_text diffs))],
           new_snapshot)
      end
  end.

Definition compare_snapshots (old : list (list string * row)) (new_rows : list row)
    : list change * list (list string * row) :=
  fold_left (compare_body old) new_rows ([], []).

(** *** The feed *)

Record rss_item := mk_item
  { title : string; link : string; guid : string; pubDate : string;
    description : string }.

(** One reading of the clock: [now.strftime(...)] and
    [str(now.timestamp())]. *)
Record clock := mk_clock { pubdate : string; timestamp : string }.

Definition make_tabs_link (type_label : string) : string :=
  let tab :=
    default (default "text" (odict.get (replace type_label " and video" "") TAB_MAP))
            (odict.get type_label TAB_MAP) in
  MS_URL_BASE +:+ "?" +:+ "tabs=" +:+ tab.

Definition escape_xml (s : string) : string :=
  replace (replace (replace s "&" "&amp;") "<" "&lt;") ">" "&gt;".

(** The [guid] of an entry; [hash] is the interpreter's string hash,
    salted anew for every process. *)
Definition entry_guid (hash : string -> Z) (now : clock)
    (type_label model version : string) : string :=
  type_label +:+ "|" +:+ model +:+ "|" +:+ version +:+ "|"
    +:+ str_int (hash (model +:+ version +:+ timestamp now)).

Definition rss_item_of (hash : string -> Z) (now : clock) (ch : change)
    : result rss_item :=
  match change_key ch with
  | [type_label; model; version] =>
      let desc_lines :=
        match ch with
        | new _ _ _ => ["New row detected in Current models table."]
        | update _ _ _ diffs _ => map diff_text diffs
        | baseline _ _ => ["Initial baseline snapshot created."]
        end in
      Ok {| title := escape_xml (change_message ch);
            link := make_tabs_link type_label;
            guid := escape_xml (entry_guid hash now type_label model version);
            pubDate := pubdate now;
            description := escape_xml (join (String newline "") desc_lines) |}
  | _ => Raise ValueError
  end.

(** The items already in the feed file; none when there is no file. *)
Definition read_existing_rss_items (file : option (list rss_item)) : list rss_item :=
  default [] file.

(** The items [write_rss(changes, out_rss)] leaves in the feed file. *)
Definition write_rss (hash : string -> Z) (now : clock) (changes : list change)
    (file : option (list rss_item)) : result (list rss_item) :=
  match changes with
  | [] => Ok (read_existing_rss_items file)
  | _ =>
      items_xml ← for_each (fun items ch => item ← rss_item_of hash now ch;
                                            Ok (items ++ [item])) changes [];
      Ok (items_xml ++ read_existing_rss_items file)
  end.

(** *** The script body *)

Definition csv_fields : list string :=
  ["Type"; "Model"; "Version"; "Lifecycle status"; "Deprecation date";
   "Retirement date"; "Replacement model"].

Definition write_csv (rows : list row) : list row :=
  map (fun r => list_to_map (map (fun k => (k, get_or_empty r k)) csv_fields)) rows.

Definition type_order (t : option string) : Z :=
  match t with
  | Some t =>
      if String.eqb t "Text" then 0
      else if String.eqb t "Audio" then 1
      else if String.eqb t "Image and video" then 2
      else if String.eqb t "Embedding" then 3
      else 99
  | None => 99
  end%Z.

Definition sort_key (r : row) : Z * string * string :=
  (type_order (r !! "Type"), get_or_empty r "Model", get_or_empty r "Version").

Definition key_ltb (a b : Z * string * string) : bool :=
  let '(ta, ma, va) := a in
  let '(tb, mb, vb) := b in
  (ta <? tb)%Z
  || ((ta =? tb)%Z && (String.ltb ma mb || (String.eqb ma mb && String.ltb va vb))).

Fixpoint insert_row (r : row) (sorted : list row) : list row :=
  match sorted with
  | [] => [r]
  | y :: sorted' =>
      if key_ltb (sort_key y) (sort_key r) then y :: insert_row r sorted'
      else r :: sorted
  end.

(** [rows.sort(key=...)]: stable. *)
Definition sort_rows (rows : list row) : list row := foldr insert_row [] rows.

Record files := mk_files
  { snapshot_json : option (list (string * row));
    current_models_csv : option (list row);
    rss_xml : option (list rss_item) }.

Definition baseline_change : change :=
  baseline ["-"; "-"; "-"] "Baseline created; snapshot initialized.".

(** [rows] is what [parse_current_models] returned. *)
Definition main (hash : string -> Z) (now : clock) (rows : list row) (fs : files)
    : result files :=
  let rows := sort_rows rows in
  let csv := write_csv rows in
  let old_snapshot := load_snapshot (snapshot_json fs) in
  let '(changes, new_snapshot) := compare_snapshots old_snapshot rows in
  let saved := save_snapshot new_snapshot in
  let changes :=
    match old_snapshot with
    | [] => [baseline_change]
    | _ => changes
    end in
  items ← write_rss hash now changes (rss_xml fs);
  Ok {| snapshot_json := Some saved;
        current_models_csv := Some csv;
        rss_xml := Some items |}.

End scrape_ms_retirements.


(** ** Deduplication, as the specification words it

    Rows are grouped by identity; in a group the rows with the earliest
    date are kept, among them those with a replacement when there is one,
    and the first of what is left is the record of the identity.  The
    identities come in the order of their first appearance. *)

#[export] Instance date_eq_dec : EqDecision datetime.date.
Proof. solve_decision. Defined.

Module spec.

Definition first_seen (ks : list string) : list string :=
  fold_left (fun acc k => if decide (k ∈ acc) then acc else acc ++ [k]) ks [].

Definition group (ident : row -> string) (k : string) (rows : list row) : list row :=
  filter (fun r => ident r = k) rows.

Definition earliest_rows (date_of : row -> datetime.date) (g : list row) : list row :=
  match map date_of g with
  | [] => []
  | d0 :: ds => filter (fun r => date_of r = datetime.min_date d0 ds) g
  end.

Definition replacement_first (has_repl : row -> bool) (g : list row) : list row :=
  match filter (fun r => has_repl r = true) g with
  | [] => g
  | l => l
  end.

(** earliest date, then a replacement, then first seen *)
Definition preferred (date_of : row -> datetime.date) (has_repl : row -> bool)
    (g : list row) : option row :=
  head (replacement_first has_repl (earliest_rows date_of g)).

(** a replacement, then first seen *)
Definition preferred_replacement_only (has_repl : row -> bool) (g : list row)
    : option row :=
  head (replacement_first has_repl g).

(** earliest date, then first seen *)
Definition preferred_date_only (date_of : row -> datetime.date) (g : list row)
    : option row :=
  head (earliest_rows date_of g).

Definition select (ident : row -> string) (choose : list row -> option row)
    (rows : list row) : list row :=
  omap (fun k => choose (group ident k rows)) (first_seen (map ident rows)).

End spec.

(** The fields the deduplicators read, as total functions of a row. *)

Definition field (name : string) (r : row) : string := pyrow.get_or_empty r name.

Definition date_of (r : row) : datetime.date :=
  match scrape.retirement_date_of r with
  | Ok d => d
  | Raise _ => datetime.mkdate 1 1 1
  end.

Definition has_replacement (r : row) : bool :=
  pyrow.truthy (r !! "recommended_replacement"%string).

(** A row as the scrapers build them: it has the identity field [name]
    and, when [dated], a retirement date that [strptime] reads. *)
Definition well_formed (name : string) (dated : bool) (r : row) : Prop :=
  is_Some (r !! name) /\ (dated = true -> returns (scrape.retirement_date_of r)).

(** The loop of a deduplicator without its exceptions: a row replaces the
    one kept for its identity when it is [better]. *)

Definition keep (ident : row -> string) (better : row -> row -> bool)
    (best : list (string * row)) (r : row) : list (string * row) :=
  match odict.get (ident r) best with
  | None => odict.set (ident r) r best
  | Some existing => if better r existing then odict.set (ident r) r best else best
  end.

Definition pick_step (better : row -> row -> bool) (b : option row) (r : row)
    : option row :=
  match b with
  | None => Some r
  | Some existing => if better r existing then Some r else Some existing
  end.

Definition pick (better : row -> row -> bool) (g : list row) : option row :=
  fold_left (pick_step better) g None.

Definition better_by (date_of : row -> datetime.date) (has_repl : row -> bool)
    (r existing : row) : bool :=
  datetime.ltb (date_of r) (date_of existing)
  || (datetime.eqb (date_of r) (date_of existing)
      && (has_repl r && negb (has_repl existing))).

(** Two rows of one model, for the examples. *)
Definition haiku (date replacement : string) : row :=
  {[ "model_name" := "claude-3-5-haiku"; "deprecated_model_name" := "claude-3-5-haiku";
     "retirement_date" := date; "recommended_replacement" := replacement ]}%string.

(** A loop body that only keeps rows it already had or the row it is
    given. *)
Definition adds_only (body : list (string * row) -> row -> result (list (string * row)))
    : Prop :=
  forall best r best',
    body best r = Ok best' -> forall kv, kv ∈ best' -> kv ∈ best \/ kv.2 = r.

(** ** Identity tuples that survive the snapshot file *)

(** The text contains the separator. *)
Fixpoint has_sep (s : string) : bool :=
  match s with
  | String c s' =>
      match s' with
      | String c' _ => (Ascii.eqb c "|" && Ascii.eqb c' "|") || has_sep s'
      | EmptyString => false
      end
  | EmptyString => false
  end.

(** The text ends with one bar. *)
Fixpoint ends_with_bar (s : string) : bool :=
  match s with
  | String c s' =>
      match s' with
      | EmptyString => Ascii.eqb c "|"
      | String _ _ => ends_with_bar s'
      end
  | EmptyString => false
  end.

(** No component contains the separator. *)
Definition separator_free (k : list string) : Prop :=
  Forall (fun x => has_sep x = false) k.

(** A tuple with at least one component, none of which contains the
    separator and none but the last of which ends with a bar. *)
Fixpoint flat_safe (k : list string) : Prop :=
  match k with
  | [] => False
  | x :: k' =>
      has_sep x = false
      /\ match k' with
         | [] => True
         | _ => ends_with_bar x = false /\ flat_safe k'
         end
  end.

(** ** Change detection, in the words of the specification *)

(** The comparable fields on which the two rows differ, with the old and
    the new value. *)
Definition expected_diffs (old_row r : row) : list (string * (string * string)) :=
  map (fun f => (f, (pyrow.get_or_empty old_row f, pyrow.get_or_empty r f)))
      (filter (fun f => pyrow.get_or_empty old_row f <> pyrow.get_or_empty r f)
              scrape_ms_retirements.FIELDS).

(** The row an event reports. *)
Definition change_row (ch : scrape_ms_retirements.change) : option row :=
  match ch with
  | scrape_ms_retirements.new _ r _ => Some r
  | scrape_ms_retirements.update _ _ r _ _ => Some r
  | scrape_ms_retirements.baseline _ _ => None
  end.

(** The event of one row, if any. *)
Definition event_of (old : list (list string * row)) (r : row)
    : option scrape_ms_retirements.change :=
  match scrape_ms_retirements.compare_body old ([], []) r with
  | ([ch], _) => Some ch
  | _ => None
  end.

(** What [diff_rows] of [scrape.py] reports a row for: an identity the
    file does not have, or another date or replacement. *)
Definition reported (existing : list ((string * string) * row)) (r : row) : Prop :=
  match odict.get (field "source" r, field "model_name" r) existing with
  | None => True
  | Some ex =>
      field "retirement_date" r <> field "retirement_date" ex
      \/ field "recommended_replacement" r <> field "recommended_replacement" ex
  end.

#[export] Instance reported_dec existing r : Decision (reported existing r).
Proof. unfold reported. destruct (odict.get _ existing); apply _. Defined.

(** A row of [scrape.py] with its three mandatory fields. *)
Definition csv_row (r : row) : Prop :=
  is_Some (r !! "source"%string) /\ is_Some (r !! "model_name"%string)
  /\ is_Some (r !! "retirement_date"%string).

(** A row of the unified script, for the examples. *)
Definition model_row (source model date replacement : string) : row :=
  {[ "source" := source; "model_name" := model; "retirement_date" := date;
     "recommended_replacement" := replacement ]}%string.

(** A row of the multi-tab script, for the examples. *)
Definition tab_row (type model version retirement : string) : row :=
  {[ "Type" := type; "Model" := model; "Version" := version;
     "Retirement date" := retirement ]}%string.

(** ** Runs *)

(** No file has been written yet. *)
Definition no_files : scrape.files := scrape.mk_files None None None.
Definition no_ms_files : scrape_ms_retirements.files :=
  scrape_ms_retirements.mk_files None None None.

(** The feed entry of the baseline event. *)
Definition baseline_item (hash : string -> Z) (now : scrape_ms_retirements.clock)
    : scrape_ms_retirements.rss_item :=
  scrape_ms_retirements.mk_item
    "Baseline created; snapshot initialized."
    (scrape_ms_retirements.MS_URL_BASE +:+ "?tabs=text")
    (scrape_ms_retirements.escape_xml
       (scrape_ms_retirements.entry_guid hash now "-" "-" "-"))
    (scrape_ms_retirements.pubdate now)
    "Initial baseline snapshot created.".

(** ** Vocabulary of the properties *)

(** The result is a value or the exception [ValueError]. *)
Definition only_ValueError {A} (r : result A) : Prop :=
  match r with
  | Ok _ => True
  | Raise e => e = ValueError
  end.

(** The number of groups of a pattern. *)
Fixpoint count_close (items : re.pattern) : nat :=
  match items with
  | [] => 0
  | re.GClose :: items' => S (count_close items')
  | _ :: items' => count_close items'
  end.

(** A pattern none of whose matches is empty. *)
Definition matches_nonempty (items : re.pattern) : Prop :=
  forall prev s m, re.match_here items prev s = Some m -> re.m_text m <> [].

(** The calendar dates among the ISO matches of a text, in order. *)
Definition parsed_dates (ms : list (list ascii)) : list datetime.date :=
  omap (fun m => match datetime.strptime_Ymd m with
                 | Ok d => Some d
                 | Raise _ => None
                 end) ms.

(** A date with its fields in the ranges of the calendar. *)
Definition valid_date (d : datetime.date) : Prop :=
  datetime.valid (datetime.year d) (datetime.month d) (datetime.day d) = true.

(** ** The order of the rows of the multi-tab script *)

(** A row that does not sort after another: its key is not greater. *)
Definition not_after (a b : row) : Prop :=
  scrape_ms_retirements.key_ltb (scrape_ms_retirements.sort_key b)
                                (scrape_ms_retirements.sort_key a) = false.

(** ** The rows of [scrape.py] in its files *)

(** The row has no key other than the four columns. *)
Definition columns_only (r : row) : Prop :=
  forall k, is_Some (r !! k) -> k ∈ scrape.fieldnames.

(** The line [csv.DictWriter] writes for a row: the four columns, an
    absent one empty. *)
Definition line_of (r : row) : row :=
  list_to_map (map (fun k => (k, pyrow.get_or_empty r k)) scrape.fieldnames).

(** The identity [scrape.py] compares rows by. *)
Definition source_model (r : row) : string * string :=
  (field "source" r, field "model_name" r).

(** The [guid] of the feed entry of a row of [scrape.py]. *)
Definition row_guid (r : row) : string :=
  field "source" r +:+ "|" +:+ field "model_name" r +:+ "|" +:+ field "retirement_date" r.

(** ** Names with a date suffix *)

(** Eight decimal digits. *)
Definition eight_digits (ds : list ascii) : Prop :=
  length ds = 8%nat /\ forallb text.is_digit ds = true.

(** The end of a text for [$]: the end itself or one last newline. *)
Definition at_end (rest : list ascii) : Prop := rest = [] \/ rest = [text.newline].

(** The text ends with a hyphen and eight digits (before its last
    newline, if it ends with one). *)
Definition ends_with_date_suffix (s : list ascii) : Prop :=
  exists body ds rest,
    eight_digits ds /\ at_end rest /\ s = body ++ "-"%char :: ds ++ rest.

(** ** Escaped text and links *)

(** What [escape_xml] makes of one character. *)
Definition xml_char (c : ascii) : list ascii :=
  if Ascii.eqb c "&" then text.chars "&amp;"
  else if Ascii.eqb c "<" then text.chars "&lt;"
  else if Ascii.eqb c ">" then text.chars "&gt;"
  else [c].

(** The tabs of the page. *)
Definition tabs : list string := ["text"; "audio"; "image"; "embedding"]%string.

(** ** One text read by two normalizers *)


(** ** The rows of a page *)

(** What the scrapers of [scrape.py] build: the four columns and nothing
    else, the source of the page, a date [strptime] reads. *)
Definition page_row (source : string) (r : row) : Prop :=
  csv_row r /\ columns_only r /\ field "source" r = source
  /\ well_formed "model_name" true r.

(** A line of the CSV file that [load_existing_csv] can key. *)
Definition keyed_line (l : row) : Prop :=
  is_Some (l !! "source"%string) /\ is_Some (l !! "model_name"%string).

(** ** Tidy texts *)

(** The leading characters of a class. *)
Fixpoint leading (p : ascii -> bool) (l : list ascii) : list ascii :=
  match l with
  | c :: l' => if p c then c :: leading p l' else []
  | [] => []
  end.

(** Every run of white space becomes one space; [in_run] tells that the
    run has begun. *)
Fixpoint squeeze (in_run : bool) (l : list ascii) : list ascii :=
  match l with
  | [] => []
  | c :: l' =>
      if text.is_space c then
        if in_run then squeeze true l' else " "%char :: squeeze true l'
      else c :: squeeze false l'
  end.

(** No white space follows white space. *)
Fixpoint spaced (after_space : bool) (l : list ascii) : bool :=
  match l with
  | [] => true
  | c :: l' =>
      if text.is_space c then negb after_space && spaced true l'
      else spaced false l'
  end.

(** A text without white space at its ends, whose only white space is
    the space and which has no two spaces in a row. *)
Definition tidy (l : list ascii) : Prop :=
  text.strip_chars l = l
  /\ (forall c, c ∈ l -> text.is_space c = true -> c = " "%char)
  /\ (forall l1 l2, l <> l1 ++ " "%char :: " "%char :: l2).

(** The canonical names of the columns. *)
Definition canonical_headers : list string :=
  ["Version"; "Model"; "Lifecycle status"; "Deprecation date"; "Retirement date";
   "Replacement model"]%string.

(** ** Dates in ISO form *)

(** The text is the ISO form of a calendar date: ten characters that
    [strptime] reads back as that date. *)
Definition iso_date (s : string) : Prop :=
  exists d, valid_date d /\ s = datetime.strftime_Ymd d
            /\ datetime.strptime_Ymd (text.chars s) = Ok d
            /\ String.length s = 10%nat.

(** * Properties *)

(** ** Results and loops *)

Lemma bind_Ok {A B} (r : result A) (f : A -> result B) (b : B) :
  r ≫= f = Ok b <-> exists a, r = Ok a /\ f a = Ok b.
Proof.
  destruct r as [a|e]; simpl; split.
  - intros H. exists a. split; [reflexivity | exact H].
  - intros (a' & Ha & H). congruence.
  - discriminate.
  - intros (a' & Ha & _). discriminate.
Qed.

(** A loop whose body never raises on the states it meets returns. *)
Lemma for_each_returns {A S} (I : S -> Prop) (body : S -> A -> result S)
    (xs : list A) (st : S) :
  I st ->
  (forall st x, I st -> exists st', body st x = Ok st' /\ I st') ->
  exists st', for_each body xs st = Ok st' /\ I st'.
Proof.
  intros Hst Hbody. revert st Hst.
  induction xs as [|x xs IH]; intros st Hst; simpl.
  - exists st. split; [reflexivity | exact Hst].
  - destruct (Hbody st x Hst) as (st' & -> & Hst'). simpl. apply IH, Hst'.
Qed.

(** An invariant of the rows seen so far is carried through the loop. *)
Lemma for_each_invariant {A S} (I : list A -> S -> Prop) (body : S -> A -> result S) :
  (forall seen st x st', I seen st -> body st x = Ok st' -> I (seen ++ [x]) st') ->
  forall xs seen st st',
    I seen st -> for_each body xs st = Ok st' -> I (seen ++ xs) st'.
Proof.
  intros Hbody. induction xs as [|x xs IH]; intros seen st st' HI Hrun; simpl in Hrun.
  - injection Hrun as <-. rewrite app_nil_r. exact HI.
  - apply bind_Ok in Hrun as (st1 & Hb & Hrun).
    replace (seen ++ x :: xs) with ((seen ++ [x]) ++ xs) by (rewrite <- app_assoc; reflexivity).
    eapply IH; [|exact Hrun]. eapply Hbody; eassumption.
Qed.

Lemma try_append_returns (dates : list datetime.date) (r : result datetime.date) :
  only_ValueError r -> returns (try_append dates r).
Proof.
  destruct r as [d|e]; simpl; intros H.
  - eexists. reflexivity.
  - subst e. eexists. reflexivity.
Qed.

(** ** Dates *)

Lemma make_only_ValueError (y m d : Z) : only_ValueError (datetime.make y m d).
Proof. unfold datetime.make. destruct (datetime.valid y m d); simpl; auto. Qed.

Lemma finish_only_ValueError found : only_ValueError (datetime.finish found).
Proof.
  unfold datetime.finish.
  destruct found as [|[[[y m] d] [|c r]] found]; simpl; auto using make_only_ValueError.
Qed.

Lemma strptime_Ymd_only_ValueError s : only_ValueError (datetime.strptime_Ymd s).
Proof. apply finish_only_ValueError. Qed.

Lemma strptime_BdY_only_ValueError s : only_ValueError (datetime.strptime_BdY s).
Proof. apply finish_only_ValueError. Qed.

Lemma int_only_ValueError l : only_ValueError (text.int l).
Proof.
  unfold text.int. destruct l; simpl; auto.
  destruct (_ && _); simpl; auto.
Qed.

Lemma int_make_only_ValueError (year month day : list ascii) :
  only_ValueError
    (y ← text.int year; mo ← text.int month; d ← text.int day; datetime.make y mo d).
Proof.
  pose proof (int_only_ValueError year) as Hy.
  pose proof (int_only_ValueError month) as Hm.
  pose proof (int_only_ValueError day) as Hd.
  destruct (text.int year); simpl in *; auto.
  destruct (text.int month); simpl in *; auto.
  destruct (text.int day); simpl in *; auto.
  apply make_only_ValueError.
Qed.

(** ** The matcher: every match of a pattern has one text per group *)

Lemma rep_inv {R} (P : R -> Prop) p lo hi
    (k : list ascii -> option ascii -> list ascii -> option R) s :
  (forall taken prev s' r, k taken prev s' = Some r -> P r) ->
  forall n taken prev r, re.rep p lo hi k n taken prev s = Some r -> P r.
Proof.
  intros Hk. induction s as [|c s IH]; intros n taken prev r; simpl.
  - destruct (lo <=? n)%nat; [apply Hk | discriminate].
  - destruct (p c && re.below n hi).
    + destruct (re.rep p lo hi k (S n) (c :: taken) (Some c) s) eqn:E.
      * intros [= <-]. eapply IH, E.
      * destruct (lo <=? n)%nat; [apply Hk | discriminate].
    + destruct (lo <=? n)%nat; [apply Hk | discriminate].
Qed.

Lemma run_groups items :
  forall txt opens groups prev s m,
    re.run items txt opens groups prev s = Some m ->
    length (re.m_groups m) = (length groups + count_close items)%nat.
Proof.
  induction items as [|it items IH]; intros txt opens groups prev s m; simpl.
  - intros [= <-]. simpl. rewrite length_rev. lia.
  - destruct it; simpl.
    + destruct s as [|c' s]; [discriminate|].
      destruct (Ascii.eqb c c'); [apply IH | discriminate].
    + apply (rep_inv (fun m => length (re.m_groups m)
                                 = (length groups + count_close items)%nat)).
      intros taken prev' s' r. apply IH.
    + destruct (xorb _ _); [apply IH | discriminate].
    + destruct s as [|c [|c2 s]]; [apply IH | | discriminate].
      destruct (Ascii.eqb c text.newline); [apply IH | discriminate].
    + apply IH.
    + destruct opens as [|start opens]; [discriminate|].
      intros H. apply IH in H. simpl in H. lia.
Qed.

Lemma search_from_groups items prev s m :
  re.search_from items prev s = Some m ->
  length (re.m_groups m) = count_close items.
Proof.
  revert prev. induction s as [|c s IH]; intros prev; simpl.
  - destruct (re.match_here items prev []) eqn:E; [|discriminate].
    intros [= <-]. apply run_groups in E. exact E.
  - destruct (re.match_here items prev (c :: s)) eqn:E.
    + intros [= <-]. apply run_groups in E. exact E.
    + apply IH.
Qed.

Lemma search_three_groups items s m :
  count_close items = 3%nat ->
  re.search items s = Some m ->
  exists g1 g2 g3, re.m_groups m = [g1; g2; g3].
Proof.
  intros Hc H. apply search_from_groups in H. rewrite Hc in H.
  destruct (re.m_groups m) as [|g1 [|g2 [|g3 [|g4 l]]]]; try discriminate.
  eauto.
Qed.

(** ** Date normalizers: which ones can raise *)

Lemma collect_dates_returns (ms : list (list ascii)) (dates : list datetime.date) :
  returns (for_each (fun dates m => try_append dates (datetime.strptime_Ymd m)) ms dates).
Proof.
  destruct (for_each_returns (fun _ => True)
              (fun dates m => try_append dates (datetime.strptime_Ymd m)) ms dates I)
    as (st' & H & _).
  - intros st x _.
    destruct (try_append_returns st _ (strptime_Ymd_only_ValueError x)) as [a Ha].
    exists a. split; [exact Ha | exact I].
  - exists st'. exact H.
Qed.

Lemma claude_date_returns t dates : returns (scrape.claude_date t dates).
Proof.
  unfold scrape.claude_date.
  destruct (re.search patterns.CLAUDE_DATE_RE t) as [m|] eqn:E.
  - destruct (search_three_groups patterns.CLAUDE_DATE_RE _ _ eq_refl E) as (g1 & g2 & g3 & ->).
    apply try_append_returns, strptime_BdY_only_ValueError.
  - eexists. reflexivity.
Qed.

Lemma aws_date_returns t dates : returns (scrape.aws_date t dates).
Proof.
  unfold scrape.aws_date.
  destruct (re.search patterns.AWS_DATE_RE t) as [m|] eqn:E.
  - destruct (search_three_groups patterns.AWS_DATE_RE _ _ eq_refl E) as (g1 & g2 & g3 & ->).
    apply try_append_returns, int_make_only_ValueError.
  - eexists. reflexivity.
Qed.

Lemma scrape_normalize_date_returns text :
  returns (scrape.normalize_date_from_text text).
Proof.
  unfold scrape.normalize_date_from_text.
  destruct text as [t|]; [|eexists; reflexivity].
  destruct (pyrow.truthy (Some t)); [|eexists; reflexivity].
  destruct (collect_dates_returns (re.findall patterns.ISO_DATE_RE t) []) as [d1 H1].
  unfold scrape.iso_dates. rewrite H1. simpl.
  destruct (claude_date_returns t d1) as [d2 H2]. rewrite H2. simpl.
  destruct (aws_date_returns t d2) as [d3 H3]. rewrite H3. simpl.
  eexists. reflexivity.
Qed.

Lemma aws_normalize_returns raw_date :
  returns (scrape_aws_retirements.normalize_retirement_date raw_date).
Proof.
  unfold scrape_aws_retirements.normalize_retirement_date.
  destruct raw_date as [t|]; [|eexists; reflexivity].
  destruct (pyrow.truthy (Some t)); [|eexists; reflexivity].
  destruct (re.search patterns.AWS_DATE_RE t) as [m|] eqn:E; [|eexists; reflexivity].
  destruct (search_three_groups patterns.AWS_DATE_RE _ _ eq_refl E)
    as (g1 & g2 & g3 & ->).
  pose proof (int_make_only_ValueError g3 g1 g2) as H.
  destruct (_ ≫= _) as [dt|e]; simpl in H.
  - eexists. reflexivity.
  - subst e. eexists. reflexivity.
Qed.

Lemma openai_extract_returns text :
  returns (scrape_openai_retirements.extract_earliest_date text).
Proof.
  unfold scrape_openai_retirements.extract_earliest_date.
  destruct (re.findall patterns.ISO_DATE_RE (default ""%string text)) as [|m ms];
    [eexists; reflexivity|].
  destruct (collect_dates_returns (m :: ms) []) as [d H]. rewrite H. simpl.
  eexists. reflexivity.
Qed.

(** C2. The normalizers of [scrape.py], of the AWS script and of the
    Azure script return on every text, with [None] when no grammar
    matches; the normalizer of the Claude script does not: on a non-empty
    text without a long-form date it raises [ValueError], and it lets the
    [ValueError] of [strptime] escape when the word before the day is not
    a month name. *)
Theorem C2_claude_normalizer_raises :
  (forall text, returns (scrape.normalize_date_from_text text))
  /\ (forall raw, returns (scrape_aws_retirements.normalize_retirement_date raw))
  /\ (forall text, returns (scrape_openai_retirements.extract_earliest_date text))
  /\ scrape.normalize_date_from_text (Some "not a date"%string) = Ok None
  /\ scrape_aws_retirements.normalize_retirement_date (Some "not a date"%string) = Ok None
  /\ scrape_claude_retirements.normalize_retirement_date (Some "not a date"%string)
     = Raise ValueError
  /\ scrape_claude_retirements.normalize_retirement_date (Some "Sept 19, 2026"%string)
     = Raise ValueError.
Proof.
  split; [exact scrape_normalize_date_returns|].
  split; [exact aws_normalize_returns|].
  split; [exact openai_extract_returns|].
  repeat split; vm_compute; reflexivity.
Qed.

(** ** The earliest date *)

Lemma date_ltb_irrefl a : datetime.ltb a a = false.
Proof.
  unfold datetime.ltb. rewrite !Z.ltb_irrefl, !Z.eqb_refl. reflexivity.
Qed.

Lemma date_ltb_spec a b :
  datetime.ltb a b = true <->
  (datetime.year a < datetime.year b
   \/ (datetime.year a = datetime.year b
       /\ (datetime.month a < datetime.month b
           \/ (datetime.month a = datetime.month b
               /\ datetime.day a < datetime.day b)))).
Proof.
  unfold datetime.ltb.
  rewrite !orb_true_iff, !andb_true_iff, !orb_true_iff, !andb_true_iff,
    !Z.ltb_lt, !Z.eqb_eq.
  reflexivity.
Qed.

Lemma date_eqb_spec a b : datetime.eqb a b = true <-> a = b.
Proof.
  unfold datetime.eqb. rewrite !andb_true_iff, !Z.eqb_eq.
  destruct a, b; simpl. split.
  - intros [[-> ->] ->]. reflexivity.
  - intros [= -> -> ->]. auto.
Qed.

Lemma date_ltb_trans a b c :
  datetime.ltb a b = true -> datetime.ltb b c = true -> datetime.ltb a c = true.
Proof. rewrite !date_ltb_spec. lia. Qed.

Lemma date_trichotomy a b :
  datetime.ltb a b = false -> datetime.ltb b a = false -> a = b.
Proof.
  intros H1 H2. apply date_eqb_spec.
  apply not_true_iff_false in H1, H2. rewrite date_ltb_spec in H1, H2.
  unfold datetime.eqb. rewrite !andb_true_iff, !Z.eqb_eq. lia.
Qed.

(** [min] returns a member that no member precedes. *)
Lemma min_date_least d0 ds :
  let m := datetime.min_date d0 ds in
  m ∈ d0 :: ds /\ forall d, d ∈ d0 :: ds -> datetime.ltb d m = false.
Proof.
  unfold datetime.min_date. revert d0.
  induction ds as [|d1 ds IH]; intros d0; simpl.
  - split; [apply list_elem_of_here|]. intros d Hd.
    apply list_elem_of_singleton in Hd as ->. apply date_ltb_irrefl.
  - destruct (datetime.ltb d1 d0) eqn:E.
    + destruct (IH d1) as [Hin Hle].
      set (M := fold_left _ ds d1) in *.
      split; [apply list_elem_of_further, Hin|].
      intros d Hd. apply elem_of_cons in Hd as [->|Hd]; [|apply Hle, Hd].
      destruct (datetime.ltb d0 M) eqn:E'; [|reflexivity].
      rewrite <- (Hle d1 (list_elem_of_here _ _)). symmetry.
      eapply date_ltb_trans; eassumption.
    + destruct (IH d0) as [Hin Hle].
      set (M := fold_left _ ds d0) in *.
      split.
      { apply elem_of_cons in Hin as [Hin|Hin]; rewrite !elem_of_cons; auto. }
      intros d Hd. apply elem_of_cons in Hd as [->|Hd];
        [apply Hle, list_elem_of_here|].
      apply elem_of_cons in Hd as [->|Hd];
        [|apply Hle, list_elem_of_further, Hd].
      destruct (datetime.ltb d1 M) eqn:E'; [|reflexivity].
      rewrite <- (Hle d0 (list_elem_of_here _ _)). symmetry.
      destruct (datetime.ltb d0 d1) eqn:E2.
      * eapply date_ltb_trans; eassumption.
      * rewrite (date_trichotomy _ _ E2 E). exact E'.
Qed.

Lemma collect_dates_eq (ms : list (list ascii)) :
  forall dates,
    for_each (fun dates m => try_append dates (datetime.strptime_Ymd m)) ms dates
    = Ok (dates ++ parsed_dates ms).
Proof.
  unfold parsed_dates. induction ms as [|m ms IH]; intros dates; simpl.
  - rewrite app_nil_r. reflexivity.
  - pose proof (strptime_Ymd_only_ValueError m) as Hm.
    destruct (datetime.strptime_Ymd m) as [d|e]; simpl in *.
    + rewrite IH, <- app_assoc. reflexivity.
    + subst e. simpl. apply IH.
Qed.

Lemma try_append_grows dates r dates' :
  try_append dates r = Ok dates' ->
  exists more, dates' = dates ++ more /\ (length more <= 1)%nat.
Proof.
  destruct r as [d|[]]; simpl; intros [= <-].
  - exists [d]. split; [reflexivity | simpl; lia].
  - exists []. rewrite app_nil_r. split; [reflexivity | simpl; lia].
Qed.

Lemma earliest_least dates s :
  earliest dates = Some s ->
  exists d, d ∈ dates /\ s = datetime.strftime_Ymd d
            /\ forall d', d' ∈ dates -> datetime.ltb d' d = false.
Proof.
  destruct dates as [|d0 ds]; simpl; [discriminate|]. intros [= <-].
  destruct (min_date_least d0 ds) as [Hin Hle]. eauto.
Qed.

(** C1. The ISO grammar is read with [findall] and the earliest of its
    dates is returned, as in the example of the specification.  The
    long-form and the slash grammars are read with [search], which stops
    at the first occurrence: besides the ISO dates at most two dates are
    ever compared, so with two long-form dates, or two slash dates, the
    first one is returned although the second is earlier, and a first
    occurrence that is no calendar date hides a later valid one. *)
Theorem C1_only_first_long_or_slash_date :
  (forall text,
      scrape_openai_retirements.extract_earliest_date text
      = Ok (earliest (parsed_dates (re.findall patterns.ISO_DATE_RE
                                      (default ""%string text)))))
  /\ (forall t, pyrow.truthy (Some t) = true ->
        exists more,
          scrape.normalize_date_from_text (Some t)
          = Ok (earliest (parsed_dates (re.findall patterns.ISO_DATE_RE t) ++ more))
          /\ (length more <= 2)%nat)
  /\ (forall dates s,
         earliest dates = Some s ->
         exists d, d ∈ dates /\ s = datetime.strftime_Ymd d
                   /\ forall d', d' ∈ dates -> datetime.ltb d' d = false)
  /\ scrape.normalize_date_from_text (Some "retiring 2025-03-01 or 2025-01-15"%string)
     = Ok (Some "2025-01-15"%string)
  /\ scrape.normalize_date_from_text (Some "March 1, 2025 or January 15, 2025"%string)
     = Ok (Some "2025-03-01"%string)
  /\ scrape.normalize_date_from_text (Some "3/1/2025 or 1/15/2025"%string)
     = Ok (Some "2025-03-01"%string)
  /\ scrape.normalize_date_from_text (Some "Mai 1, 2025 or January 15, 2025"%string)
     = Ok None.
Proof.
  split; [|split; [|split; [exact earliest_least|]]].
  - intros text. unfold scrape_openai_retirements.extract_earliest_date.
    destruct (re.findall patterns.ISO_DATE_RE (default ""%string text)) as [|m ms] eqn:E;
      [reflexivity|].
    rewrite collect_dates_eq. reflexivity.
  - intros t Ht. unfold scrape.normalize_date_from_text, scrape.iso_dates.
    rewrite Ht, collect_dates_eq. simpl.
    set (iso := parsed_dates (re.findall patterns.ISO_DATE_RE t)).
    destruct (claude_date_returns t iso) as [d2 H2]. rewrite H2. simpl.
    destruct (aws_date_returns t d2) as [d3 H3]. rewrite H3. simpl.
    assert (exists m1, d2 = iso ++ m1 /\ (length m1 <= 1)%nat) as (m1 & -> & Hm1).
    { unfold scrape.claude_date in H2.
      destruct (re.search patterns.CLAUDE_DATE_RE t) as [m|].
      - destruct (re.m_groups m) as [|g1 [|g2 [|g3 [|g4 l]]]]; try discriminate.
        apply try_append_grows in H2. exact H2.
      - injection H2 as <-. exists []. rewrite app_nil_r. split; [reflexivity | simpl; lia]. }
    assert (exists m2, d3 = (iso ++ m1) ++ m2 /\ (length m2 <= 1)%nat) as (m2 & -> & Hm2).
    { unfold scrape.aws_date in H3.
      destruct (re.search patterns.AWS_DATE_RE t) as [m|].
      - destruct (re.m_groups m) as [|g1 [|g2 [|g3 [|g4 l]]]]; try discriminate.
        apply try_append_grows in H3. exact H3.
      - injection H3 as <-. exists []. rewrite app_nil_r. split; [reflexivity | simpl; lia]. }
    exists (m1 ++ m2). rewrite app_assoc. split; [reflexivity|].
    rewrite length_app. lia.
  - repeat split; vm_compute; reflexivity.
Qed.

(** ** Model names: when a second normalization changes nothing *)

Lemma chars_str l : text.chars (text.str l) = l.
Proof. apply list_ascii_of_string_of_list_ascii. Qed.

Lemma str_chars s : text.str (text.chars s) = s.
Proof. apply string_of_list_ascii_of_string. Qed.

Lemma lstrip_length l : (length (text.lstrip l) <= length l)%nat.
Proof.
  induction l as [|c l IH]; simpl; [lia|].
  destruct (text.is_space c); simpl; lia.
Qed.

Lemma lstrip_same_length l :
  length (text.lstrip l) = length l -> text.lstrip l = l.
Proof.
  destruct l as [|c l]; simpl; [reflexivity|].
  destruct (text.is_space c); [|reflexivity].
  pose proof (lstrip_length l). lia.
Qed.

Lemma rstrip_length l : (length (text.rstrip l) <= length l)%nat.
Proof.
  unfold text.rstrip. rewrite length_rev.
  pose proof (lstrip_length (rev l)) as H. rewrite length_rev in H. exact H.
Qed.

Lemma rstrip_same_length l :
  length (text.rstrip l) = length l -> text.rstrip l = l.
Proof.
  unfold text.rstrip. rewrite length_rev. intros H.
  rewrite lstrip_same_length, rev_involutive; [reflexivity|].
  rewrite length_rev. exact H.
Qed.

Lemma strip_chars_length l : (length (text.strip_chars l) <= length l)%nat.
Proof.
  unfold text.strip_chars.
  pose proof (rstrip_length (text.lstrip l)). pose proof (lstrip_length l). lia.
Qed.

Lemma strip_chars_same_length l :
  length (text.strip_chars l) = length l -> text.strip_chars l = l.
Proof.
  unfold text.strip_chars. intros H.
  pose proof (rstrip_length (text.lstrip l)). pose proof (lstrip_length l).
  rewrite rstrip_same_length by lia. apply lstrip_same_length. lia.
Qed.

(** What a match has consumed is a prefix of the text it started on. *)
Lemma rep_consumes {R} (P : R -> Prop) p lo hi
    (k : list ascii -> option ascii -> list ascii -> option R) (whole : list ascii) s :
  (forall taken prev s' r, rev taken ++ s' = whole -> k taken prev s' = Some r -> P r) ->
  forall n taken prev r,
    rev taken ++ s = whole -> re.rep p lo hi k n taken prev s = Some r -> P r.
Proof.
  intros Hk. induction s as [|c s IH]; intros n taken prev r Hw; simpl.
  - destruct (lo <=? n)%nat; [apply Hk, Hw | discriminate].
  - destruct (p c && re.below n hi).
    + destruct (re.rep p lo hi k (S n) (c :: taken) (Some c) s) eqn:E.
      * intros [= <-]. eapply IH; [|exact E].
        simpl. rewrite <- app_assoc. exact Hw.
      * destruct (lo <=? n)%nat; [apply Hk, Hw | discriminate].
    + destruct (lo <=? n)%nat; [apply Hk, Hw | discriminate].
Qed.

Lemma run_consumes items :
  forall txt opens groups prev s m,
    re.run items txt opens groups prev s = Some m ->
    exists consumed, re.m_text m = rev txt ++ consumed /\ s = consumed ++ re.m_rest m.
Proof.
  induction items as [|it items IH]; intros txt opens groups prev s m; simpl.
  - intros [= <-]. exists []. simpl. rewrite app_nil_r. auto.
  - destruct it; simpl.
    + destruct s as [|c' s]; [discriminate|].
      destruct (Ascii.eqb c c'); [|discriminate].
      intros H. apply IH in H as (consumed & Ht & Hs).
      exists (c' :: consumed). simpl in Ht. rewrite <- app_assoc in Ht.
      split; [exact Ht | simpl; congruence].
    + apply (rep_consumes
               (fun m => exists consumed,
                    re.m_text m = rev txt ++ consumed /\ s = consumed ++ re.m_rest m)
               p lo hi _ s); [|reflexivity].
      intros taken prev' s' r Hw H. apply IH in H as (consumed & Ht & Hs).
      exists (rev taken ++ consumed). rewrite rev_app_distr, <- app_assoc in Ht.
      split; [exact Ht|]. rewrite <- app_assoc, <- Hs. simpl in Hw. congruence.
    + destruct (xorb _ _); [apply IH | discriminate].
    + destruct s as [|c [|c2 s]]; [apply IH | | discriminate].
      destruct (Ascii.eqb c text.newline); [apply IH | discriminate].
    + apply IH.
    + destruct opens as [|start opens]; [discriminate|]. apply IH.
Qed.

Lemma run_Lit c items txt opens groups prev s :
  re.run (re.Lit c :: items) txt opens groups prev s
  = match s with
    | c' :: s' =>
        if Ascii.eqb c c' then re.run items (c' :: txt) opens groups (Some c') s'
        else None
    | [] => None
    end.
Proof. reflexivity. Qed.

Lemma literal_first_nonempty c items : matches_nonempty (re.Lit c :: items).
Proof.
  intros prev s m. unfold re.match_here. rewrite run_Lit.
  destruct s as [|c' s]; [discriminate|].
  destruct (Ascii.eqb c c'); [|discriminate].
  intros H. apply run_consumes in H as (consumed & Ht & _).
  rewrite Ht. simpl. destruct consumed; discriminate.
Qed.

Lemma date_suffix_nonempty : matches_nonempty patterns.DATE_SUFFIX_RE.
Proof. apply literal_first_nonempty. Qed.

Lemma sub_from_no_match items s :
  forall prev, re.search_from items prev s = None -> re.sub_from items 0 prev s = s.
Proof.
  induction s as [|c s IH]; intros prev; simpl; [reflexivity|].
  destruct (re.match_here items prev (c :: s)); [discriminate|].
  intros H. rewrite IH by exact H. reflexivity.
Qed.

Lemma sub_from_length items s :
  forall skip prev, (length (re.sub_from items skip prev s) <= length s)%nat.
Proof.
  induction s as [|c s IH]; intros skip prev; simpl; [lia|].
  destruct skip as [|k].
  - destruct (re.match_here items prev (c :: s)) as [m|].
    + destruct (length (re.m_text m)) as [|k]; simpl.
      * specialize (IH 0%nat (Some c)). lia.
      * specialize (IH k (Some c)). lia.
    + simpl. specialize (IH 0%nat (Some c)). lia.
  - specialize (IH k (Some c)). lia.
Qed.

Lemma sub_from_shorter items s :
  matches_nonempty items ->
  forall prev m,
    re.search_from items prev s = Some m ->
    (length (re.sub_from items 0 prev s) < length s)%nat.
Proof.
  intros Hne. induction s as [|c s IH]; intros prev m; simpl.
  - destruct (re.match_here items prev []) as [m'|] eqn:E; [|discriminate].
    exfalso. pose proof (Hne _ _ _ E) as Hm.
    apply run_consumes in E as (consumed & Ht & Hs). simpl in Ht.
    destruct consumed; [congruence | discriminate].
  - destruct (re.match_here items prev (c :: s)) as [m'|] eqn:E.
    + intros _. pose proof (Hne _ _ _ E) as Hm.
      destruct (re.m_text m') as [|a l]; [congruence|]. simpl.
      pose proof (sub_from_length items s (length l) (Some c)). lia.
    + intros H. apply IH in H. simpl. lia.
Qed.

(** The fixed points of [sub("", _)]: the texts without a match. *)
Lemma sub_from_fixed items s prev :
  matches_nonempty items ->
  re.sub_from items 0 prev s = s <-> re.search_from items prev s = None.
Proof.
  intros Hne. split; [|apply sub_from_no_match].
  intros H. destruct (re.search_from items prev s) as [m|] eqn:E; [|reflexivity].
  apply (sub_from_shorter _ _ Hne) in E. rewrite H in E. lia.
Qed.

Lemma claude_name_fixed (y : string) :
  scrape_claude_retirements.normalize_model_name (Some y) = Some y
  <-> re.search patterns.DATE_SUFFIX_RE y = None.
Proof.
  unfold scrape_claude_retirements.normalize_model_name, re.sub_empty, re.search.
  destruct (pyrow.truthy (Some y)) eqn:Ey.
  - rewrite <- (sub_from_fixed _ _ _ date_suffix_nonempty). split.
    + intros [= H]. rewrite <- H at 2. symmetry. apply chars_str.
    + intros ->. rewrite str_chars. reflexivity.
  - simpl in Ey. apply negb_false_iff, String.eqb_eq in Ey. subst y.
    split; [intros _; vm_compute; reflexivity | reflexivity].
Qed.

Lemma scrape_name_fixed (y : string) :
  scrape.normalize_model_name (Some y) = Some y
  <-> re.search patterns.DATE_SUFFIX_RE y = None /\ text.strip y = y.
Proof.
  unfold scrape.normalize_model_name, re.sub_empty, re.search, text.strip.
  destruct (pyrow.truthy (Some y)) eqn:Ey.
  - rewrite chars_str. split.
    + intros [= H].
      assert (text.strip_chars (text.chars y) = text.chars y) as Hs.
      { apply strip_chars_same_length.
        pose proof (strip_chars_length (text.chars y)).
        pose proof (sub_from_length patterns.DATE_SUFFIX_RE
                      (text.strip_chars (text.chars y)) 0 None) as Hl.
        apply (f_equal text.chars) in H. rewrite chars_str in H.
        rewrite H in Hl. lia. }
      rewrite Hs in *. rewrite str_chars. split; [|reflexivity].
      apply (sub_from_fixed _ _ _ date_suffix_nonempty).
      rewrite <- H at 2. symmetry. apply chars_str.
    + intros [Hn Hs]. apply (f_equal text.chars) in Hs. rewrite chars_str in Hs.
      rewrite Hs, sub_from_no_match by exact Hn. rewrite str_chars. reflexivity.
  - simpl in Ey. apply negb_false_iff, String.eqb_eq in Ey. subst y.
    split; [intros _; vm_compute; auto | reflexivity].
Qed.

(** C9, as amended. Normalizing twice gives the result of normalizing
    once exactly when that result has no [-DDDDDDDD] suffix left (and, in
    [scrape.py], which strips white space first, no white space around
    it); [None] and the empty text are unchanged. Each application
    removes one suffix only. *)
Theorem C9_idempotent_iff_no_suffix_left (x : option string) :
  (scrape.normalize_model_name (scrape.normalize_model_name x)
   = scrape.normalize_model_name x
   <-> forall y, scrape.normalize_model_name x = Some y ->
                 re.search patterns.DATE_SUFFIX_RE y = None /\ text.strip y = y)
  /\ (scrape_claude_retirements.normalize_model_name
        (scrape_claude_retirements.normalize_model_name x)
      = scrape_claude_retirements.normalize_model_name x
      <-> forall y, scrape_claude_retirements.normalize_model_name x = Some y ->
                    re.search patterns.DATE_SUFFIX_RE y = None)
  /\ scrape.normalize_model_name None = None
  /\ scrape.normalize_model_name (Some ""%string) = Some ""%string.
Proof.
  split; [|split; [|split; reflexivity]].
  - destruct (scrape.normalize_model_name x) as [y|] eqn:E.
    + rewrite scrape_name_fixed. split.
      * intros H y' [= <-]. exact H.
      * intros H. apply H. reflexivity.
    + split; [intros _ y'; discriminate | reflexivity].
  - destruct (scrape_claude_retirements.normalize_model_name x) as [y|] eqn:E.
    + rewrite claude_name_fixed. split.
      * intros H y' [= <-]. exact H.
      * intros H. apply H. reflexivity.
    + split; [intros _ y'; discriminate | reflexivity].
Qed.

Lemma C9_witness :
  (forall y, scrape.normalize_model_name (Some "claude-3-5-haiku-20241022"%string) = Some y ->
             re.search patterns.DATE_SUFFIX_RE y = None /\ text.strip y = y)
  /\ scrape.normalize_model_name
       (scrape.normalize_model_name (Some "claude-3-5-haiku-20241022"%string))
     = scrape.normalize_model_name (Some "claude-3-5-haiku-20241022"%string).
Proof.
  assert (forall y, scrape.normalize_model_name (Some "claude-3-5-haiku-20241022"%string)
                    = Some y ->
                    re.search patterns.DATE_SUFFIX_RE y = None /\ text.strip y = y) as H.
  { intros y Hy. vm_compute in Hy. injection Hy as <-.
    split; vm_compute; reflexivity. }
  split; [exact H|].
  exact (proj2 (proj1 (C9_idempotent_iff_no_suffix_left
                         (Some "claude-3-5-haiku-20241022"%string))) H).
Defined.

(** C9, the claim as stated fails: a name with two date suffixes loses
    one of them at each application, in both scripts, and in [scrape.py]
    white space uncovered by the removal is stripped by the second
    application only. *)
Lemma C9_counterexample :
  scrape.normalize_model_name (scrape.normalize_model_name (Some "m-20240101-20250101"%string))
  <> scrape.normalize_model_name (Some "m-20240101-20250101"%string)
  /\ scrape_claude_retirements.normalize_model_name
       (scrape_claude_retirements.normalize_model_name (Some "m-20240101-20250101"%string))
     <> scrape_claude_retirements.normalize_model_name (Some "m-20240101-20250101"%string)
  /\ scrape.normalize_model_name (scrape.normalize_model_name (Some "m -20240101"%string))
     <> scrape.normalize_model_name (Some "m -20240101"%string).
Proof. repeat split; vm_compute; discriminate. Qed.

Lemma C1_witness :
  let t := "March 1, 2025 or January 15, 2025"%string in
  let dates := [datetime.mkdate 2025 3 1; datetime.mkdate 2025 1 15] in
  pyrow.truthy (Some t) = true
  /\ earliest dates = Some "2025-01-15"%string
  /\ (exists more,
         scrape.normalize_date_from_text (Some t)
         = Ok (earliest (parsed_dates (re.findall patterns.ISO_DATE_RE t) ++ more))
         /\ (length more <= 2)%nat)
  /\ (exists d, d ∈ dates /\ "2025-01-15"%string = datetime.strftime_Ymd d
                /\ forall d', d' ∈ dates -> datetime.ltb d' d = false).
Proof.
  intros t dates.
  destruct C1_only_first_long_or_slash_date as (_ & Hscrape & Hleast & _).
  split; [reflexivity|]. split; [reflexivity|].
  split; [exact (Hscrape t eq_refl) | exact (Hleast dates _ eq_refl)].
Defined.

(** ** A normalized date is read back by the deduplicators *)

Lemma make_valid y m d dt : datetime.make y m d = Ok dt -> valid_date dt.
Proof.
  unfold datetime.make, valid_date.
  destruct (datetime.valid y m d) eqn:E; [|discriminate].
  intros [= <-]. exact E.
Qed.

Lemma finish_valid found dt : datetime.finish found = Ok dt -> valid_date dt.
Proof.
  unfold datetime.finish.
  destruct found as [|[[[y m] d] [|c r]] found]; try discriminate.
  apply make_valid.
Qed.

Lemma valid_ranges y m d :
  datetime.valid y m d = true -> 1 <= y <= 9999 /\ 1 <= m <= 12 /\ 1 <= d <= 31.
Proof.
  unfold datetime.valid. rewrite !andb_true_iff, !Z.leb_le.
  intros [[[[[? ?] ?] ?] ?] Hd].
  assert (datetime.days_in_month y m <= 31).
  { unfold datetime.days_in_month.
    destruct (m =? 2); [destruct (datetime.is_leap y); lia|].
    destruct (_ || _); lia. }
  lia.
Qed.

Lemma digit_char_reads (n : Z) :
  text.is_digit (text.digit_char n) = true
  /\ text.digit_val (text.digit_char n) = n mod 10.
Proof.
  unfold text.digit_char.
  pose proof (Z.mod_pos_bound n 10 ltac:(lia)) as Hb.
  assert (In (n mod 10) (map Z.of_nat (seq 0 10))) as Hin
    by (apply in_map_iff; exists (Z.to_nat (n mod 10)); split; [lia | apply in_seq; lia]).
  simpl in Hin.
  repeat (destruct Hin as [<-|Hin]; [split; reflexivity|]). contradiction.
Qed.

Lemma pad4_reads (y : Z) :
  0 <= y <= 9999 ->
  forallb text.is_digit (text.pad4 y) = true /\ text.int_digits (text.pad4 y) = y.
Proof.
  intros Hy. unfold text.pad4, text.int_digits. simpl.
  destruct (digit_char_reads (y / 1000)) as [-> ->].
  destruct (digit_char_reads (y / 100)) as [-> ->].
  destruct (digit_char_reads (y / 10)) as [-> ->].
  destruct (digit_char_reads y) as [-> ->].
  split; [reflexivity|]. Z.div_mod_to_equations. lia.
Qed.

Lemma strptime_strftime (dt : datetime.date) :
  valid_date dt ->
  datetime.strptime_Ymd (text.chars (datetime.strftime_Ymd dt)) = Ok dt.
Proof.
  destruct dt as [y m d]. unfold valid_date, datetime.strftime_Ymd.
  rewrite chars_str.
  cbn [datetime.year datetime.month datetime.day]. intros Hv.
  pose proof (valid_ranges _ _ _ Hv) as (Hy & Hm & Hd).
  destruct (pad4_reads y ltac:(lia)) as [Hdig Hint].
  unfold datetime.strptime_Ymd.
  change (datetime.directive_Y
            (text.pad4 y ++ "-"%char :: text.pad2 m ++ "-"%char :: text.pad2 d))
    with (if forallb text.is_digit (text.pad4 y)
          then [(text.int_digits (text.pad4 y),
                 "-"%char :: text.pad2 m ++ "-"%char :: text.pad2 d)]
          else []).
  rewrite Hdig, Hint.
  assert (exists tl,
             ('(y0, r) ← [(y, "-"%char :: text.pad2 m ++ "-"%char :: text.pad2 d)];
              r0 ← datetime.literal "-" r;
              '(m0, r1) ← datetime.directive_m r0;
              r2 ← datetime.literal "-" r1;
              '(d0, r3) ← datetime.directive_d r2; [(y0, m0, d0, r3)])
             = (y, m, d, []) :: tl) as [tl ->].
  { assert (In m (map Z.of_nat (seq 1 12))) as Hmi
      by (apply in_map_iff; exists (Z.to_nat m); split; [lia | apply in_seq; lia]).
    assert (In d (map Z.of_nat (seq 1 31))) as Hdi
      by (apply in_map_iff; exists (Z.to_nat d); split; [lia | apply in_seq; lia]).
    clear - Hmi Hdi. revert y.
    simpl in Hmi, Hdi.
    repeat (destruct Hmi as [<-|Hmi]; [|]); try contradiction;
      repeat (destruct Hdi as [<-|Hdi]; [|]); try contradiction;
      intros y; eexists; vm_compute; reflexivity. }
  unfold datetime.finish, datetime.make. rewrite Hv. reflexivity.
Qed.

Lemma try_append_valid dates r dates' :
  (forall d, r = Ok d -> valid_date d) ->
  Forall valid_date dates -> try_append dates r = Ok dates' -> Forall valid_date dates'.
Proof.
  intros Hr Hd. destruct r as [d|[]]; simpl; intros [= <-]; [|exact Hd].
  apply Forall_app. split; [exact Hd|]. constructor; [apply Hr; reflexivity | constructor].
Qed.

Lemma parsed_dates_valid ms : Forall valid_date (parsed_dates ms).
Proof.
  unfold parsed_dates. induction ms as [|m ms IH]; simpl; [constructor|].
  destruct (datetime.strptime_Ymd m) as [d|e] eqn:E; [|exact IH].
  constructor; [|exact IH]. eapply finish_valid. exact E.
Qed.

Lemma earliest_readable dates s :
  Forall valid_date dates -> earliest dates = Some s ->
  returns (datetime.strptime_Ymd (text.chars s)).
Proof.
  intros Hv Hs. apply earliest_least in Hs as (d & Hin & -> & _).
  rewrite Forall_forall in Hv. exists d. apply strptime_strftime, Hv, Hin.
Qed.

(** What [normalize_date_from_text] returns, [strptime] reads. *)
Lemma normalized_date_readable text s :
  scrape.normalize_date_from_text text = Ok (Some s) ->
  returns (datetime.strptime_Ymd (text.chars s)).
Proof.
  unfold scrape.normalize_date_from_text, scrape.iso_dates.
  destruct text as [t|]; [|discriminate].
  destruct (pyrow.truthy (Some t)); [|discriminate].
  rewrite collect_dates_eq. simpl.
  pose proof (parsed_dates_valid (re.findall patterns.ISO_DATE_RE t)) as H1.
  destruct (scrape.claude_date t _) as [d2|] eqn:E2; simpl; [|discriminate].
  assert (Forall valid_date d2) as H2.
  { unfold scrape.claude_date in E2.
    destruct (re.search patterns.CLAUDE_DATE_RE t) as [m|]; [|injection E2 as <-; exact H1].
    destruct (re.m_groups m) as [|g1 [|g2 [|g3 [|g4 l]]]]; try discriminate.
    eapply try_append_valid; [|exact H1|exact E2]. intros d. apply finish_valid. }
  destruct (scrape.aws_date t d2) as [d3|] eqn:E3; simpl; [|discriminate].
  assert (Forall valid_date d3) as H3.
  { unfold scrape.aws_date in E3.
    destruct (re.search patterns.AWS_DATE_RE t) as [m|]; [|injection E3 as <-; exact H2].
    destruct (re.m_groups m) as [|g1 [|g2 [|g3 [|g4 l]]]]; try discriminate.
    eapply try_append_valid; [|exact H2|exact E3]. intros d.
    destruct (text.int g3); simpl; [|discriminate].
    destruct (text.int g1); simpl; [|discriminate].
    destruct (text.int g2); simpl; [|discriminate].
    apply make_valid. }
  intros [= Hs]. eapply earliest_readable; eassumption.
Qed.

(** A row built from a model name and a normalized date is one the
    deduplicators accept. *)
Lemma normalized_row_well_formed text s name (r : row) :
  scrape.normalize_date_from_text text = Ok (Some s) ->
  r !! "retirement_date"%string = Some s ->
  is_Some (r !! name) ->
  well_formed name true r.
Proof.
  intros Hs Hr Hn. split; [exact Hn|]. intros _.
  unfold scrape.retirement_date_of, pyrow.getitem. rewrite Hr. simpl.
  eapply normalized_date_readable, Hs.
Qed.

(** ** Ordered dictionaries *)

Section odict_facts.
Context {K V : Type} `{EqDecision K}.
Implicit Types (d : list (K * V)).

Lemma odict_get_set_eq k v d : odict.get k (odict.set k v d) = Some v.
Proof.
  induction d as [|[k' v'] d IH]; simpl.
  - rewrite decide_True by reflexivity. reflexivity.
  - destruct (decide (k = k')); simpl.
    + rewrite decide_True by reflexivity. reflexivity.
    + rewrite decide_False by assumption. exact IH.
Qed.

Lemma odict_get_set_ne k k' v d :
  k <> k' -> odict.get k' (odict.set k v d) = odict.get k' d.
Proof.
  intros Hne. induction d as [|[k2 v2] d IH]; simpl.
  - rewrite decide_False by congruence. reflexivity.
  - destruct (decide (k = k2)) as [->|]; simpl.
    + rewrite !decide_False by congruence. reflexivity.
    + destruct (decide (k' = k2)); [reflexivity | exact IH].
Qed.

Lemma odict_get_None k d : odict.get k d = None <-> k ∉ odict.keys d.
Proof.
  induction d as [|[k' v'] d IH]; simpl.
  - split; [intros _; apply not_elem_of_nil | reflexivity].
  - rewrite not_elem_of_cons. destruct (decide (k = k')); [|tauto].
    split; [discriminate | tauto].
Qed.

Lemma odict_get_Some_key k v d : odict.get k d = Some v -> k ∈ odict.keys d.
Proof.
  intros H. destruct (decide (k ∈ odict.keys d)) as [|Hn]; [assumption|].
  apply odict_get_None in Hn. congruence.
Qed.

Lemma odict_get_elem k v d : odict.get k d = Some v -> (k, v) ∈ d.
Proof.
  induction d as [|[k' v'] d IH]; simpl; [discriminate|].
  destruct (decide (k = k')) as [->|].
  - intros [= ->]. apply list_elem_of_here.
  - intros H. apply list_elem_of_further, IH, H.
Qed.

Lemma odict_set_elem kv k v d : kv ∈ odict.set k v d -> kv = (k, v) \/ kv ∈ d.
Proof.
  induction d as [|[k' v'] d IH]; simpl.
  - rewrite list_elem_of_singleton. auto.
  - destruct (decide (k = k')); rewrite !elem_of_cons; [tauto|].
    intros [->|H]; [auto|]. destruct (IH H); auto.
Qed.

Lemma odict_keys_set k v d :
  odict.keys (odict.set k v d)
  = match odict.get k d with
    | Some _ => odict.keys d
    | None => odict.keys d ++ [k]
    end.
Proof.
  induction d as [|[k' v'] d IH]; simpl; [reflexivity|].
  destruct (decide (k = k')) as [->|]; simpl; [reflexivity|].
  rewrite IH. destruct (odict.get k d); reflexivity.
Qed.

Lemma odict_values_by_keys d :
  NoDup (odict.keys d) -> omap (fun k => odict.get k d) (odict.keys d) = odict.values d.
Proof.
  induction d as [|[k v] d IH]; simpl; [reflexivity|].
  rewrite NoDup_cons. intros [Hk Hd].
  rewrite decide_True by reflexivity. f_equal.
  rewrite <- IH by exact Hd. apply list_omap_ext.
  clear IH Hd. unfold odict.keys in *.
  induction (map fst d) as [|k' ks IHks]; [constructor|].
  apply not_elem_of_cons in Hk as [Hne Hk].
  constructor; [|apply IHks, Hk].
  rewrite decide_False by congruence. reflexivity.
Qed.

End odict_facts.

(** ** The deduplication loop, in general *)

Section keep_facts.
Context (ident : row -> string) (better : row -> row -> bool).

Lemma keep_keys best r :
  odict.keys (keep ident better best r)
  = if decide (ident r ∈ odict.keys best) then odict.keys best
    else odict.keys best ++ [ident r].
Proof.
  unfold keep. destruct (odict.get (ident r) best) as [ex|] eqn:E.
  - rewrite decide_True by (eapply odict_get_Some_key; exact E).
    destruct (better r ex); [|reflexivity].
    rewrite odict_keys_set, E. reflexivity.
  - rewrite decide_False by (apply odict_get_None; exact E).
    rewrite odict_keys_set, E. reflexivity.
Qed.

Lemma keep_get best r k :
  odict.get k (keep ident better best r)
  = if decide (ident r = k) then pick_step better (odict.get k best) r
    else odict.get k best.
Proof.
  unfold keep. destruct (decide (ident r = k)) as [<-|Hne].
  - destruct (odict.get (ident r) best) as [ex|] eqn:E; simpl.
    + destruct (better r ex); [apply odict_get_set_eq | exact E].
    + apply odict_get_set_eq.
  - destruct (odict.get (ident r) best) as [ex|] eqn:E.
    + destruct (better r ex); [apply odict_get_set_ne, Hne | reflexivity].
    + apply odict_get_set_ne, Hne.
Qed.

Lemma fold_keep_keys rows :
  odict.keys (fold_left (keep ident better) rows [])
  = spec.first_seen (map ident rows).
Proof.
  induction rows as [|r rows IH] using rev_ind; [reflexivity|].
  unfold spec.first_seen in *.
  rewrite fold_left_app, map_app, fold_left_app. simpl.
  rewrite keep_keys, IH. reflexivity.
Qed.

Lemma fold_keep_get rows k :
  odict.get k (fold_left (keep ident better) rows [])
  = pick better (spec.group ident k rows).
Proof.
  induction rows as [|r rows IH] using rev_ind; [reflexivity|].
  unfold spec.group, pick in *.
  rewrite fold_left_app, filter_app. simpl.
  rewrite keep_get, IH, filter_cons, filter_nil.
  destruct (decide (ident r = k)).
  - rewrite fold_left_app. reflexivity.
  - rewrite app_nil_r. reflexivity.
Qed.

Lemma first_seen_NoDup ks : NoDup (spec.first_seen ks).
Proof.
  unfold spec.first_seen.
  induction ks as [|k ks IH] using rev_ind; simpl; [constructor|].
  rewrite fold_left_app. simpl.
  destruct (decide (k ∈ _)) as [|Hn]; [exact IH|].
  apply NoDup_app. split; [exact IH|]. split.
  - intros x Hx Hk. apply list_elem_of_singleton in Hk as ->. contradiction.
  - apply NoDup_singleton.
Qed.

Lemma fold_keep_values rows :
  odict.values (fold_left (keep ident better) rows [])
  = spec.select ident (pick better) rows.
Proof.
  unfold spec.select.
  rewrite <- odict_values_by_keys by (rewrite fold_keep_keys; apply first_seen_NoDup).
  rewrite fold_keep_keys. apply list_omap_ext.
  apply Forall2_same_length_lookup_2; [reflexivity|].
  intros i x y Hx Hy. rewrite Hx in Hy. injection Hy as <-.
  apply fold_keep_get.
Qed.

(** Every row kept is one of the rows seen. *)
Lemma fold_keep_members rows best :
  forall kv, kv ∈ fold_left (keep ident better) rows best ->
             kv ∈ best \/ kv.2 ∈ rows.
Proof.
  revert best. induction rows as [|r rows IH]; intros best kv; simpl; [auto|].
  intros H. apply IH in H as [H|H]; [|right; apply list_elem_of_further, H].
  unfold keep in H.
  assert (kv ∈ odict.set (ident r) r best -> kv ∈ best \/ kv.2 ∈ r :: rows) as Hset.
  { intros Hs. apply odict_set_elem in Hs as [->|Hs]; [|auto].
    right. apply list_elem_of_here. }
  destruct (odict.get (ident r) best) as [ex|]; [|auto].
  destruct (better r ex); auto.
Qed.

End keep_facts.

(** ** The loop keeps the row the preference order names *)

Section preference.
Context (date : row -> datetime.date) (has : row -> bool).

Lemma better_by_earlier r b :
  datetime.ltb (date r) (date b) = true -> better_by date has r b = true.
Proof. unfold better_by. intros ->. reflexivity. Qed.

Lemma better_by_same_date r b :
  date r = date b -> better_by date has r b = has r && negb (has b).
Proof.
  unfold better_by. intros ->. rewrite date_ltb_irrefl.
  rewrite (proj2 (date_eqb_spec _ _) eq_refl). reflexivity.
Qed.

Lemma better_by_later r b :
  datetime.ltb (date r) (date b) = false -> date r <> date b ->
  better_by date has r b = false.
Proof.
  unfold better_by. intros -> Hne.
  destruct (datetime.eqb (date r) (date b)) eqn:E; [|reflexivity].
  apply date_eqb_spec in E. contradiction.
Qed.

Lemma replacement_first_head_snoc (E : list row) (b r : row) :
  head (spec.replacement_first has E) = Some b ->
  head (spec.replacement_first has (E ++ [r]))
  = if has r && negb (has b) then Some r else Some b.
Proof.
  unfold spec.replacement_first. rewrite filter_app, filter_cons, filter_nil.
  destruct (filter (fun r => has r = true) E) as [|x F] eqn:EF.
  - intros Hb.
    assert (has b = false) as Hhb.
    { destruct (has b) eqn:Hhb; [|reflexivity]. exfalso.
      destruct E as [|e E]; [discriminate|]. injection Hb as ->.
      rewrite filter_cons, decide_True in EF by exact Hhb. discriminate. }
    rewrite Hhb, andb_true_r.
    destruct (decide (has r = true)) as [->|Hr]; [reflexivity|].
    apply not_true_is_false in Hr. rewrite Hr. simpl.
    destruct E; [discriminate | exact Hb].
  - simpl. intros [= ->].
    assert (has b = true) as ->.
    { assert (b ∈ filter (fun r => has r = true) E) as Hin
        by (rewrite EF; apply list_elem_of_here).
      apply list_elem_of_filter in Hin as [Hin _]. exact Hin. }
    rewrite andb_false_r. reflexivity.
Qed.

Lemma preferred_snoc g r :
  spec.preferred date has (g ++ [r])
  = pick_step (better_by date has) (spec.preferred date has g) r.
Proof.
  unfold spec.preferred, spec.earliest_rows. rewrite map_app. simpl (map date [r]).
  destruct (map date g) as [|d0 ds] eqn:Eg.
  - apply map_eq_nil in Eg as ->. simpl.
    unfold datetime.min_date. simpl.
    rewrite filter_cons, decide_True, filter_nil by reflexivity.
    unfold spec.replacement_first. rewrite filter_cons, filter_nil.
    destruct (decide (has r = true)); reflexivity.
  - simpl ((d0 :: ds) ++ [date r]). cbv beta iota.
    assert (datetime.min_date d0 (ds ++ [date r])
            = if datetime.ltb (date r) (datetime.min_date d0 ds) then date r
              else datetime.min_date d0 ds) as ->
      by (unfold datetime.min_date; rewrite fold_left_app; reflexivity).
    destruct (min_date_least d0 ds) as [Hin Hleast]. simpl in Hin, Hleast.
    set (m := datetime.min_date d0 ds) in *.
    assert (forall x, x ∈ g -> datetime.ltb (date x) m = false) as Hg.
    { intros x Hx. apply Hleast. rewrite <- Eg.
      apply list_elem_of_In, in_map, list_elem_of_In, Hx. }
    assert (exists b F, filter (fun r => date r = m) g = b :: F) as (e & E' & HE).
    { rewrite <- Eg in Hin. apply list_elem_of_In, in_map_iff in Hin as (x & Hx & Hxg).
      apply list_elem_of_In in Hxg.
      destruct (filter (fun r => date r = m) g) as [|b F] eqn:HF; [|eauto].
      exfalso. eapply filter_nil_not_elem_of; [exact HF | exact Hx | exact Hxg]. }
    assert (exists b, head (spec.replacement_first has (filter (fun r => date r = m) g))
                      = Some b /\ date b = m) as (b & Hb & Hdb).
    { unfold spec.replacement_first.
      destruct (filter (fun r => has r = true) (filter (fun r => date r = m) g))
        as [|x F] eqn:HF.
      - rewrite HE. exists e. split; [reflexivity|].
        assert (e ∈ filter (fun r => date r = m) g) as He
          by (rewrite HE; apply list_elem_of_here).
        apply list_elem_of_filter in He as [He _]. exact He.
      - exists x. split; [reflexivity|].
        assert (x ∈ filter (fun r => has r = true) (filter (fun r => date r = m) g))
          as Hx by (rewrite HF; apply list_elem_of_here).
        apply list_elem_of_filter in Hx as [_ Hx].
        apply list_elem_of_filter in Hx as [Hx _]. exact Hx. }
    rewrite Hb. simpl.
    destruct (datetime.ltb (date r) m) eqn:El.
    + rewrite better_by_earlier by (rewrite Hdb; exact El).
      rewrite filter_app, filter_cons, decide_True, filter_nil by reflexivity.
      assert (filter (fun r0 => date r0 = date r) g = []) as ->.
      { apply elem_of_nil_inv. intros x Hx.
        apply list_elem_of_filter in Hx as [Hx Hxg].
        apply Hg in Hxg. rewrite Hx in Hxg. congruence. }
      simpl. unfold spec.replacement_first. rewrite filter_cons, filter_nil.
      destruct (decide (has r = true)); reflexivity.
    + rewrite filter_app, filter_cons, filter_nil.
      destruct (decide (date r = m)) as [Hrm|Hrm].
      * rewrite (replacement_first_head_snoc _ b r Hb).
        rewrite better_by_same_date by congruence. reflexivity.
      * rewrite app_nil_r, Hb.
        rewrite better_by_later; [reflexivity | rewrite Hdb; exact El | congruence].
Qed.

Lemma pick_preferred g :
  pick (better_by date has) g = spec.preferred date has g.
Proof.
  induction g as [|r g IH] using rev_ind; [reflexivity|].
  unfold pick in *. rewrite fold_left_app. simpl.
  rewrite IH. symmetry. apply preferred_snoc.
Qed.

End preference.

(** ** The three deduplicators are instances of the loop *)

Lemma for_each_pure {A S} (I : S -> Prop) (W : A -> Prop)
    (body : S -> A -> result S) (f : S -> A -> S) :
  (forall st x, I st -> W x -> body st x = Ok (f st x) /\ I (f st x)) ->
  forall xs st, I st -> Forall W xs ->
    for_each body xs st = Ok (fold_left f xs st) /\ I (fold_left f xs st).
Proof.
  intros Hbody. induction xs as [|x xs IH]; intros st Hst Hxs; simpl.
  - split; [reflexivity | exact Hst].
  - apply Forall_cons in Hxs as [Hx Hxs].
    destruct (Hbody st x Hst Hx) as [-> Hst']. simpl. apply IH; assumption.
Qed.

Lemma keep_values_Forall (P : row -> Prop) ident better best r :
  Forall P (odict.values best) -> P r ->
  Forall P (odict.values (keep ident better best r)).
Proof.
  intros Hbest Hr. apply Forall_forall. intros x Hx.
  unfold odict.values in Hx.
  apply list_elem_of_In, in_map_iff in Hx as ([k v] & <- & Hkv).
  apply list_elem_of_In in Hkv.
  apply (fold_keep_members ident better [r] best) in Hkv as [Hkv|Hkv].
  - rewrite Forall_forall in Hbest. apply Hbest.
    apply list_elem_of_In, in_map_iff. exists (k, v).
    split; [reflexivity | apply list_elem_of_In, Hkv].
  - apply list_elem_of_singleton in Hkv. simpl in *. congruence.
Qed.

Lemma values_get_Forall (P : row -> Prop) (best : list (string * row)) k ex :
  Forall P (odict.values best) -> odict.get k best = Some ex -> P ex.
Proof.
  intros Hbest Hget. rewrite Forall_forall in Hbest. apply Hbest.
  apply list_elem_of_In, in_map_iff. exists (k, ex).
  split; [reflexivity | apply list_elem_of_In, odict_get_elem, Hget].
Qed.

Lemma getitem_field name r :
  is_Some (r !! name) -> pyrow.getitem r name = Ok (field name r).
Proof.
  intros [v Hv]. unfold pyrow.getitem, field, pyrow.get_or_empty.
  rewrite Hv. reflexivity.
Qed.

Lemma retirement_date_of_date_of r :
  returns (scrape.retirement_date_of r) -> scrape.retirement_date_of r = Ok (date_of r).
Proof. intros [d Hd]. unfold date_of. rewrite Hd. reflexivity. Qed.

Lemma scrape_dedup_body_keep best r :
  Forall (well_formed "model_name" true) (odict.values best) ->
  well_formed "model_name" true r ->
  scrape.dedup_body best r
  = Ok (keep (field "model_name") (better_by date_of has_replacement) best r).
Proof.
  intros Hbest [Hname Hdate]. unfold scrape.dedup_body, keep.
  rewrite (getitem_field _ _ Hname). simpl.
  rewrite (retirement_date_of_date_of _ (Hdate eq_refl)). simpl.
  destruct (odict.get (field "model_name" r) best) as [ex|] eqn:E; [|reflexivity].
  destruct (values_get_Forall _ _ _ _ Hbest E) as [_ Hex].
  rewrite (retirement_date_of_date_of _ (Hex eq_refl)). simpl.
  unfold better_by, has_replacement.
  destruct (datetime.ltb (date_of r) (date_of ex)); [reflexivity|].
  destruct (datetime.eqb (date_of r) (date_of ex)); [|reflexivity].
  simpl. destruct (_ && _); reflexivity.
Qed.

Lemma claude_dedup_body_keep best r :
  well_formed "deprecated_model_name" false r ->
  scrape_claude_retirements.dedup_body best r
  = Ok (keep (field "deprecated_model_name")
             (better_by (fun _ => datetime.mkdate 1 1 1) has_replacement) best r).
Proof.
  intros [Hname _]. unfold scrape_claude_retirements.dedup_body, keep.
  rewrite (getitem_field _ _ Hname). simpl.
  destruct (odict.get (field "deprecated_model_name" r) best) as [ex|] eqn:E;
    [|reflexivity].
  unfold better_by, has_replacement. simpl. rewrite andb_comm.
  destruct (_ && _); reflexivity.
Qed.

Lemma openai_dedup_body_keep best r :
  Forall (well_formed "model_name" true) (odict.values best) ->
  well_formed "model_name" true r ->
  scrape_openai_retirements.dedup_body best r
  = Ok (keep (field "model_name") (better_by date_of (fun _ => false)) best r).
Proof.
  intros Hbest [Hname Hdate]. unfold scrape_openai_retirements.dedup_body, keep.
  rewrite (getitem_field _ _ Hname). simpl.
  change (scrape_openai_retirements.retirement_date_of)
    with (scrape.retirement_date_of).
  rewrite (retirement_date_of_date_of _ (Hdate eq_refl)). simpl.
  destruct (odict.get (field "model_name" r) best) as [ex|] eqn:E; [|reflexivity].
  destruct (values_get_Forall _ _ _ _ Hbest E) as [_ Hex].
  rewrite (retirement_date_of_date_of _ (Hex eq_refl)). simpl.
  unfold better_by. rewrite andb_false_r, orb_false_r.
  destruct (datetime.ltb _ _); reflexivity.
Qed.

Lemma scrape_dedup_fold rows :
  Forall (well_formed "model_name" true) rows ->
  scrape.deduplicate_rows rows
  = Ok (odict.values
          (fold_left (keep (field "model_name") (better_by date_of has_replacement))
                     rows [])).
Proof.
  intros Hrows. unfold scrape.deduplicate_rows.
  destruct (for_each_pure
              (fun best => Forall (well_formed "model_name" true) (odict.values best))
              (well_formed "model_name" true) scrape.dedup_body
              (keep (field "model_name") (better_by date_of has_replacement)))
    with (xs := rows) (st := @nil (string * row)) as [-> _];
    [|constructor|exact Hrows|reflexivity].
  intros st x Hst Hx. split; [apply scrape_dedup_body_keep; assumption|].
  apply keep_values_Forall; assumption.
Qed.

Lemma claude_dedup_fold rows :
  Forall (well_formed "deprecated_model_name" false) rows ->
  scrape_claude_retirements.deduplicate_deprecations rows
  = Ok (odict.values
          (fold_left (keep (field "deprecated_model_name")
                           (better_by (fun _ => datetime.mkdate 1 1 1) has_replacement))
                     rows [])).
Proof.
  intros Hrows. unfold scrape_claude_retirements.deduplicate_deprecations.
  destruct (for_each_pure (fun _ => True)
              (well_formed "deprecated_model_name" false)
              scrape_claude_retirements.dedup_body
              (keep (field "deprecated_model_name")
                    (better_by (fun _ => datetime.mkdate 1 1 1) has_replacement)))
    with (xs := rows) (st := @nil (string * row)) as [-> _];
    [|exact I|exact Hrows|reflexivity].
  intros st x _ Hx. split; [apply claude_dedup_body_keep; assumption | exact I].
Qed.

Lemma openai_dedup_fold rows :
  Forall (well_formed "model_name" true) rows ->
  scrape_openai_retirements.deduplicate_by_earliest_retirement rows
  = Ok (odict.values
          (fold_left (keep (field "model_name") (better_by date_of (fun _ => false)))
                     rows [])).
Proof.
  intros Hrows. unfold scrape_openai_retirements.deduplicate_by_earliest_retirement.
  destruct (for_each_pure
              (fun best => Forall (well_formed "model_name" true) (odict.values best))
              (well_formed "model_name" true) scrape_openai_retirements.dedup_body
              (keep (field "model_name") (better_by date_of (fun _ => false))))
    with (xs := rows) (st := @nil (string * row)) as [-> _];
    [|constructor|exact Hrows|reflexivity].
  intros st x Hst Hx. split; [apply openai_dedup_body_keep; assumption|].
  apply keep_values_Forall; assumption.
Qed.

Lemma filter_always {A} (P : A -> Prop) `{forall x, Decision (P x)} (l : list A) :
  (forall x, P x) -> filter P l = l.
Proof.
  intros HP. induction l as [|x l IH]; [reflexivity|].
  rewrite filter_cons, decide_True, IH by apply HP. reflexivity.
Qed.

Lemma filter_never {A} (P : A -> Prop) `{forall x, Decision (P x)} (l : list A) :
  (forall x, ~ P x) -> filter P l = [].
Proof.
  intros HP. induction l as [|x l IH]; [reflexivity|].
  rewrite filter_cons, decide_False, IH by apply HP. reflexivity.
Qed.

(** With one date for all rows the date criterion keeps every row. *)
Lemma preferred_constant_date (e : datetime.date) has g :
  spec.preferred (fun _ => e) has g = spec.preferred_replacement_only has g.
Proof.
  unfold spec.preferred, spec.preferred_replacement_only, spec.earliest_rows.
  destruct g as [|x g]; [reflexivity|]. simpl map.
  destruct (min_date_least e (map (fun _ => e) g)) as [Hin _]. simpl in Hin.
  assert (datetime.min_date e (map (fun _ : row => e) g) = e) as ->.
  { apply elem_of_cons in Hin as [Hin|Hin]; [exact Hin|].
    apply list_elem_of_In, in_map_iff in Hin as (y & Hy & _). congruence. }
  rewrite filter_always by reflexivity. reflexivity.
Qed.

(** Without replacements the replacement criterion keeps every row. *)
Lemma preferred_no_replacement date g :
  spec.preferred date (fun _ => false) g = spec.preferred_date_only date g.
Proof.
  unfold spec.preferred, spec.preferred_date_only, spec.replacement_first.
  rewrite filter_never by discriminate. reflexivity.
Qed.

Lemma select_ext ident (f g : list row -> option row) rows :
  (forall l, f l = g l) -> spec.select ident f rows = spec.select ident g rows.
Proof.
  intros Hfg. unfold spec.select. apply list_omap_ext.
  apply Forall2_same_length_lookup_2; [reflexivity|].
  intros i x y Hx Hy. rewrite Hx in Hy. injection Hy as <-. apply Hfg.
Qed.

(** The identities of the records kept: each once, in the order of their
    first appearance. *)
Lemma keep_key_is_ident ident better rows :
  forall best,
    (forall kv, kv ∈ best -> ident kv.2 = kv.1) ->
    forall kv, kv ∈ fold_left (keep ident better) rows best -> ident kv.2 = kv.1.
Proof.
  induction rows as [|r rows IH]; intros best Hbest; simpl; [exact Hbest|].
  apply IH. intros kv Hkv. unfold keep in Hkv.
  assert (kv ∈ odict.set (ident r) r best -> ident kv.2 = kv.1) as Hset.
  { intros Hs. apply odict_set_elem in Hs as [->|Hs]; [reflexivity | apply Hbest, Hs]. }
  destruct (odict.get (ident r) best) as [ex|]; [|auto].
  destruct (better r ex); auto.
Qed.

Lemma fold_keep_idents ident better rows :
  map ident (odict.values (fold_left (keep ident better) rows []))
  = spec.first_seen (map ident rows).
Proof.
  rewrite <- (fold_keep_keys ident better).
  pose proof (keep_key_is_ident ident better rows []) as Hk.
  specialize (Hk ltac:(intros kv Hkv; apply elem_of_nil in Hkv as [])).
  induction (fold_left (keep ident better) rows []) as [|[k v] d IH]; [reflexivity|].
  simpl. f_equal.
  - apply (Hk (k, v)), list_elem_of_here.
  - apply IH. intros kv Hkv. apply Hk, list_elem_of_further, Hkv.
Qed.

(** ** What each deduplicator keeps *)

(** C3, as amended. [deduplicate_rows] of [scrape.py] keeps one record
    per identity, in the order of first appearance, chosen by: earliest
    date, then a non-empty replacement, then first seen.  The two
    single-source deduplicators apply one criterion each before first
    seen: the Claude one the replacement only, the Azure one the date
    only. *)
Theorem C3_dedup_preference_per_script (rows : list row) :
  (Forall (well_formed "model_name" true) rows ->
   exists out,
     scrape.deduplicate_rows rows = Ok out
     /\ out = spec.select (field "model_name")
                (spec.preferred date_of has_replacement) rows
     /\ map (field "model_name") out
        = spec.first_seen (map (field "model_name") rows))
  /\ (Forall (well_formed "deprecated_model_name" false) rows ->
      scrape_claude_retirements.deduplicate_deprecations rows
      = Ok (spec.select (field "deprecated_model_name")
              (spec.preferred_replacement_only has_replacement) rows))
  /\ (Forall (well_formed "model_name" true) rows ->
      scrape_openai_retirements.deduplicate_by_earliest_retirement rows
      = Ok (spec.select (field "model_name") (spec.preferred_date_only date_of) rows)).
Proof.
  split; [|split].
  - intros Hrows. eexists. split; [apply scrape_dedup_fold, Hrows|].
    split; [|apply fold_keep_idents].
    rewrite fold_keep_values. apply select_ext, pick_preferred.
  - intros Hrows. rewrite claude_dedup_fold by exact Hrows. f_equal.
    rewrite fold_keep_values. apply select_ext. intros l.
    rewrite pick_preferred. apply preferred_constant_date.
  - intros Hrows. rewrite openai_dedup_fold by exact Hrows. f_equal.
    rewrite fold_keep_values. apply select_ext. intros l.
    rewrite pick_preferred. apply preferred_no_replacement.
Qed.

Lemma C3_witness :
  let rows := [haiku "2026-03-01" ""; haiku "2026-01-15" "claude-4";
               haiku "2026-01-15" ""]%string in
  Forall (well_formed "model_name" true) rows
  /\ Forall (well_formed "deprecated_model_name" false) rows
  /\ (exists out,
        scrape.deduplicate_rows rows = Ok out
        /\ out = spec.select (field "model_name")
                   (spec.preferred date_of has_replacement) rows
        /\ map (field "model_name") out
           = spec.first_seen (map (field "model_name") rows))
  /\ scrape_claude_retirements.deduplicate_deprecations rows
     = Ok (spec.select (field "deprecated_model_name")
             (spec.preferred_replacement_only has_replacement) rows)
  /\ scrape_openai_retirements.deduplicate_by_earliest_retirement rows
     = Ok (spec.select (field "model_name") (spec.preferred_date_only date_of) rows).
Proof.
  intros rows.
  assert (Forall (well_formed "model_name" true) rows
          /\ Forall (well_formed "deprecated_model_name" false) rows) as [W1 W2].
  { split; repeat constructor; try discriminate;
      try (eexists; reflexivity); intros _; eexists; vm_compute; reflexivity. }
  destruct (C3_dedup_preference_per_script rows) as (H1 & H2 & H3).
  split; [exact W1|]. split; [exact W2|].
  split; [exact (H1 W1)|]. split; [exact (H2 W2) | exact (H3 W1)].
Defined.

(** The example of the specification: the earlier date wins over the
    replacement. *)
Example dedup_earlier_date_wins :
  scrape.deduplicate_rows [haiku "2026-03-01" ""; haiku "2026-01-15" "claude-4"]%string
  = Ok [haiku "2026-01-15" "claude-4"]%string.
Proof. vm_compute. reflexivity. Qed.

Example dedup_tie_replacement_wins :
  scrape.deduplicate_rows [haiku "2026-01-15" ""; haiku "2026-01-15" "claude-4"]%string
  = Ok [haiku "2026-01-15" "claude-4"]%string.
Proof. vm_compute. reflexivity. Qed.

(** C3, the claim as stated fails on the single-source scripts. The
    Claude deduplicator keeps the later row because it has a replacement;
    the Azure one keeps the first of two rows of one date although only
    the second has a replacement. The order of the claim names the other
    row in both cases. *)
Lemma C3_counterexample :
  scrape_claude_retirements.deduplicate_deprecations
    [haiku "2026-01-15" ""; haiku "2026-03-01" "claude-4"]%string
  = Ok [haiku "2026-03-01" "claude-4"]%string
  /\ spec.select (field "deprecated_model_name") (spec.preferred date_of has_replacement)
       [haiku "2026-01-15" ""; haiku "2026-03-01" "claude-4"]%string
     = [haiku "2026-01-15" ""]%string
  /\ scrape_openai_retirements.deduplicate_by_earliest_retirement
       [haiku "2026-01-15" ""; haiku "2026-01-15" "claude-4"]%string
     = Ok [haiku "2026-01-15" ""]%string
  /\ spec.select (field "model_name") (spec.preferred date_of has_replacement)
       [haiku "2026-01-15" ""; haiku "2026-01-15" "claude-4"]%string
     = [haiku "2026-01-15" "claude-4"]%string
  /\ haiku "2026-03-01" "claude-4" <> haiku "2026-01-15" ""
  /\ haiku "2026-01-15" "" <> haiku "2026-01-15" "claude-4".
Proof.
  repeat split; try (vm_compute; reflexivity);
    apply (bool_decide_eq_false_1 _); vm_compute; reflexivity.
Qed.

(** ** No deduplicator builds a row *)

Lemma set_adds_only (k : string) (r : row) (best : list (string * row)) kv :
  kv ∈ odict.set k r best -> kv ∈ best \/ kv.2 = r.
Proof. intros H. apply odict_set_elem in H as [->|H]; auto. Qed.

Ltac adds_only_cases :=
  repeat match goal with
    | |- Ok _ = Ok _ -> _ => intros [= <-]
    | |- Raise _ = Ok _ -> _ => discriminate
    | |- (match ?x with _ => _ end) = Ok _ -> _ => destruct x; simpl
    | |- (if ?x then _ else _) = Ok _ -> _ => destruct x; simpl
    | |- (?x ≫= _) = Ok _ -> _ => destruct x; simpl
    end;
  intros kv Hkv; first [left; exact Hkv | exact (set_adds_only _ _ _ _ Hkv)].

Lemma scrape_dedup_adds_only : adds_only scrape.dedup_body.
Proof.
  intros best r best'. unfold scrape.dedup_body.
  destruct (pyrow.getitem r "model_name"); simpl; [|discriminate].
  destruct (scrape.retirement_date_of r); simpl; [|discriminate].
  destruct (odict.get a best) as [ex|]; simpl.
  - destruct (scrape.retirement_date_of ex); simpl; [|discriminate].
    adds_only_cases.
  - adds_only_cases.
Qed.

Lemma claude_dedup_adds_only : adds_only scrape_claude_retirements.dedup_body.
Proof.
  intros best r best'. unfold scrape_claude_retirements.dedup_body.
  destruct (pyrow.getitem r "deprecated_model_name"); simpl; [|discriminate].
  destruct (odict.get a best) as [ex|]; simpl; adds_only_cases.
Qed.

Lemma openai_dedup_adds_only : adds_only scrape_openai_retirements.dedup_body.
Proof.
  intros best r best'. unfold scrape_openai_retirements.dedup_body.
  destruct (pyrow.getitem r "model_name"); simpl; [|discriminate].
  destruct (scrape_openai_retirements.retirement_date_of r); simpl; [|discriminate].
  destruct (odict.get a best) as [ex|]; simpl.
  - destruct (scrape_openai_retirements.retirement_date_of ex); simpl; [|discriminate].
    adds_only_cases.
  - adds_only_cases.
Qed.

Lemma adds_only_members body rows out :
  adds_only body ->
  (for_each body rows [] ≫= fun best => Ok (odict.values best)) = Ok out ->
  forall r, r ∈ out -> r ∈ rows.
Proof.
  intros Hbody Hrun r Hr.
  apply bind_Ok in Hrun as (best & Hloop & [= <-]).
  assert (forall kv, kv ∈ best -> kv.2 ∈ [] ++ rows) as Hinv.
  { eapply (for_each_invariant
              (fun seen (b : list (string * row)) => forall kv, kv ∈ b -> kv.2 ∈ seen)
              body); [| |exact Hloop].
    - intros seen st x st' HI Hb kv Hkv. apply elem_of_app.
      destruct (Hbody _ _ _ Hb kv Hkv) as [H | ->]; [left; apply HI, H|].
      right. apply list_elem_of_here.
    - intros kv Hkv. apply elem_of_nil in Hkv as []. }
  apply list_elem_of_In, in_map_iff in Hr as (kv & <- & Hkv).
  apply (Hinv kv), list_elem_of_In, Hkv.
Qed.

(** C10. Whatever the rows, a record a deduplicator returns is one of
    the rows it was given, field for field; and on rows that have their
    identity and a readable date each deduplicator returns. *)
Theorem C10_dedup_returns_input_rows (rows : list row) :
  (forall out r,
      scrape.deduplicate_rows rows = Ok out
      \/ scrape_claude_retirements.deduplicate_deprecations rows = Ok out
      \/ scrape_openai_retirements.deduplicate_by_earliest_retirement rows = Ok out ->
      r ∈ out -> r ∈ rows)
  /\ (Forall (well_formed "model_name" true) rows ->
      returns (scrape.deduplicate_rows rows)
      /\ returns (scrape_openai_retirements.deduplicate_by_earliest_retirement rows))
  /\ (Forall (well_formed "deprecated_model_name" false) rows ->
      returns (scrape_claude_retirements.deduplicate_deprecations rows)).
Proof.
  split; [|split].
  - intros out r [H|[H|H]].
    + apply (adds_only_members _ _ _ scrape_dedup_adds_only H).
    + apply (adds_only_members _ _ _ claude_dedup_adds_only H).
    + apply (adds_only_members _ _ _ openai_dedup_adds_only H).
  - intros W. split; eexists.
    + apply scrape_dedup_fold, W.
    + apply openai_dedup_fold, W.
  - intros W. eexists. apply claude_dedup_fold, W.
Qed.

Lemma C10_witness :
  let rows := [haiku "2026-01-15" ""; haiku "2026-03-01" "claude-4"]%string in
  let out := [haiku "2026-01-15" ""]%string in
  (scrape.deduplicate_rows rows = Ok out
   \/ scrape_claude_retirements.deduplicate_deprecations rows = Ok out
   \/ scrape_openai_retirements.deduplicate_by_earliest_retirement rows = Ok out)
  /\ haiku "2026-01-15" "" ∈ out
  /\ Forall (well_formed "model_name" true) rows
  /\ Forall (well_formed "deprecated_model_name" false) rows
  /\ haiku "2026-01-15" "" ∈ rows
  /\ returns (scrape.deduplicate_rows rows)
  /\ returns (scrape_openai_retirements.deduplicate_by_earliest_retirement rows)
  /\ returns (scrape_claude_retirements.deduplicate_deprecations rows).
Proof.
  intros rows out.
  assert (scrape.deduplicate_rows rows = Ok out) as Hrun by (vm_compute; reflexivity).
  assert (haiku "2026-01-15" "" ∈ out) as Hin by apply list_elem_of_here.
  assert (Forall (well_formed "model_name" true) rows
          /\ Forall (well_formed "deprecated_model_name" false) rows) as [W1 W2].
  { split; repeat constructor; try discriminate;
      try (eexists; reflexivity); intros _; eexists; vm_compute; reflexivity. }
  destruct (C10_dedup_returns_input_rows rows) as (H1 & H2 & H3).
  split; [left; exact Hrun|]. split; [exact Hin|].
  split; [exact W1|]. split; [exact W2|].
  split; [exact (H1 out _ (or_introl Hrun) Hin)|].
  split; [exact (proj1 (H2 W1))|]. split; [exact (proj2 (H2 W1)) | exact (H3 W2)].
Defined.

(** ** The snapshot file: flattening identity tuples and back *)

Import scrape_ms_retirements.

Lemma split_join_cons (x rest : string) :
  has_sep x = false -> ends_with_bar x = false ->
  split (x +:+ "||" +:+ rest) = x :: split rest.
Proof.
  induction x as [|c x IH]; intros Hs He; [reflexivity|].
  destruct x as [|c' x].
  - simpl in He. simpl. rewrite He. reflexivity.
  - change (String c (String c' x) +:+ "||" +:+ rest)
      with (String c (String c' (x +:+ "||" +:+ rest))).
    change (has_sep (String c (String c' x)))
      with ((Ascii.eqb c "|" && Ascii.eqb c' "|") || has_sep (String c' x)) in Hs.
    apply orb_false_iff in Hs as [Hcc Hs].
    change (split (String c (String c' (x +:+ "||" +:+ rest))))
      with (if Ascii.eqb c "|" && Ascii.eqb c' "|"
            then ""%string :: split (x +:+ "||" +:+ rest)
            else cons_head c (split (String c' x +:+ "||" +:+ rest))).
    rewrite Hcc, IH by assumption. reflexivity.
Qed.

Lemma split_atom (x : string) : has_sep x = false -> split x = [x].
Proof.
  induction x as [|c x IH]; intros Hs; [reflexivity|].
  destruct x as [|c' x]; [reflexivity|].
  change (has_sep (String c (String c' x)))
    with ((Ascii.eqb c "|" && Ascii.eqb c' "|") || has_sep (String c' x)) in Hs.
  apply orb_false_iff in Hs as [Hcc Hs].
  change (split (String c (String c' x)))
    with (if Ascii.eqb c "|" && Ascii.eqb c' "|" then ""%string :: split x
          else cons_head c (split (String c' x))).
  rewrite Hcc, IH by assumption. reflexivity.
Qed.

Lemma split_join (k : list string) : flat_safe k -> split (text.join "||" k) = k.
Proof.
  induction k as [|x k IH]; intros Hk; [destruct Hk|].
  destruct Hk as [Hs Hk]. destruct k as [|y k].
  - simpl. apply split_atom, Hs.
  - destruct Hk as [He Hk].
    change (text.join "||" (x :: y :: k)) with (x +:+ "||" +:+ text.join "||" (y :: k)).
    rewrite split_join_cons, IH by assumption. reflexivity.
Qed.

(** The pieces [split] returns contain no separator. *)
Lemma split_head_char (s : string) :
  match split s with
  | String c _ :: _ => exists s', s = String c s'
  | _ => True
  end
  /\ split s <> [].
Proof.
  destruct s as [|c s]; [split; [exact I | discriminate]|].
  destruct s as [|c' s]; [split; [eexists; reflexivity | discriminate]|].
  change (split (String c (String c' s)))
    with (if Ascii.eqb c "|" && Ascii.eqb c' "|" then ""%string :: split s
          else cons_head c (split (String c' s))).
  destruct (Ascii.eqb c "|" && Ascii.eqb c' "|"); [split; [exact I | discriminate]|].
  destruct (split (String c' s)) as [|p ps]; simpl;
    (split; [eexists; reflexivity | discriminate]).
Qed.

Lemma split_separator_free (s : string) : separator_free (split s).
Proof.
  unfold separator_free.
  assert (forall n s, (String.length s <= n)%nat ->
                      Forall (fun x => has_sep x = false) (split s)) as H.
  { clear s. induction n as [|n IH]; intros s Hn.
    - destruct s; [repeat constructor | simpl in Hn; lia].
    - destruct s as [|c s]; [repeat constructor|].
      destruct s as [|c' s]; [repeat constructor|].
      change (split (String c (String c' s)))
        with (if Ascii.eqb c "|" && Ascii.eqb c' "|" then ""%string :: split s
              else cons_head c (split (String c' s))).
      simpl in Hn.
      destruct (Ascii.eqb c "|" && Ascii.eqb c' "|") eqn:Hcc.
      + constructor; [reflexivity|]. apply IH. lia.
      + pose proof (IH (String c' s) ltac:(simpl; lia)) as Hrec.
        pose proof (split_head_char (String c' s)) as [Hhead Hne].
        destruct (split (String c' s)) as [|p ps]; [congruence|].
        apply Forall_cons in Hrec as [Hp Hps]. simpl.
        constructor; [|exact Hps].
        destruct p as [|a p]; [reflexivity|].
        destruct Hhead as (s' & [= <- _]).
        change (has_sep (String c (String c' p)))
          with ((Ascii.eqb c "|" && Ascii.eqb c' "|") || has_sep (String c' p)).
        rewrite Hcc, Hp. reflexivity. }
  apply (H (String.length s)). lia.
Qed.

Lemma odict_set_fresh {K V} `{EqDecision K} (k : K) (v : V) (d : list (K * V)) :
  k ∉ odict.keys d -> odict.set k v d = d ++ [(k, v)].
Proof.
  induction d as [|[k' v'] d IH]; simpl; [reflexivity|].
  rewrite not_elem_of_cons. intros [Hne Hd].
  rewrite decide_False, IH by assumption. reflexivity.
Qed.

Lemma map_keys_distinct {K K' V} `{EqDecision K'} (f : K -> K') (d : list (K * V)) :
  NoDup (map f (odict.keys d)) ->
  odict.map_keys f d = map (fun kv => (f kv.1, kv.2)) d.
Proof.
  unfold odict.map_keys.
  assert (forall acc : list (K' * V),
             NoDup (odict.keys acc ++ map f (odict.keys d)) ->
             fold_left (fun acc kv => odict.set (f kv.1) kv.2 acc) d acc
             = acc ++ map (fun kv => (f kv.1, kv.2)) d) as H.
  { induction d as [|[k v] d IH]; intros acc Hnd; simpl.
    - rewrite app_nil_r. reflexivity.
    - simpl in Hnd. rewrite odict_set_fresh.
      + rewrite IH.
        * rewrite <- app_assoc. reflexivity.
        * unfold odict.keys in *. rewrite map_app. simpl.
          rewrite <- app_assoc. exact Hnd.
      + apply NoDup_app in Hnd as (_ & Hdisj & _).
        intros Hin. apply (Hdisj _ Hin). apply list_elem_of_here. }
  intros Hnd. apply (H []). exact Hnd.
Qed.

Lemma map_split_join (ks : list (list string)) :
  Forall flat_safe ks -> map split (map (text.join "||") ks) = ks.
Proof.
  induction 1 as [|k ks Hk _ IH]; simpl; [reflexivity|].
  rewrite split_join, IH by assumption. reflexivity.
Qed.

Lemma load_save_snapshot (X : list (list string * row)) :
  NoDup (odict.keys X) -> Forall flat_safe (odict.keys X) ->
  load_snapshot (Some (save_snapshot X)) = X.
Proof.
  intros Hnd Hsafe. unfold load_snapshot, save_snapshot.
  assert (NoDup (map (text.join "||") (odict.keys X))) as Hflat.
  { apply (NoDup_fmap_1 split).
    change (NoDup (map split (map (text.join "||") (odict.keys X)))).
    rewrite map_split_join by exact Hsafe. exact Hnd. }
  rewrite (map_keys_distinct (text.join "||")) by exact Hflat.
  assert (odict.keys (map (fun kv : list string * row => (text.join "||" kv.1, kv.2)) X)
          = map (text.join "||") (odict.keys X)) as Hkeys.
  { unfold odict.keys. rewrite !map_map. reflexivity. }
  rewrite map_keys_distinct.
  - rewrite map_map. simpl.
    clear Hnd Hflat Hkeys. induction X as [|[k v] X IH]; [reflexivity|].
    apply Forall_cons in Hsafe as [Hk Hsafe]. simpl.
    rewrite split_join, IH by assumption. reflexivity.
  - rewrite Hkeys, map_split_join by exact Hsafe. exact Hnd.
Qed.

(** C6, as amended. The snapshot written and read back is the snapshot,
    for every snapshot (the empty one included) whose identity tuples are
    not empty, have no separator in a component and no bar at the end of
    a component other than the last.  A tuple that comes back unchanged
    has no separator in any component: the absence of the separator is
    needed, and is not enough. *)
Theorem C6_snapshot_round_trip (X : list (list string * row)) :
  (NoDup (odict.keys X) -> Forall flat_safe (odict.keys X) ->
   load_snapshot (Some (save_snapshot X)) = X)
  /\ (forall k, split (text.join "||" k) = k -> separator_free k)
  /\ load_snapshot (Some (save_snapshot [])) = [].
Proof.
  split; [exact (load_save_snapshot X)|]. split; [|reflexivity].
  intros k Hk. rewrite <- Hk. apply split_separator_free.
Qed.

Lemma C6_witness :
  let X := [(["Text"; "gpt-4o"; "2024-11-20"], {[ "Retirement date" := "2026-10-01" ]});
            (["Audio"; "whisper"; ""], ∅)]%string : list (list string * row) in
  let k := ["Text"; "gpt-4o"; "2024-11-20"]%string in
  NoDup (odict.keys X) /\ Forall flat_safe (odict.keys X)
  /\ load_snapshot (Some (save_snapshot X)) = X
  /\ split (text.join "||" k) = k
  /\ separator_free k.
Proof.
  intros X k.
  assert (NoDup (odict.keys X)) as Hnd.
  { apply (proj1 (bool_decide_spec _)). vm_compute. exact I. }
  assert (Forall flat_safe (odict.keys X)) as Hsafe.
  { repeat constructor. }
  assert (split (text.join "||" k) = k) as Hk by reflexivity.
  destruct (C6_snapshot_round_trip X) as (Hround & Hneeded & _).
  split; [exact Hnd|]. split; [exact Hsafe|]. split; [exact (Hround Hnd Hsafe)|].
  split; [exact Hk | exact (Hneeded k Hk)].
Defined.

(** C6, the claim as stated fails: no component of the tuple contains
    the separator, and the tuple read back is another one. *)
Lemma C6_counterexample :
  let X := [(["a|"; "b"; "c"]%string, (∅ : row))] in
  NoDup (odict.keys X)
  /\ Forall separator_free (odict.keys X)
  /\ save_snapshot X = [("a|||b||c"%string, ∅)]
  /\ load_snapshot (Some (save_snapshot X)) = [(["a"; "|b"; "c"]%string, ∅)]
  /\ load_snapshot (Some (save_snapshot X)) <> X.
Proof.
  intros X. split; [repeat constructor; apply not_elem_of_nil|].
  split; [repeat constructor|]. split; [reflexivity|]. split; [reflexivity|].
  intros H. apply (f_equal odict.keys) in H. discriminate H.
Qed.

(** ** Change detection *)

Lemma field_diffs_from (old_row r : row) (fs : list string) :
  forall acc : list (string * (string * string)),
    NoDup (odict.keys acc ++ fs) ->
    fold_left
      (fun diffs f =>
         if negb (String.eqb (pyrow.get_or_empty old_row f) (pyrow.get_or_empty r f))
         then odict.set f (pyrow.get_or_empty old_row f, pyrow.get_or_empty r f) diffs
         else diffs) fs acc
    = acc ++ map (fun f => (f, (pyrow.get_or_empty old_row f, pyrow.get_or_empty r f)))
                 (filter (fun f => pyrow.get_or_empty old_row f <> pyrow.get_or_empty r f)
                         fs).
Proof.
  induction fs as [|f fs IH]; intros acc Hnd; simpl.
  - rewrite app_nil_r. reflexivity.
  - rewrite filter_cons.
    destruct (String.eqb_spec (pyrow.get_or_empty old_row f) (pyrow.get_or_empty r f))
      as [Heq|Hne]; simpl.
    + rewrite decide_False by (intros Hn; apply Hn, Heq).
      apply IH. apply NoDup_app in Hnd as (Ha & Hd & Hf).
      apply NoDup_cons in Hf as [_ Hf].
      apply NoDup_app. split; [exact Ha|]. split; [|exact Hf].
      intros x Hx Hxf. apply (Hd x Hx), list_elem_of_further, Hxf.
    + rewrite decide_True by exact Hne.
      rewrite odict_set_fresh.
      * rewrite IH; [simpl; rewrite <- app_assoc; reflexivity|].
        unfold odict.keys. rewrite map_app, <- app_assoc. exact Hnd.
      * apply NoDup_app in Hnd as (_ & Hd & _).
        intros Hin. apply (Hd _ Hin), list_elem_of_here.
Qed.

Lemma field_diffs_expected (old_row r : row) :
  field_diffs old_row r = expected_diffs old_row r.
Proof.
  unfold field_diffs, expected_diffs. rewrite field_diffs_from; [reflexivity|].
  apply (proj1 (bool_decide_spec _)). vm_compute. exact I.
Qed.

Lemma expected_diffs_spec (old_row r : row) f a b :
  (f, (a, b)) ∈ expected_diffs old_row r
  <-> f ∈ FIELDS /\ a = pyrow.get_or_empty old_row f /\ b = pyrow.get_or_empty r f
      /\ a <> b.
Proof.
  unfold expected_diffs. rewrite list_elem_of_In, in_map_iff. split.
  - intros (f' & [= <- <- <-] & Hin).
    apply list_elem_of_In, list_elem_of_filter in Hin as [Hne Hin]. auto.
  - intros (Hin & -> & -> & Hne). exists f. split; [reflexivity|].
    apply list_elem_of_In, list_elem_of_filter. auto.
Qed.

(** The events are those of the rows, one row after the other. *)
Lemma compare_from old new_rows :
  forall st,
    fold_left (compare_body old) new_rows st
    = (st.1 ++ omap (event_of old) new_rows,
       fold_left (fun snap r => odict.set (key_for_row r) r snap) new_rows st.2).
Proof.
  induction new_rows as [|r rows IH]; intros [chs snap]; simpl.
  - rewrite app_nil_r. reflexivity.
  - rewrite IH. unfold event_of, compare_body. simpl.
    destruct (odict.get (key_for_row r) old) as [old_row|]; simpl.
    + destruct (field_diffs old_row r); simpl.
      * reflexivity.
      * rewrite <- app_assoc. reflexivity.
    + rewrite <- app_assoc. reflexivity.
Qed.

Lemma compare_events old new_rows ch :
  ch ∈ (compare_snapshots old new_rows).1
  <-> exists r, r ∈ new_rows /\ event_of old r = Some ch.
Proof.
  unfold compare_snapshots. rewrite compare_from. simpl.
  rewrite list_elem_of_omap. reflexivity.
Qed.

Lemma event_of_known old r old_row :
  odict.get (key_for_row r) old = Some old_row ->
  event_of old r
  = match expected_diffs old_row r with
    | [] => None
    | diffs =>
        Some (update (key_for_row r) old_row r diffs
                ("Updated fields for " +:+ key_text (key_for_row r) +:+ ": "
                 +:+ text.join ", " (map diff_text diffs)))
    end.
Proof.
  intros Hget. unfold event_of, compare_body. rewrite Hget.
  rewrite field_diffs_expected. destruct (expected_diffs old_row r); reflexivity.
Qed.

Lemma event_of_row old r ch : event_of old r = Some ch -> change_row ch = Some r.
Proof.
  unfold event_of, compare_body.
  destruct (odict.get (key_for_row r) old) as [old_row|]; simpl.
  - destruct (field_diffs old_row r); simpl; [discriminate|].
    intros [= <-]. reflexivity.
  - intros [= <-]. reflexivity.
Qed.

Lemma fold_left_filter {A} (P : A -> Prop) `{forall x, Decision (P x)} (l : list A) :
  forall acc,
    fold_left (fun acc x => if decide (P x) then acc ++ [x] else acc) l acc
    = acc ++ filter P l.
Proof.
  induction l as [|x l IH]; intros acc; simpl.
  - rewrite app_nil_r. reflexivity.
  - rewrite IH, filter_cons. destruct (decide (P x)); [|reflexivity].
    rewrite <- app_assoc. reflexivity.
Qed.

Lemma diff_body_reported existing changes r :
  Forall csv_row (odict.values existing) -> csv_row r ->
  scrape.diff_body existing changes r
  = Ok (if decide (reported existing r) then changes ++ [r] else changes).
Proof.
  intros Hex (Hs & Hm & Hd). unfold scrape.diff_body.
  rewrite (getitem_field _ _ Hs). simpl. rewrite (getitem_field _ _ Hm). simpl.
  destruct (decide (reported existing r)) as [Hrep|Hrep]; unfold reported in Hrep;
    destruct (odict.get (field "source" r, field "model_name" r) existing)
      as [ex|] eqn:E; try reflexivity; try (exfalso; apply Hrep; exact I).
  all: assert (csv_row ex) as (_ & _ & Hde)
    by (rewrite Forall_forall in Hex; apply Hex;
        apply list_elem_of_In, in_map_iff; exists (field "source" r, field "model_name" r, ex);
        split; [reflexivity | apply list_elem_of_In, odict_get_elem, E]).
  all: rewrite (getitem_field _ _ Hd); simpl; rewrite (getitem_field _ _ Hde); simpl.
  all: change (pyrow.get_or_empty r "recommended_replacement")
         with (field "recommended_replacement" r);
       change (pyrow.get_or_empty ex "recommended_replacement")
         with (field "recommended_replacement" ex).
  all: destruct (String.eqb_spec (field "retirement_date" r) (field "retirement_date" ex));
       destruct (String.eqb_spec (field "recommended_replacement" r)
                                 (field "recommended_replacement" ex));
       simpl; try reflexivity; exfalso; tauto.
Qed.

Lemma diff_rows_filter new_rows existing :
  Forall csv_row new_rows -> Forall csv_row (odict.values existing) ->
  scrape.diff_rows new_rows existing = Ok (filter (reported existing) new_rows).
Proof.
  intros Hnew Hex. unfold scrape.diff_rows.
  destruct (for_each_pure (fun _ => True) csv_row (scrape.diff_body existing)
              (fun changes r => if decide (reported existing r) then changes ++ [r]
                                else changes))
    with (xs := new_rows) (st := @nil row) as [-> _]; [|exact I|exact Hnew|].
  - intros st x _ Hx. split; [apply diff_body_reported; assumption | exact I].
  - rewrite fold_left_filter. reflexivity.
Qed.

(** C7, as amended. In [compare_snapshots], for a row whose identity is
    in the prior snapshot, an event is emitted exactly when one of the
    four comparable fields differs; it is an [update] event and its
    [diffs] are all the comparable fields that differ, each with its old
    and its new value.  [diff_rows] of [scrape.py] reports the rows whose
    identity is new or whose date or replacement differs, and what it
    reports is the new row itself. *)
Theorem C7_change_events :
  (forall (old : list (list string * row)) (new_rows : list row) (r old_row : row),
      r ∈ new_rows ->
      odict.get (key_for_row r) old = Some old_row ->
      let changes := (compare_snapshots old new_rows).1 in
      let diffs := expected_diffs old_row r in
      ((exists ch, ch ∈ changes /\ change_row ch = Some r)
       <-> exists f, f ∈ FIELDS
                     /\ pyrow.get_or_empty old_row f <> pyrow.get_or_empty r f)
      /\ (forall ch, ch ∈ changes -> change_row ch = Some r ->
                     exists msg, ch = update (key_for_row r) old_row r diffs msg)
      /\ (forall f a b,
             (f, (a, b)) ∈ diffs
             <-> f ∈ FIELDS /\ a = pyrow.get_or_empty old_row f
                 /\ b = pyrow.get_or_empty r f /\ a <> b))
  /\ (forall (new_rows : list row) (existing : list ((string * string) * row)),
         Forall csv_row new_rows -> Forall csv_row (odict.values existing) ->
         scrape.diff_rows new_rows existing = Ok (filter (reported existing) new_rows)).
Proof.
  split; [|exact diff_rows_filter].
  intros old new_rows r old_row Hr Hget changes diffs.
  pose proof (event_of_known old r old_row Hget) as Hev. fold diffs in Hev.
  assert (forall ch, ch ∈ changes -> change_row ch = Some r -> event_of old r = Some ch)
    as Hmine.
  { intros ch Hch Hrow. apply compare_events in Hch as (r' & _ & Hr').
    pose proof (event_of_row _ _ _ Hr') as Hrow'.
    rewrite Hrow in Hrow'. injection Hrow' as ->. exact Hr'. }
  split; [|split].
  - split.
    + intros (ch & Hch & Hrow). apply Hmine in Hch; [|exact Hrow].
      rewrite Hev in Hch. destruct diffs as [|[f [a b]] diffs'] eqn:Hd; [discriminate|].
      assert ((f, (a, b)) ∈ expected_diffs old_row r) as Hin
        by (fold diffs; rewrite Hd; apply list_elem_of_here).
      apply expected_diffs_spec in Hin as (Hf & -> & -> & Hne). eauto.
    + intros (f & Hf & Hne).
      assert ((f, (pyrow.get_or_empty old_row f, pyrow.get_or_empty r f)) ∈ diffs) as Hin
        by (apply expected_diffs_spec; auto).
      destruct diffs as [|d diffs']; [apply elem_of_nil in Hin as []|].
      eexists. split; [apply compare_events; exists r; split; [exact Hr | exact Hev]|].
      reflexivity.
  - intros ch Hch Hrow. apply Hmine in Hch; [|exact Hrow].
    rewrite Hev in Hch. destruct diffs; [discriminate|].
    injection Hch as <-. eexists. reflexivity.
  - apply expected_diffs_spec.
Qed.

Lemma C7_witness :
  let old_row := tab_row "Text" "gpt-4o" "1" "2026-01-01" in
  let r := tab_row "Text" "gpt-4o" "1" "2026-02-01" in
  let old := [(["Text"; "gpt-4o"; "1"]%string, old_row)] in
  let new_row := model_row "S" "m" "2026-02-01" "" in
  let existing := [(("S", "m")%string, model_row "S" "m" "2026-01-01" "")] in
  r ∈ [r] /\ odict.get (key_for_row r) old = Some old_row
  /\ Forall csv_row [new_row] /\ Forall csv_row (odict.values existing)
  /\ (forall ch, ch ∈ (compare_snapshots old [r]).1 -> change_row ch = Some r ->
                 exists msg, ch = update (key_for_row r) old_row r
                                    (expected_diffs old_row r) msg)
  /\ expected_diffs old_row r = [("Retirement date", ("2026-01-01", "2026-02-01"))]%string
  /\ scrape.diff_rows [new_row] existing = Ok (filter (reported existing) [new_row]).
Proof.
  intros old_row r old new_row existing.
  assert (r ∈ [r]) as Hin by apply list_elem_of_here.
  assert (odict.get (key_for_row r) old = Some old_row) as Hget
    by (vm_compute; reflexivity).
  assert (Forall csv_row [new_row] /\ Forall csv_row (odict.values existing)) as [W1 W2].
  { split; repeat constructor; eexists; vm_compute; reflexivity. }
  destruct C7_change_events as [Hcmp Hdiff].
  destruct (Hcmp old [r] r old_row Hin Hget) as (_ & Hfull & _).
  split; [exact Hin|]. split; [exact Hget|]. split; [exact W1|]. split; [exact W2|].
  split; [exact Hfull|]. split; [vm_compute; reflexivity|].
  exact (Hdiff [new_row] existing W1 W2).
Defined.

(** C7, the claim as stated fails on [diff_rows]: the change it reports
    for a row is the same whatever the old date was, so it carries no
    old value and names no changed field. *)
Lemma C7_counterexample :
  let r := model_row "S" "m" "2026-02-01" "" in
  scrape.diff_rows [r] [(("S", "m")%string, model_row "S" "m" "2026-01-01" "")] = Ok [r]
  /\ scrape.diff_rows [r] [(("S", "m")%string, model_row "S" "m" "2025-12-31" "")] = Ok [r].
Proof. split; vm_compute; reflexivity. Qed.

(** ** Feed entry identifiers *)

Lemma to_int_not_nil (z : Z) : Z.to_int z <> Decimal.Pos Decimal.Nil
                               /\ Z.to_int z <> Decimal.Neg Decimal.Nil.
Proof.
  destruct z as [|p|p]; simpl; split; try discriminate;
    intros [= Hp]; exact (DecimalPos.Unsigned.to_uint_nonnil _ Hp).
Qed.

Lemma str_int_inj (a b : Z) : text.str_int a = text.str_int b -> a = b.
Proof.
  unfold text.str_int. intros H. apply DecimalZ.to_int_inj.
  apply (f_equal NilZero.int_of_string) in H.
  destruct (to_int_not_nil a) as [Ha1 Ha2]. destruct (to_int_not_nil b) as [Hb1 Hb2].
  rewrite !NilZero.isi in H by assumption. injection H as H. exact H.
Qed.

(** C8. The identifier of an entry is built from the identity and from
    a hash of the model, the version and the clock.  It does not read the
    kind of the change nor the changed fields: two different changes to
    one identity in one run get one identifier.  And it reads the clock
    and the hash of the process: the same change written at another time,
    or by another process, gets another identifier whenever the two
    hashes differ. *)
Theorem C8_guid_reads_clock_not_content :
  (forall hash now ch1 ch2 item1 item2,
      change_key ch1 = change_key ch2 ->
      rss_item_of hash now ch1 = Ok item1 ->
      rss_item_of hash now ch2 = Ok item2 ->
      guid item1 = guid item2)
  /\ (forall hash1 hash2 now1 now2 type_label model version,
         hash1 (model +:+ version +:+ timestamp now1)
         <> hash2 (model +:+ version +:+ timestamp now2) ->
         entry_guid hash1 now1 type_label model version
         <> entry_guid hash2 now2 type_label model version)
  /\ (let hash := fun s => Z.of_nat (String.length s) in
      let key := ["Text"; "gpt-4o"; "1"]%string in
      let old_row := tab_row "Text" "gpt-4o" "1" "2026-01-01" in
      let ch := update key old_row (tab_row "Text" "gpt-4o" "1" "2026-02-01")
                  [("Retirement date", ("2026-01-01", "2026-02-01"))]%string "m" in
      let ch' := update key old_row (tab_row "Text" "gpt-4o" "1" "2026-03-01")
                   [("Retirement date", ("2026-01-01", "2026-03-01"))]%string "m" in
      (guid <$> rss_item_of hash (mk_clock "d" "1762387200.5") ch)
      = Ok "Text|gpt-4o|1|19"%string
      /\ (guid <$> rss_item_of hash (mk_clock "d" "1762473600.25") ch)
         = Ok "Text|gpt-4o|1|20"%string
      /\ (guid <$> rss_item_of hash (mk_clock "d" "1762387200.5") ch')
         = Ok "Text|gpt-4o|1|19"%string).
Proof.
  split; [|split].
  - intros hash now ch1 ch2 item1 item2 Hkey. unfold rss_item_of. rewrite Hkey.
    destruct (change_key ch2) as [|t [|m [|v [|x l]]]]; try discriminate.
    intros [= <-] [= <-]. reflexivity.
  - intros hash1 hash2 now1 now2 t m v Hne H. apply Hne. unfold entry_guid in H.
    repeat (apply String.app_inj in H). apply str_int_inj, H.
  - repeat split; vm_compute; reflexivity.
Qed.

Lemma C8_witness :
  let hash := fun s => Z.of_nat (String.length s) in
  let now1 := mk_clock "d" "1762387200.5" in
  let now2 := mk_clock "d" "1762473600.25" in
  let key := ["Text"; "gpt-4o"; "1"]%string in
  let ch1 := new key (tab_row "Text" "gpt-4o" "1" "2026-02-01") "m1" in
  let ch2 := baseline key "m2" in
  hash ("gpt-4o" +:+ "1" +:+ timestamp now1) <> hash ("gpt-4o" +:+ "1" +:+ timestamp now2)
  /\ entry_guid hash now1 "Text" "gpt-4o" "1" <> entry_guid hash now2 "Text" "gpt-4o" "1"
  /\ change_key ch1 = change_key ch2
  /\ exists item1 item2,
       rss_item_of hash now1 ch1 = Ok item1
       /\ rss_item_of hash now1 ch2 = Ok item2
       /\ guid item1 = guid item2.
Proof.
  intros hash now1 now2 key ch1 ch2.
  assert (hash ("gpt-4o" +:+ "1" +:+ timestamp now1)
          <> hash ("gpt-4o" +:+ "1" +:+ timestamp now2)) as Hne
    by (vm_compute; discriminate).
  destruct C8_guid_reads_clock_not_content as (Hsame & Hclock & _).
  split; [exact Hne|].
  split; [exact (Hclock hash hash now1 now2 _ _ _ Hne)|].
  split; [reflexivity|].
  eexists _, _. split; [reflexivity|]. split; [reflexivity|].
  exact (Hsame hash now1 ch1 ch2 _ _ eq_refl eq_refl eq_refl).
Defined.

(** ** Runs: what is persisted and what the first run publishes *)

Lemma odict_set_NoDup {K V} `{EqDecision K} (k : K) (v : V) (d : list (K * V)) :
  NoDup (odict.keys d) -> NoDup (odict.keys (odict.set k v d)).
Proof.
  intros Hd. rewrite odict_keys_set.
  destruct (odict.get k d) eqn:E; [exact Hd|].
  apply NoDup_app. split; [exact Hd|]. split; [|apply NoDup_singleton].
  intros x Hx Hk. apply list_elem_of_singleton in Hk as ->.
  apply odict_get_None in E. contradiction.
Qed.

Lemma new_snapshot_NoDup old new_rows :
  NoDup (odict.keys (compare_snapshots old new_rows).2).
Proof.
  unfold compare_snapshots. rewrite compare_from. simpl.
  assert (forall snap : list (list string * row),
             NoDup (odict.keys snap) ->
             NoDup (odict.keys
                      (fold_left (fun snap r => odict.set (key_for_row r) r snap)
                                 new_rows snap))) as H.
  { induction new_rows as [|r rows IH]; intros snap Hs; simpl; [exact Hs|].
    apply IH, odict_set_NoDup, Hs. }
  apply H. constructor.
Qed.

Lemma ms_main_snapshot hash now rows fs fs' :
  main hash now rows fs = Ok fs' ->
  snapshot_json fs'
  = Some (save_snapshot
            (compare_snapshots (load_snapshot (snapshot_json fs)) (sort_rows rows)).2).
Proof.
  unfold main.
  destruct (compare_snapshots (load_snapshot (snapshot_json fs)) (sort_rows rows))
    as [changes new_snapshot].
  intros H. apply bind_Ok in H as (items & _ & [= <-]). reflexivity.
Qed.

Lemma scrape_write_rss_length now rows items :
  scrape.write_rss now rows = Ok items -> length items = length rows.
Proof.
  unfold scrape.write_rss. intros H.
  pose proof (for_each_invariant
                (fun (seen : list row) (items : list scrape.rss_item) =>
                   length items = length seen)
                (fun items r => item ← scrape.rss_item_of now r; Ok (items ++ [item])))
    as Hinv.
  apply (Hinv) with (seen := []) in H; [exact H| |reflexivity].
  intros seen st x st' Hlen Hb.
  apply bind_Ok in Hb as (item & _ & [= <-]).
  rewrite !length_app, Hlen. reflexivity.
Qed.

(** C4. In [scrape.py] the snapshot file is written by the first run
    only: a later run, whatever it scraped and whether or not it found
    changes, leaves the file as it found it, so the run after it still
    compares against the rows of the first run.  The multi-tab script
    does save the set of the run at every run. *)
Theorem C4_scrape_snapshot_written_once :
  (forall now all_rows fs fs' lines,
      scrape.model_retirements_csv fs = Some lines ->
      scrape.main now all_rows fs = Ok fs' ->
      scrape.model_retirements_csv fs' = Some lines)
  /\ (let r1 := model_row "S" "m" "2026-01-01" "" in
      let r2 := model_row "S" "m" "2026-02-01" "" in
      exists fs1 fs2 fs3,
        scrape.main "t1" [r1] no_files = Ok fs1
        /\ scrape.main "t2" [r2] fs1 = Ok fs2
        /\ scrape.main "t3" [r2] fs2 = Ok fs3
        /\ scrape.model_retirements_csv fs1 = Some [r1]
        /\ scrape.model_retirements_csv fs2 = Some [r1]
        /\ scrape.model_retirements_changes_csv fs2 = Some [r2]
        /\ scrape.model_retirements_csv fs3 = Some [r1]
        /\ scrape.model_retirements_changes_csv fs3 = Some [r2])
  /\ (forall hash now rows fs fs',
         main hash now rows fs = Ok fs' ->
         let new_snapshot :=
           (compare_snapshots (load_snapshot (snapshot_json fs)) (sort_rows rows)).2 in
         Forall flat_safe (odict.keys new_snapshot) ->
         load_snapshot (snapshot_json fs') = new_snapshot).
Proof.
  split; [|split].
  - intros now all_rows fs fs' lines Hfile. unfold scrape.main.
    destruct all_rows as [|r rows]; [discriminate|]. rewrite Hfile.
    destruct (scrape.load_existing_csv lines) as [existing|]; simpl; [|discriminate].
    destruct (scrape.diff_rows (r :: rows) existing) as [[|c changes]|]; simpl;
      [intros [= <-]; exact Hfile | | discriminate].
    destruct (scrape.write_csv (c :: changes)); simpl; [|discriminate].
    destruct (scrape.write_rss now (r :: rows)); simpl; [|discriminate].
    intros [= <-]. reflexivity.
  - eexists _, _, _.
    split; [vm_compute; reflexivity|].
    split; [vm_compute; reflexivity|].
    split; [vm_compute; reflexivity|].
    repeat split; vm_compute; reflexivity.
  - intros hash now rows fs fs' Hrun new_snapshot Hsafe.
    rewrite (ms_main_snapshot _ _ _ _ _ Hrun).
    apply load_save_snapshot; [apply new_snapshot_NoDup | exact Hsafe].
Qed.

Lemma C4_witness :
  let r1 := model_row "S" "m" "2026-01-01" "" in
  let r2 := model_row "S" "m" "2026-02-01" "" in
  let fs1 := scrape.mk_files (Some [r1]) None None in
  let hash := fun s => Z.of_nat (String.length s) in
  let now := mk_clock "d" "1762387200.5" in
  let rows := [tab_row "Text" "gpt-4o" "1" "2026-10-01";
               tab_row "Audio" "whisper" "001" "2026-09-01"] in
  (exists fs2,
      scrape.model_retirements_csv fs1 = Some [r1]
      /\ scrape.main "t2" [r2] fs1 = Ok fs2
      /\ scrape.model_retirements_csv fs2 = Some [r1])
  /\ (exists fs',
         main hash now rows no_ms_files = Ok fs'
         /\ Forall flat_safe
              (odict.keys (compare_snapshots (load_snapshot (snapshot_json no_ms_files))
                                             (sort_rows rows)).2)
         /\ load_snapshot (snapshot_json fs')
            = (compare_snapshots (load_snapshot (snapshot_json no_ms_files))
                                 (sort_rows rows)).2).
Proof.
  intros r1 r2 fs1 hash now rows.
  destruct C4_scrape_snapshot_written_once as (Hkept & _ & Hsaved).
  split.
  - assert (exists fs2, scrape.main "t2" [r2] fs1 = Ok fs2) as [fs2 Hrun]
      by (eexists; vm_compute; reflexivity).
    exists fs2. split; [reflexivity|]. split; [exact Hrun|].
    exact (Hkept "t2"%string [r2] fs1 fs2 [r1] eq_refl Hrun).
  - assert (exists fs', main hash now rows no_ms_files = Ok fs') as [fs' Hrun]
      by (eexists; vm_compute; reflexivity).
    assert (Forall flat_safe
              (odict.keys (compare_snapshots (load_snapshot (snapshot_json no_ms_files))
                                             (sort_rows rows)).2)) as Hsafe
      by (vm_compute; repeat constructor).
    exists fs'. split; [exact Hrun|]. split; [exact Hsafe|].
    exact (Hsaved hash now rows no_ms_files fs' Hrun Hsafe).
Defined.

(** C5, as amended. In the multi-tab script a run that finds no prior
    snapshot hands the feed writer the single baseline event, whatever
    the number of rows, and the feed gets one new entry, the baseline
    one, before those it already had.  In [scrape.py] the first run
    writes one entry per row. *)
Theorem C5_first_run_feed :
  (forall hash now rows fs,
      load_snapshot (snapshot_json fs) = [] ->
      exists fs',
        main hash now rows fs = Ok fs'
        /\ rss_xml fs'
           = Some (baseline_item hash now :: read_existing_rss_items (rss_xml fs)))
  /\ (forall now all_rows fs fs',
         scrape.model_retirements_csv fs = None ->
         scrape.main now all_rows fs = Ok fs' ->
         exists items,
           scrape.rss_xml fs' = Some items /\ length items = length all_rows).
Proof.
  split.
  - intros hash now rows fs Hold. unfold main. rewrite Hold.
    destruct (compare_snapshots [] (sort_rows rows)) as [changes new_snapshot].
    eexists. split; reflexivity.
  - intros now all_rows fs fs' Hfile. unfold scrape.main.
    destruct all_rows as [|r rows]; [discriminate|]. rewrite Hfile.
    destruct (scrape.write_csv (r :: rows)); simpl; [|discriminate].
    destruct (scrape.write_rss now (r :: rows)) as [items|] eqn:E; simpl; [|discriminate].
    intros [= <-]. exists items. split; [reflexivity|].
    apply scrape_write_rss_length in E. exact E.
Qed.

Lemma C5_witness :
  let hash := fun s => Z.of_nat (String.length s) in
  let now := mk_clock "Fri, 06 Nov 2026 00:00:00 +0000" "1793923200.0" in
  let rows := [tab_row "Text" "gpt-4o" "1" "2026-10-01";
               tab_row "Audio" "whisper" "001" "2026-09-01";
               tab_row "Text" "gpt-4" "0613" "2026-06-01"] in
  load_snapshot (snapshot_json no_ms_files) = []
  /\ scrape.model_retirements_csv no_files = None
  /\ (exists fs',
         main hash now rows no_ms_files = Ok fs'
         /\ rss_xml fs' = Some [baseline_item hash now])
  /\ (exists fs' items,
         scrape.main "t" [model_row "S" "a" "2026-01-01" ""; model_row "S" "b" "2026-02-01" ""]
           no_files = Ok fs'
         /\ scrape.rss_xml fs' = Some items /\ length items = 2%nat).
Proof.
  intros hash now rows.
  destruct C5_first_run_feed as [Hms Hscrape].
  split; [reflexivity|]. split; [reflexivity|]. split.
  - exact (Hms hash now rows no_ms_files eq_refl).
  - assert (exists fs', scrape.main "t" [model_row "S" "a" "2026-01-01" "";
                                         model_row "S" "b" "2026-02-01" ""] no_files
                        = Ok fs') as [fs' Hrun] by (eexists; vm_compute; reflexivity).
    destruct (Hscrape _ _ no_files fs' eq_refl Hrun) as (items & Hitems & Hlen).
    exists fs', items. auto.
Defined.

(** C5, the claim as stated fails on [scrape.py]: its first run, with two
    records, publishes two entries, one per record, and no baseline
    entry. *)
Lemma C5_counterexample :
  exists fs',
    scrape.main "t" [model_row "S" "a" "2026-01-01" ""; model_row "S" "b" "2026-02-01" "x"]
      no_files = Ok fs'
    /\ (scrape.title <$> default [] (scrape.rss_xml fs'))
       = ["a retirement update"; "b retirement update"]%string
    /\ (scrape.guid <$> default [] (scrape.rss_xml fs'))
       = ["S|a|2026-01-01"; "S|b|2026-02-01"]%string.
Proof. eexists. split; [vm_compute; reflexivity|]. split; vm_compute; reflexivity. Qed.

(** ** The worked examples of the specification *)

Example normalize_not_sooner_than :
  scrape.normalize_date_from_text (Some "Not sooner than February 19, 2026"%string)
  = Ok (Some "2026-02-19"%string).
Proof. vm_compute. reflexivity. Qed.

Example normalize_no_sooner_than :
  scrape.normalize_date_from_text (Some "No sooner than 9/23/2025"%string)
  = Ok (Some "2025-09-23"%string).
Proof. vm_compute. reflexivity. Qed.

Example normalize_model_name_examples :
  scrape.normalize_model_name (Some "claude-3-5-haiku-20241022"%string)
  = Some "claude-3-5-haiku"%string
  /\ scrape.normalize_model_name (Some "claude-opus-4-1-20250805"%string)
     = Some "claude-opus-4-1"%string
  /\ scrape.normalize_model_name (Some "claude-2.1"%string) = Some "claude-2.1"%string.
Proof. repeat split; vm_compute; reflexivity. Qed.

(** A set equal, field for field, to the prior snapshot gives no event. *)
Example compare_identical_no_event :
  let r := tab_row "Text" "gpt-4o" "1" "2026-01-01" in
  (compare_snapshots [(key_for_row r, r)] [r]).1 = [].
Proof. vm_compute. reflexivity. Qed.

(** Without changes the feed keeps the entries it had. *)
Lemma write_rss_no_change hash now file :
  write_rss hash now [] file = Ok (read_existing_rss_items file).
Proof. reflexivity. Qed.

(** With changes the new entries come first. *)
Lemma write_rss_prepends hash now ch changes file items :
  write_rss hash now (ch :: changes) file = Ok items ->
  exists new_items,
    items = new_items ++ read_existing_rss_items file
    /\ length new_items = length (ch :: changes).
Proof.
  unfold write_rss. intros H. apply bind_Ok in H as (new_items & Hloop & [= <-]).
  exists new_items. split; [reflexivity|].
  pose proof (for_each_invariant
                (fun (seen : list change) (items : list rss_item) =>
                   length items = length seen)
                (fun items ch => item ← rss_item_of hash now ch; Ok (items ++ [item])))
    as Hinv.
  apply Hinv with (seen := []) in Hloop; [exact Hloop| |reflexivity].
  intros seen st x st' Hlen Hb.
  apply bind_Ok in Hb as (item & _ & [= <-]).
  rewrite !length_app, Hlen. reflexivity.
Qed.

(** * Further properties of the scripts *)

(** ** Deduplication: rows with distinct identities, and running twice *)

Lemma fold_keep_fresh ident better rows :
  forall best : list (string * row),
    NoDup (odict.keys best ++ map ident rows) ->
    fold_left (keep ident better) rows best
    = best ++ map (fun r => (ident r, r)) rows.
Proof.
  induction rows as [|r rows IH]; intros best Hnd; simpl.
  - rewrite app_nil_r. reflexivity.
  - simpl in Hnd.
    assert (ident r ∉ odict.keys best) as Hfresh.
    { apply NoDup_app in Hnd as (_ & Hd & _). intros Hin.
      apply (Hd _ Hin), list_elem_of_here. }
    unfold keep at 2. rewrite (proj2 (odict_get_None _ _) Hfresh).
    rewrite odict_set_fresh by exact Hfresh. rewrite IH.
    + rewrite <- app_assoc. reflexivity.
    + unfold odict.keys in *. rewrite map_app, <- app_assoc. exact Hnd.
Qed.

Lemma fold_keep_distinct ident better rows :
  NoDup (map ident rows) ->
  odict.values (fold_left (keep ident better) rows []) = rows.
Proof.
  intros Hnd. rewrite fold_keep_fresh by exact Hnd. simpl.
  unfold odict.values. rewrite map_map. apply map_id.
Qed.

(** X1. Rows whose identities are pairwise distinct are returned as they
    are, in their order, by each deduplicator. *)
Theorem dedup_distinct_rows_unchanged (rows : list row) :
  (Forall (well_formed "model_name" true) rows ->
   NoDup (map (field "model_name") rows) ->
   scrape.deduplicate_rows rows = Ok rows
   /\ scrape_openai_retirements.deduplicate_by_earliest_retirement rows = Ok rows)
  /\ (Forall (well_formed "deprecated_model_name" false) rows ->
      NoDup (map (field "deprecated_model_name") rows) ->
      scrape_claude_retirements.deduplicate_deprecations rows = Ok rows).
Proof.
  split.
  - intros W Hnd. split.
    + rewrite scrape_dedup_fold by exact W. f_equal. apply fold_keep_distinct, Hnd.
    + rewrite openai_dedup_fold by exact W. f_equal. apply fold_keep_distinct, Hnd.
  - intros W Hnd. rewrite claude_dedup_fold by exact W. f_equal.
    apply fold_keep_distinct, Hnd.
Qed.

Lemma dedup_distinct_rows_unchanged_witness :
  let rows := [model_row "S" "a" "2026-01-01" ""; model_row "S" "b" "2026-02-01" "x"] in
  Forall (well_formed "model_name" true) rows
  /\ NoDup (map (field "model_name") rows)
  /\ scrape.deduplicate_rows rows = Ok rows
  /\ scrape_openai_retirements.deduplicate_by_earliest_retirement rows = Ok rows.
Proof.
  intros rows.
  assert (Forall (well_formed "model_name" true) rows) as W.
  { repeat constructor; try (eexists; reflexivity); intros _; eexists; vm_compute; reflexivity. }
  assert (NoDup (map (field "model_name") rows)) as Hnd.
  { apply (proj1 (bool_decide_spec _)). vm_compute. exact I. }
  split; [exact W|]. split; [exact Hnd|].
  exact (proj1 (dedup_distinct_rows_unchanged rows) W Hnd).
Defined.

Lemma fold_keep_values_members ident better rows r :
  r ∈ odict.values (fold_left (keep ident better) rows []) -> r ∈ rows.
Proof.
  intros Hr. apply list_elem_of_In, in_map_iff in Hr as (kv & <- & Hkv).
  apply list_elem_of_In in Hkv.
  apply (fold_keep_members ident better rows []) in Hkv as [Hkv|Hkv]; [|exact Hkv].
  apply elem_of_nil in Hkv as [].
Qed.

Lemma fold_keep_idempotent ident better rows :
  let out := odict.values (fold_left (keep ident better) rows []) in
  odict.values (fold_left (keep ident better) out []) = out.
Proof.
  intros out. apply fold_keep_distinct. unfold out.
  rewrite fold_keep_idents. apply first_seen_NoDup.
Qed.

Lemma fold_keep_well_formed (P : row -> Prop) ident better rows :
  Forall P rows -> Forall P (odict.values (fold_left (keep ident better) rows [])).
Proof.
  intros W. apply Forall_forall. intros r Hr.
  rewrite Forall_forall in W. apply W. eapply fold_keep_values_members, Hr.
Qed.

(** X2. Deduplicating the output of a deduplicator changes nothing. *)
Theorem dedup_idempotent (rows : list row) :
  (Forall (well_formed "model_name" true) rows ->
   (exists out, scrape.deduplicate_rows rows = Ok out
                /\ scrape.deduplicate_rows out = Ok out)
   /\ (exists out,
          scrape_openai_retirements.deduplicate_by_earliest_retirement rows = Ok out
          /\ scrape_openai_retirements.deduplicate_by_earliest_retirement out = Ok out))
  /\ (Forall (well_formed "deprecated_model_name" false) rows ->
      exists out, scrape_claude_retirements.deduplicate_deprecations rows = Ok out
                  /\ scrape_claude_retirements.deduplicate_deprecations out = Ok out).
Proof.
  split; [intros W; split|intros W]; eexists.
  - split; [apply scrape_dedup_fold, W|].
    rewrite scrape_dedup_fold by (apply fold_keep_well_formed, W).
    f_equal. apply fold_keep_idempotent.
  - split; [apply openai_dedup_fold, W|].
    rewrite openai_dedup_fold by (apply fold_keep_well_formed, W).
    f_equal. apply fold_keep_idempotent.
  - split; [apply claude_dedup_fold, W|].
    rewrite claude_dedup_fold by (apply fold_keep_well_formed, W).
    f_equal. apply fold_keep_idempotent.
Qed.

Lemma dedup_idempotent_witness :
  let rows := [haiku "2026-03-01" ""; haiku "2026-01-15" "claude-4";
               haiku "2026-01-15" ""]%string in
  Forall (well_formed "model_name" true) rows
  /\ Forall (well_formed "deprecated_model_name" false) rows
  /\ (exists out, scrape.deduplicate_rows rows = Ok out
                  /\ scrape.deduplicate_rows out = Ok out)
  /\ (exists out, scrape_claude_retirements.deduplicate_deprecations rows = Ok out
                  /\ scrape_claude_retirements.deduplicate_deprecations out = Ok out).
Proof.
  intros rows.
  assert (Forall (well_formed "model_name" true) rows
          /\ Forall (well_formed "deprecated_model_name" false) rows) as [W1 W2].
  { split; repeat constructor; try discriminate;
      try (eexists; reflexivity); intros _; eexists; vm_compute; reflexivity. }
  destruct (dedup_idempotent rows) as [H1 H2].
  split; [exact W1|]. split; [exact W2|].
  split; [exact (proj1 (H1 W1)) | exact (H2 W2)].
Defined.

(** ** Deduplication: the rows it fails on *)

Lemma for_each_Ok_Forall {A S} (W : A -> Prop) (body : S -> A -> result S) :
  (forall st x st', body st x = Ok st' -> W x) ->
  forall xs st st', for_each body xs st = Ok st' -> Forall W xs.
Proof.
  intros Hbody. induction xs as [|x xs IH]; intros st st' Hrun; simpl in Hrun.
  - constructor.
  - apply bind_Ok in Hrun as (st1 & Hb & Hrun). constructor.
    + eapply Hbody, Hb.
    + eapply IH, Hrun.
Qed.

Lemma getitem_Ok_is_Some (r : row) k v : pyrow.getitem r k = Ok v -> is_Some (r !! k).
Proof.
  unfold pyrow.getitem. destruct (r !! k) as [w|]; [eauto | discriminate].
Qed.

Lemma dedup_loop_returns {S} (body : S -> row -> result S) (values : S -> list row)
    (W : row -> Prop) rows st :
  (forall st x st', body st x = Ok st' -> W x) ->
  returns (st' ← for_each body rows st; Ok (values st')) -> Forall W rows.
Proof.
  intros Hbody [out Hout]. apply bind_Ok in Hout as (st' & Hrun & _).
  eapply for_each_Ok_Forall; eassumption.
Qed.

(** X3. A deduplicator returns exactly on the lists all of whose rows carry the
    identity field (and, where dates are compared, a date [strptime]
    reads); one row without it makes the whole call raise. *)
Theorem dedup_returns_iff_rows_well_formed (rows : list row) :
  (returns (scrape.deduplicate_rows rows)
   <-> Forall (well_formed "model_name" true) rows)
  /\ (returns (scrape_openai_retirements.deduplicate_by_earliest_retirement rows)
      <-> Forall (well_formed "model_name" true) rows)
  /\ (returns (scrape_claude_retirements.deduplicate_deprecations rows)
      <-> Forall (well_formed "deprecated_model_name" false) rows).
Proof.
  split; [|split]; split.
  - apply dedup_loop_returns. intros st x st' Hb.
    unfold scrape.dedup_body in Hb.
    apply bind_Ok in Hb as (key & Hkey & Hb).
    apply bind_Ok in Hb as (date & Hdate & _).
    split; [eapply getitem_Ok_is_Some, Hkey | intros _; eexists; exact Hdate].
  - intros W. rewrite scrape_dedup_fold by exact W. eexists. reflexivity.
  - apply dedup_loop_returns. intros st x st' Hb.
    unfold scrape_openai_retirements.dedup_body in Hb.
    apply bind_Ok in Hb as (key & Hkey & Hb).
    apply bind_Ok in Hb as (date & Hdate & _).
    split; [eapply getitem_Ok_is_Some, Hkey | intros _; eexists; exact Hdate].
  - intros W. rewrite openai_dedup_fold by exact W. eexists. reflexivity.
  - apply dedup_loop_returns. intros st x st' Hb.
    unfold scrape_claude_retirements.dedup_body in Hb.
    apply bind_Ok in Hb as (key & Hkey & _).
    split; [eapply getitem_Ok_is_Some, Hkey | discriminate].
  - intros W. rewrite claude_dedup_fold by exact W. eexists. reflexivity.
Qed.

(** ** The multi-tab script: what a comparison reports and keeps *)

Lemma fold_set_get {K V A} `{EqDecision K} (f : A -> K) (g : A -> V) (xs : list A)
    (d : list (K * V)) (k : K) :
  odict.get k (fold_left (fun d x => odict.set (f x) (g x) d) xs d)
  = match last (filter (fun x => f x = k) xs) with
    | Some x => Some (g x)
    | None => odict.get k d
    end.
Proof.
  induction xs as [|x xs IH] using rev_ind; [reflexivity|].
  rewrite fold_left_app, filter_app. simpl. rewrite filter_cons, filter_nil.
  destruct (decide (f x = k)) as [<-|Hne].
  - rewrite odict_get_set_eq, last_snoc. reflexivity.
  - rewrite odict_get_set_ne by exact Hne.
    rewrite app_nil_r. exact IH.
Qed.

Lemma omap_length_le {A B} (f : A -> option B) (l : list A) :
  (length (omap f l) <= length l)%nat.
Proof.
  induction l as [|x l IH]; [reflexivity|].
  cbn. destruct (f x); simpl; lia.
Qed.

Lemma event_of_key old r ch : event_of old r = Some ch -> change_key ch = key_for_row r.
Proof.
  unfold event_of, compare_body.
  destruct (odict.get (key_for_row r) old) as [old_row|]; simpl.
  - destruct (field_diffs old_row r); simpl; [discriminate|].
    intros [= <-]. reflexivity.
  - intros [= <-]. reflexivity.
Qed.

Lemma compare_event_rows old new_rows ch :
  ch ∈ (compare_snapshots old new_rows).1 ->
  exists r, r ∈ new_rows /\ change_key ch = key_for_row r /\ change_row ch = Some r.
Proof.
  intros Hch. apply compare_events in Hch as (r & Hr & Hev).
  exists r. split; [exact Hr|].
  split; [eapply event_of_key, Hev | eapply event_of_row, Hev].
Qed.

(** X4. Every row whose identity the old snapshot does not have is reported
    as [new]; every event is about a row of the new list, never a
    baseline; so an identity that has left the page is not reported. *)
Theorem compare_reports_rows_only (old : list (list string * row)) (new_rows : list row) :
  let changes := (compare_snapshots old new_rows).1 in
  (forall r, r ∈ new_rows -> odict.get (key_for_row r) old = None ->
             new (key_for_row r) r
               ("New model listed in Current models: " +:+ key_text (key_for_row r))
             ∈ changes)
  /\ (forall ch, ch ∈ changes ->
        exists r, r ∈ new_rows /\ change_key ch = key_for_row r
                  /\ change_row ch = Some r)
  /\ (forall k ch, k ∉ map key_for_row new_rows -> ch ∈ changes -> change_key ch <> k)
  /\ (length changes <= length new_rows)%nat.
Proof.
  intros changes.
  assert (forall ch, ch ∈ changes ->
            exists r, r ∈ new_rows /\ change_key ch = key_for_row r
                      /\ change_row ch = Some r) as Hrows.
  { intros ch. apply compare_event_rows. }
  split; [|split; [exact Hrows|split]].
  - intros r Hr Hold. apply compare_events. exists r. split; [exact Hr|].
    unfold event_of, compare_body. rewrite Hold. reflexivity.
  - intros k ch Hk Hch Hkey. destruct (Hrows ch Hch) as (r & Hr & Hkr & _).
    apply Hk. rewrite <- Hkey, Hkr. apply list_elem_of_fmap_2, Hr.
  - unfold changes, compare_snapshots. rewrite compare_from. simpl.
    apply omap_length_le.
Qed.

Lemma compare_reports_rows_only_witness :
  let old := [(["Text"; "gpt-4"; "0613"], tab_row "Text" "gpt-4" "0613" "2026-06-01")]%string in
  let r := tab_row "Text" "gpt-4o" "1" "2026-10-01" in
  let gone := ["Text"; "gpt-4"; "0613"]%string in
  r ∈ [r] /\ odict.get (key_for_row r) old = None
  /\ (gone ∉ map key_for_row [r])
  /\ (compare_snapshots old [r]).1
     = [new (key_for_row r) r
          ("New model listed in Current models: " +:+ key_text (key_for_row r))].
Proof.
  intros old r gone.
  destruct (compare_reports_rows_only old [r]) as (Hnew & _ & Hgone & Hlen).
  assert (r ∈ [r]) as Hr by apply list_elem_of_here.
  assert (odict.get (key_for_row r) old = None) as Hold by (vm_compute; reflexivity).
  assert (gone ∉ map key_for_row [r]) as Hk.
  { intros Hin. apply list_elem_of_singleton in Hin. revert Hin.
    apply (bool_decide_eq_false_1 _). vm_compute. reflexivity. }
  split; [exact Hr|]. split; [exact Hold|]. split; [exact Hk|].
  specialize (Hnew r Hr Hold).
  destruct (compare_snapshots old [r]).1 as [|ch [|ch' chs]]; simpl in *.
  - apply elem_of_nil in Hnew as [].
  - apply list_elem_of_singleton in Hnew as <-. reflexivity.
  - lia.
Defined.

(** X5. The snapshot a comparison returns maps an identity to the last row
    that has it and has no other entry, whatever the old snapshot was. *)
Theorem new_snapshot_last_row (old : list (list string * row)) (new_rows : list row)
    (k : list string) :
  odict.get k (compare_snapshots old new_rows).2
  = last (filter (fun r => key_for_row r = k) new_rows).
Proof.
  unfold compare_snapshots. rewrite compare_from. simpl.
  rewrite (fold_set_get key_for_row (fun r => r)). simpl.
  destruct (last _); reflexivity.
Qed.

(** ** The multi-tab script: the order of the rows *)

Lemma string_ltb_lt (a b : string) :
  String.ltb a b = true <-> OrderedTypeEx.String_as_OT.lt a b.
Proof.
  rewrite <- OrderedTypeEx.String_as_OT.cmp_lt.
  unfold String.ltb, OrderedTypeEx.String_as_OT.cmp.
  destruct (String.compare a b); split; congruence.
Qed.

Lemma string_ltb_trans (a b c : string) :
  String.ltb a b = true -> String.ltb b c = true -> String.ltb a c = true.
Proof.
  rewrite !string_ltb_lt. apply OrderedTypeEx.String_as_OT.lt_trans.
Qed.

Lemma string_ltb_irrefl (a : string) : String.ltb a a = false.
Proof.
  destruct (String.ltb a a) eqn:E; [|reflexivity].
  apply string_ltb_lt, OrderedTypeEx.String_as_OT.lt_not_eq in E.
  exfalso. apply E. reflexivity.
Qed.

Lemma string_trichotomy (a b : string) :
  String.ltb a b = true \/ a = b \/ String.ltb b a = true.
Proof.
  unfold String.ltb. rewrite (String.compare_antisym b a).
  destruct (String.compare a b) eqn:E; simpl; auto.
  right. left. apply String.compare_eq_iff, E.
Qed.

Lemma key_ltb_irrefl k : key_ltb k k = false.
Proof.
  destruct k as [[t m] v]. unfold key_ltb.
  rewrite Z.ltb_irrefl, Z.eqb_refl, !string_ltb_irrefl, String.eqb_refl. reflexivity.
Qed.

Lemma key_ltb_true a b :
  key_ltb a b = true
  <-> (a.1.1 < b.1.1
       \/ (a.1.1 = b.1.1
           /\ (String.ltb a.1.2 b.1.2 = true
               \/ (a.1.2 = b.1.2 /\ String.ltb a.2 b.2 = true)))).
Proof.
  destruct a as [[ta ma] va], b as [[tb mb] vb]. unfold key_ltb. simpl.
  rewrite orb_true_iff, andb_true_iff, orb_true_iff, andb_true_iff.
  rewrite Z.ltb_lt, Z.eqb_eq, String.eqb_eq. reflexivity.
Qed.

Lemma key_ltb_trans a b c :
  key_ltb a b = true -> key_ltb b c = true -> key_ltb a c = true.
Proof.
  rewrite !key_ltb_true.
  intros [H1|[E1 [H1|[F1 H1]]]] [H2|[E2 [H2|[F2 H2]]]];
    try (left; lia); right; (split; [congruence|]).
  - left. eapply string_ltb_trans; eassumption.
  - left. rewrite F2 in H1. exact H1.
  - left. rewrite F1. exact H2.
  - right. split; [congruence|]. eapply string_ltb_trans; eassumption.
Qed.

Lemma key_trichotomy a b : key_ltb a b = true \/ a = b \/ key_ltb b a = true.
Proof.
  rewrite !key_ltb_true.
  destruct a as [[ta ma] va], b as [[tb mb] vb]. simpl.
  destruct (Z.lt_trichotomy ta tb) as [H|[->|H]]; [auto| |auto].
  destruct (string_trichotomy ma mb) as [H|[->|H]]; [auto| |auto 6].
  destruct (string_trichotomy va vb) as [H|[->|H]]; [auto 6|auto|auto 8].
Qed.

Lemma key_ltb_asym a b : key_ltb a b = true -> key_ltb b a = false.
Proof.
  intros H. destruct (key_ltb b a) eqn:E; [|reflexivity].
  pose proof (key_ltb_trans _ _ _ H E) as C. rewrite key_ltb_irrefl in C. discriminate.
Qed.

Lemma not_after_trans (x y z : row) :
  not_after x y -> not_after y z -> not_after x z.
Proof.
  unfold not_after. intros Hxy Hyz.
  destruct (key_ltb (sort_key z) (sort_key x)) eqn:E; [|reflexivity].
  destruct (key_trichotomy (sort_key x) (sort_key y)) as [H|[H|H]].
  - pose proof (key_ltb_trans _ _ _ E H). congruence.
  - rewrite H in E. congruence.
  - congruence.
Qed.

Lemma insert_row_perm r l : insert_row r l ≡ₚ r :: l.
Proof.
  induction l as [|y l IH]; cbn [insert_row]; [reflexivity|].
  destruct (key_ltb (sort_key y) (sort_key r)); [|reflexivity].
  rewrite IH. apply Permutation_swap.
Qed.

Lemma sort_rows_perm rows : sort_rows rows ≡ₚ rows.
Proof.
  induction rows as [|r rows IH]; [reflexivity|].
  unfold sort_rows in *. cbn [foldr]. rewrite insert_row_perm, IH. reflexivity.
Qed.

Lemma insert_row_sorted r l :
  StronglySorted not_after l -> StronglySorted not_after (insert_row r l).
Proof.
  induction l as [|y l IH]; intros Hs; cbn [insert_row].
  - repeat constructor.
  - apply StronglySorted_inv in Hs as [Hl Hy].
    destruct (key_ltb (sort_key y) (sort_key r)) eqn:E.
    + constructor; [apply IH, Hl|].
      rewrite insert_row_perm. constructor; [|exact Hy].
      apply key_ltb_asym, E.
    + constructor; [constructor; assumption|].
      constructor; [exact E|].
      eapply Forall_impl; [exact Hy|].
      intros z Hz. eapply not_after_trans; [exact E | exact Hz].
Qed.

Lemma insert_row_filter (k : Z * string * string) r l :
  filter (fun x => sort_key x = k) (insert_row r l)
  = filter (fun x => sort_key x = k) (r :: l).
Proof.
  induction l as [|y l IH]; cbn [insert_row]; [reflexivity|].
  destruct (key_ltb (sort_key y) (sort_key r)) eqn:E; [|reflexivity].
  rewrite filter_cons, IH, !filter_cons.
  destruct (decide (sort_key y = k)) as [Hy|Hy];
    destruct (decide (sort_key r = k)) as [Hr|Hr]; try reflexivity.
  rewrite Hy, Hr, key_ltb_irrefl in E. discriminate.
Qed.

(** X6. The rows are sorted by (type rank, model, version): the result holds
    the same rows, no row comes after a row with a smaller key, and rows
    with equal keys keep the order they had (the sort is stable). *)
Theorem sort_rows_sorted_stable (rows : list row) :
  sort_rows rows ≡ₚ rows
  /\ StronglySorted not_after (sort_rows rows)
  /\ forall k, filter (fun r => sort_key r = k) (sort_rows rows)
               = filter (fun r => sort_key r = k) rows.
Proof.
  split; [apply sort_rows_perm|]. split.
  - induction rows as [|r rows IH]; [constructor|].
    unfold sort_rows in *. cbn [foldr]. apply insert_row_sorted, IH.
  - intros k. induction rows as [|r rows IH]; [reflexivity|].
    unfold sort_rows in *. cbn [foldr].
    rewrite insert_row_filter, !filter_cons, IH. reflexivity.
Qed.

(** ** The multi-tab script: runs *)

Lemma fold_set_fresh {K A} `{EqDecision K} (f : A -> K) (xs : list A) :
  forall d : list (K * A),
    NoDup (odict.keys d ++ map f xs) ->
    fold_left (fun d x => odict.set (f x) x d) xs d = d ++ map (fun x => (f x, x)) xs.
Proof.
  induction xs as [|x xs IH]; intros d Hnd; simpl.
  - rewrite app_nil_r. reflexivity.
  - simpl in Hnd.
    assert (f x ∉ odict.keys d) as Hfresh.
    { apply NoDup_app in Hnd as (_ & Hd & _). intros Hin.
      apply (Hd _ Hin), list_elem_of_here. }
    rewrite odict_set_fresh by exact Hfresh. rewrite IH.
    + rewrite <- app_assoc. reflexivity.
    + unfold odict.keys in *. rewrite map_app, <- app_assoc. exact Hnd.
Qed.

Lemma get_map_distinct {K A} `{EqDecision K} (f : A -> K) (xs : list A) (x : A) :
  NoDup (map f xs) -> x ∈ xs -> odict.get (f x) (map (fun x => (f x, x)) xs) = Some x.
Proof.
  induction xs as [|y xs IH]; intros Hnd Hx; [apply elem_of_nil in Hx as []|].
  simpl in Hnd. apply NoDup_cons in Hnd as [Hy Hnd]. simpl.
  apply elem_of_cons in Hx as [->|Hx].
  - rewrite decide_True by reflexivity. reflexivity.
  - rewrite decide_False; [apply IH; assumption|].
    intros E. apply Hy. rewrite <- E. apply list_elem_of_fmap_2, Hx.
Qed.

Lemma expected_diffs_same (r : row) : expected_diffs r r = [].
Proof.
  unfold expected_diffs. rewrite filter_never; [reflexivity|].
  intros f Hne. apply Hne. reflexivity.
Qed.

Lemma omap_none {A B} (f : A -> option B) (l : list A) :
  (forall x, x ∈ l -> f x = None) -> omap f l = [].
Proof.
  induction l as [|x l IH]; intros H; [reflexivity|].
  cbn. rewrite (H x) by apply list_elem_of_here.
  apply IH. intros y Hy. apply H, list_elem_of_further, Hy.
Qed.

(** The snapshot of rows with distinct identities lists them in their
    order, and comparing the rows with it reports nothing. *)
Lemma compare_distinct old rows :
  NoDup (map key_for_row rows) ->
  (compare_snapshots old rows).2 = map (fun r => (key_for_row r, r)) rows
  /\ (compare_snapshots (map (fun r => (key_for_row r, r)) rows) rows).1 = [].
Proof.
  intros Hnd. unfold compare_snapshots. rewrite !compare_from. simpl. split.
  - apply (fold_set_fresh key_for_row rows []). exact Hnd.
  - apply omap_none. intros r Hr.
    rewrite (event_of_known _ r r) by (apply get_map_distinct; assumption).
    rewrite expected_diffs_same. reflexivity.
Qed.

Lemma compare_again_distinct rows :
  NoDup (map key_for_row rows) ->
  compare_snapshots (map (fun r => (key_for_row r, r)) rows) rows
  = ([], map (fun r => (key_for_row r, r)) rows).
Proof.
  intros Hnd.
  destruct (compare_distinct (map (fun r => (key_for_row r, r)) rows) rows Hnd)
    as [Hsnap Hev].
  rewrite (surjective_pairing (compare_snapshots _ rows)), Hev, Hsnap. reflexivity.
Qed.

(** X7. A second comparison of the same rows (with distinct identities)
    against the snapshot the first one returned reports no change and
    returns that snapshot again. *)
Theorem compare_again_is_silent (old : list (list string * row)) (rows : list row) :
  NoDup (map key_for_row rows) ->
  let snapshot := (compare_snapshots old rows).2 in
  compare_snapshots snapshot rows = ([], snapshot).
Proof.
  intros Hnd snapshot.
  destruct (compare_distinct old rows Hnd) as [Hsnap Hev]. unfold snapshot.
  rewrite Hsnap. apply compare_again_distinct, Hnd.
Qed.

Lemma compare_again_is_silent_witness :
  let rows := [tab_row "Text" "gpt-4o" "1" "2026-10-01";
               tab_row "Audio" "whisper" "001" "2026-09-01"] in
  let old := [(["Text"; "gpt-4o"; "1"], tab_row "Text" "gpt-4o" "1" "2026-01-01")]%string in
  NoDup (map key_for_row rows)
  /\ compare_snapshots (compare_snapshots old rows).2 rows
     = ([], (compare_snapshots old rows).2).
Proof.
  intros rows old.
  assert (NoDup (map key_for_row rows)) as Hnd
    by (apply (proj1 (bool_decide_spec _)); vm_compute; exact I).
  split; [exact Hnd|]. exact (compare_again_is_silent old rows Hnd).
Defined.

Lemma for_each_returns_Forall {A S} (body : S -> A -> result S) (xs : list A) :
  Forall (fun x => forall st, returns (body st x)) xs ->
  forall st, returns (for_each body xs st).
Proof.
  induction 1 as [|x xs Hx _ IH]; intros st; simpl.
  - eexists. reflexivity.
  - destruct (Hx st) as [st' ->]. simpl. apply IH.
Qed.

Lemma rss_item_of_three hash now ch :
  length (change_key ch) = 3%nat -> returns (rss_item_of hash now ch).
Proof.
  unfold rss_item_of. destruct (change_key ch) as [|a [|b [|c [|d k]]]]; try discriminate.
  intros _. eexists. reflexivity.
Qed.

Lemma write_rss_returns hash now changes file :
  Forall (fun ch => length (change_key ch) = 3%nat) changes ->
  returns (write_rss hash now changes file).
Proof.
  intros Hch. unfold write_rss. destruct changes as [|ch changes]; [eexists; reflexivity|].
  destruct (for_each_returns_Forall
              (fun items ch0 => item ← rss_item_of hash now ch0; Ok (items ++ [item]))
              (ch :: changes)) with (st := @nil rss_item) as [items ->].
  - eapply Forall_impl; [exact Hch|]. intros ch0 H3 st.
    destruct (rss_item_of_three hash now ch0 H3) as [item ->]. eexists. reflexivity.
  - eexists. reflexivity.
Qed.

(** X8. The script body never raises: the identity of every event it hands
    to the feed writer has three components, whatever the snapshot file
    holds. *)
Theorem ms_main_returns hash now (rows : list row) (fs : files) :
  returns (main hash now rows fs).
Proof.
  unfold main.
  pose proof (compare_event_rows (load_snapshot (snapshot_json fs)) (sort_rows rows))
    as Hrows.
  destruct (compare_snapshots (load_snapshot (snapshot_json fs)) (sort_rows rows))
    as [changes new_snapshot]. simpl in Hrows.
  destruct (write_rss_returns hash now
              match load_snapshot (snapshot_json fs) with
              | [] => [baseline_change]
              | _ :: _ => changes
              end (rss_xml fs)) as [items ->]; [|eexists; reflexivity].
  destruct (load_snapshot (snapshot_json fs)); [repeat constructor|].
  apply Forall_forall. intros ch Hch.
  destruct (Hrows ch Hch) as (r & _ & -> & _). reflexivity.
Qed.

Lemma snapshot_keys (rows : list row) :
  odict.keys (map (fun r => (key_for_row r, r)) rows) = map key_for_row rows.
Proof. unfold odict.keys. rewrite map_map. reflexivity. Qed.

(** X9. A run on the rows the previous run saw (not none, with distinct
    identities that survive the snapshot file) changes nothing: no feed
    entry is added, and the snapshot, the CSV lines and the entries of
    the feed are written back as they were. *)
Theorem ms_rerun_same_rows_changes_nothing hash now hash' now'
    (rows : list row) (fs fs1 : files) :
  rows <> [] ->
  NoDup (map key_for_row rows) ->
  Forall flat_safe (map key_for_row rows) ->
  main hash now rows fs = Ok fs1 ->
  main hash' now' rows fs1 = Ok fs1.
Proof.
  intros Hne Hnd Hsafe Hrun.
  pose proof (sort_rows_perm rows) as Hperm.
  assert (map key_for_row (sort_rows rows) ≡ₚ map key_for_row rows) as Hkeys
    by (apply Permutation_map, Hperm).
  rewrite <- Hkeys in Hnd, Hsafe.
  assert (sort_rows rows <> []) as Hne'.
  { intros E. rewrite E in Hperm. apply Permutation_nil in Hperm. auto. }
  clear Hperm Hkeys Hne.
  unfold main in *. set (sorted := sort_rows rows) in *.
  destruct (compare_distinct (load_snapshot (snapshot_json fs)) sorted Hnd) as [Hsnap _].
  destruct (compare_snapshots (load_snapshot (snapshot_json fs)) sorted)
    as [changes new_snapshot]. simpl in Hsnap. subst new_snapshot.
  apply bind_Ok in Hrun as (items & _ & [= <-]). cbn [snapshot_json rss_xml].
  rewrite load_save_snapshot by (rewrite snapshot_keys; assumption).
  rewrite (compare_again_distinct sorted) by exact Hnd.
  destruct sorted as [|r sorted']; [congruence|]. reflexivity.
Qed.

Lemma ms_rerun_same_rows_changes_nothing_witness :
  let hash := fun s => Z.of_nat (String.length s) in
  let now := mk_clock "Fri, 06 Nov 2026 00:00:00 +0000" "1793923200.0" in
  let later := mk_clock "Sat, 07 Nov 2026 00:00:00 +0000" "1794009600.0" in
  let rows := [tab_row "Text" "gpt-4o" "1" "2026-10-01";
               tab_row "Audio" "whisper" "001" "2026-09-01"] in
  rows <> [] /\ NoDup (map key_for_row rows) /\ Forall flat_safe (map key_for_row rows)
  /\ exists fs1, main hash now rows no_ms_files = Ok fs1
                 /\ main hash later rows fs1 = Ok fs1.
Proof.
  intros hash now later rows.
  assert (rows <> []) as Hne by discriminate.
  assert (NoDup (map key_for_row rows)) as Hnd
    by (apply (proj1 (bool_decide_spec _)); vm_compute; exact I).
  assert (Forall flat_safe (map key_for_row rows)) as Hsafe
    by (vm_compute; repeat constructor).
  assert (exists fs1, main hash now rows no_ms_files = Ok fs1) as [fs1 Hrun]
    by (eexists; vm_compute; reflexivity).
  split; [exact Hne|]. split; [exact Hnd|]. split; [exact Hsafe|].
  exists fs1. split; [exact Hrun|].
  exact (ms_rerun_same_rows_changes_nothing hash now hash later rows no_ms_files fs1
           Hne Hnd Hsafe Hrun).
Defined.

(** X10. A run that scraped no row still returns and leaves an empty snapshot;
    the run after it, whatever it scrapes, publishes the baseline entry
    only. *)
Theorem ms_empty_scrape_resets_baseline hash now (fs : files) :
  exists fs',
    main hash now [] fs = Ok fs'
    /\ snapshot_json fs' = Some []
    /\ forall hash' now' rows,
         exists fs'',
           main hash' now' rows fs' = Ok fs''
           /\ rss_xml fs''
              = Some (baseline_item hash' now' :: read_existing_rss_items (rss_xml fs')).
Proof.
  unfold main. simpl.
  destruct (load_snapshot (snapshot_json fs)); simpl.
  all: eexists; split; [reflexivity|]; split; [reflexivity|].
  all: intros hash' now' rows; simpl.
  all: change (compare_snapshots _ (sort_rows rows))
         with (compare_snapshots [] (sort_rows rows)).
  all: destruct (compare_snapshots [] (sort_rows rows)) as [changes new_snapshot].
  all: eexists; split; reflexivity.
Qed.

(** ** [scrape.py]: the lines of the CSV file *)

Lemma csv_line_columns (r : row) :
  columns_only r -> scrape.csv_line r = Ok (line_of r).
Proof.
  intros Hcols. unfold scrape.csv_line.
  rewrite (proj2 (forallb_forall _ _)); [reflexivity|].
  intros k Hk. apply bool_decide_eq_true. apply Hcols.
  apply in_map_iff in Hk as ([k' v] & <- & Hkv).
  apply list_elem_of_In, elem_of_map_to_list in Hkv. eexists. exact Hkv.
Qed.

Lemma csv_line_Ok (r line : row) :
  scrape.csv_line r = Ok line -> columns_only r /\ line = line_of r.
Proof.
  unfold scrape.csv_line.
  destruct (forallb _ _) eqn:E; [|discriminate].
  intros [= <-]. split; [|reflexivity].
  intros k [v Hv]. rewrite forallb_forall in E.
  eapply bool_decide_eq_true, (E k).
  apply in_map_iff. exists (k, v). split; [reflexivity|].
  apply list_elem_of_In, elem_of_map_to_list, Hv.
Qed.

Lemma line_of_lookup (r : row) (k : string) :
  line_of r !! k
  = if decide (k ∈ scrape.fieldnames) then Some (pyrow.get_or_empty r k) else None.
Proof.
  unfold line_of, scrape.fieldnames. simpl.
  destruct (decide (k = "source"%string)) as [->|H1];
    [rewrite lookup_insert_eq; reflexivity | rewrite lookup_insert_ne by congruence].
  destruct (decide (k = "model_name"%string)) as [->|H2];
    [rewrite lookup_insert_eq; reflexivity | rewrite lookup_insert_ne by congruence].
  destruct (decide (k = "retirement_date"%string)) as [->|H3];
    [rewrite lookup_insert_eq; reflexivity | rewrite lookup_insert_ne by congruence].
  destruct (decide (k = "recommended_replacement"%string)) as [->|H4];
    [rewrite lookup_insert_eq; reflexivity | rewrite lookup_insert_ne by congruence].
  rewrite lookup_empty, decide_False; [reflexivity|].
  rewrite !elem_of_cons, elem_of_nil. tauto.
Qed.

Lemma write_csv_lines (rows : list row) :
  Forall columns_only rows -> scrape.write_csv rows = Ok (map line_of rows).
Proof.
  intros Hrows. unfold scrape.write_csv.
  destruct (for_each_pure (fun _ => True) columns_only
              (fun lines r => line ← scrape.csv_line r; Ok (lines ++ [line]))
              (fun lines r => lines ++ [line_of r]))
    with (xs := rows) (st := @nil row) as [-> _]; [|exact I|exact Hrows|].
  - intros st x _ Hx. rewrite (csv_line_columns x Hx). split; [reflexivity | exact I].
  - f_equal. clear Hrows.
    assert (forall acc, fold_left (fun lines r => lines ++ [line_of r]) rows acc
                        = acc ++ map line_of rows) as H; [|apply (H [])].
    induction rows as [|r rows' IH]; intros acc; simpl.
    + rewrite app_nil_r. reflexivity.
    + rewrite IH, <- app_assoc. reflexivity.
Qed.

Lemma scrape_write_csv_cols (rows : list row) :
  returns (scrape.write_csv rows) -> Forall columns_only rows.
Proof.
  intros [lines H]. unfold scrape.write_csv in H.
  eapply for_each_Ok_Forall; [|exact H].
  intros st x st' Hb. apply bind_Ok in Hb as (line & Hline & _).
  apply csv_line_Ok in Hline as [Hcols _]. exact Hcols.
Qed.

(** X11. [write_csv] raises exactly when a row has a key that is not one of
    the four columns; otherwise it writes one line per row, in order, with
    the four columns, an absent one empty and nothing else.  A row that
    has exactly the four columns is written as it is. *)
Theorem scrape_write_csv_lines (rows : list row) :
  (returns (scrape.write_csv rows) <-> Forall columns_only rows)
  /\ (forall lines,
        scrape.write_csv rows = Ok lines ->
        Forall2 (fun r line =>
                   forall k, line !! k
                             = if decide (k ∈ scrape.fieldnames)
                               then Some (pyrow.get_or_empty r k) else None)
                rows lines)
  /\ (forall r, columns_only r -> (forall k, k ∈ scrape.fieldnames -> is_Some (r !! k)) ->
                scrape.write_csv [r] = Ok [r]).
Proof.
  split; [split|split].
  - apply scrape_write_csv_cols.
  - intros H. rewrite write_csv_lines by exact H. eexists. reflexivity.
  - intros lines H.
    assert (Forall columns_only rows) as Hcols
      by (apply scrape_write_csv_cols; eexists; exact H).
    rewrite write_csv_lines in H by exact Hcols. injection H as <-.
    clear Hcols. induction rows as [|r rows IH]; simpl; constructor.
    + intros k. apply line_of_lookup.
    + exact IH.
  - intros r Hcols Hall. rewrite write_csv_lines by (constructor; [exact Hcols|constructor]).
    simpl. do 2 f_equal. apply map_eq. intros k. rewrite line_of_lookup.
    destruct (decide (k ∈ scrape.fieldnames)) as [Hk|Hk].
    + destruct (Hall k Hk) as [v Hv]. unfold pyrow.get_or_empty. rewrite Hv. reflexivity.
    + destruct (r !! k) as [v|] eqn:E; [|reflexivity].
      exfalso. apply Hk, Hcols. eexists. exact E.
Qed.

Lemma scrape_write_csv_lines_witness :
  let r := model_row "S" "a" "2026-01-01" "" in
  columns_only r /\ (forall k, k ∈ scrape.fieldnames -> is_Some (r !! k))
  /\ scrape.write_csv [r] = Ok [r].
Proof.
  intros r.
  assert (forall k, k ∈ scrape.fieldnames -> is_Some (r !! k)) as Hall.
  { intros k Hk. unfold scrape.fieldnames in Hk.
    rewrite !elem_of_cons, elem_of_nil in Hk.
    destruct Hk as [->|[->|[->|[->|[]]]]]; eexists; reflexivity. }
  assert (columns_only r) as Hcols.
  { intros k [v Hv]. unfold r, model_row in Hv.
    repeat (apply lookup_insert_Some in Hv as [[<- _]|[_ Hv]];
            [unfold scrape.fieldnames; rewrite !elem_of_cons; tauto|]).
    apply lookup_singleton_Some in Hv as [<- _].
    unfold scrape.fieldnames. rewrite !elem_of_cons. tauto. }
  split; [exact Hcols|]. split; [exact Hall|].
  exact (proj2 (proj2 (scrape_write_csv_lines [r])) r Hcols Hall).
Defined.

(** ** [scrape.py]: the feed and the runs *)

Lemma scrape_rss_item_of_Ok now (r : row) (item : scrape.rss_item) :
  scrape.rss_item_of now r = Ok item -> csv_row r.
Proof.
  unfold scrape.rss_item_of. intros H.
  apply bind_Ok in H as (model & Hm & H).
  apply bind_Ok in H as (source & Hs & H).
  apply bind_Ok in H as (date & Hd & _).
  repeat split; eapply getitem_Ok_is_Some; eassumption.
Qed.

Lemma scrape_rss_item_of_row now (r : row) :
  csv_row r ->
  exists item, scrape.rss_item_of now r = Ok item
               /\ scrape.guid item = row_guid r
               /\ scrape.title item = field "model_name" r +:+ " retirement update"
               /\ scrape.pubDate item = now.
Proof.
  intros (Hs & Hm & Hd). unfold scrape.rss_item_of.
  rewrite (getitem_field _ _ Hm). simpl. rewrite (getitem_field _ _ Hs). simpl.
  rewrite (getitem_field _ _ Hd). simpl.
  destruct (pyrow.truthy (r !! "recommended_replacement"%string)) eqn:E.
  - assert (is_Some (r !! "recommended_replacement"%string)) as Hr
      by (destruct (r !! "recommended_replacement"%string); [eauto | discriminate]).
    rewrite (getitem_field _ _ Hr). simpl. eexists. repeat split; reflexivity.
  - simpl. eexists. repeat split; reflexivity.
Qed.

Lemma scrape_write_rss_Ok now rows items :
  scrape.write_rss now rows = Ok items -> Forall csv_row rows.
Proof.
  unfold scrape.write_rss. apply for_each_Ok_Forall.
  intros st x st' Hb. apply bind_Ok in Hb as (item & Hitem & _).
  eapply scrape_rss_item_of_Ok, Hitem.
Qed.

Lemma scrape_write_rss_items now rows :
  Forall csv_row rows ->
  exists items, scrape.write_rss now rows = Ok items
                /\ map scrape.guid items = map row_guid rows
                /\ Forall (fun item => scrape.pubDate item = now) items.
Proof.
  intros Hrows. unfold scrape.write_rss.
  assert (forall acc : list scrape.rss_item,
             exists items,
               for_each (fun items r => item ← scrape.rss_item_of now r; Ok (items ++ [item]))
                        rows acc = Ok (acc ++ items)
               /\ map scrape.guid items = map row_guid rows
               /\ Forall (fun item => scrape.pubDate item = now) items) as H.
  { induction Hrows as [|r rows Hr _ IH]; intros acc.
    - exists []. rewrite app_nil_r. repeat split. constructor.
    - destruct (scrape_rss_item_of_row now r Hr) as (item & Hitem & Hg & _ & Hp).
      destruct (IH (acc ++ [item])) as (items & Hloop & Hgs & Hps).
      exists (item :: items). simpl. rewrite Hitem. simpl. rewrite Hloop, <- app_assoc.
      split; [reflexivity|]. split; [congruence|]. constructor; assumption. }
  destruct (H []) as (items & Hloop & Hrest). exists items. split; [exact Hloop | exact Hrest].
Qed.

(** X12. The feed writer of [scrape.py] raises exactly when a row lacks its
    source, model name or retirement date; otherwise it writes one entry
    per row, in order, whose guid is made of these three fields only:
    rows that differ in the recommended replacement alone get the same
    guid. *)
Theorem scrape_write_rss_guids now (rows : list row) :
  (returns (scrape.write_rss now rows) <-> Forall csv_row rows)
  /\ (forall items, scrape.write_rss now rows = Ok items ->
                    map scrape.guid items = map row_guid rows)
  /\ (forall r replacement, row_guid (<["recommended_replacement" := replacement]> r)
                            = row_guid r).
Proof.
  split; [split|split].
  - intros [items H]. eapply scrape_write_rss_Ok, H.
  - intros H. destruct (scrape_write_rss_items now rows H) as (items & -> & _).
    eexists. reflexivity.
  - intros items H. pose proof (scrape_write_rss_Ok _ _ _ H) as Hrows.
    destruct (scrape_write_rss_items now rows Hrows) as (items' & H' & Hg & _).
    congruence.
  - intros r replacement. unfold row_guid, field, pyrow.get_or_empty.
    rewrite !lookup_insert_ne by discriminate. reflexivity.
Qed.

Lemma scrape_write_rss_guids_witness :
  let rows := [model_row "S" "a" "2026-01-01" ""; model_row "S" "a" "2026-01-01" "b"] in
  exists items, scrape.write_rss "t" rows = Ok items
                /\ map scrape.guid items = ["S|a|2026-01-01"; "S|a|2026-01-01"]%string.
Proof.
  intros rows.
  assert (exists items, scrape.write_rss "t" rows = Ok items) as [items H]
    by (eexists; vm_compute; reflexivity).
  exists items. split; [exact H|].
  rewrite (proj1 (proj2 (scrape_write_rss_guids "t" rows)) items H).
  vm_compute. reflexivity.
Defined.

(** X13. The first run of [scrape.py] (no CSV file yet) returns exactly when
    there is at least one row, every row has source, model name and
    retirement date and no row has a key that is not a column; with no
    row at all, every run raises [RuntimeError]. *)
Theorem scrape_first_run_returns_iff now (rows : list row) (fs : scrape.files) :
  scrape.main now [] fs = Raise RuntimeError
  /\ (scrape.model_retirements_csv fs = None ->
      (returns (scrape.main now rows fs)
       <-> rows <> [] /\ Forall columns_only rows /\ Forall csv_row rows)).
Proof.
  split; [reflexivity|]. intros Hfile. unfold scrape.main. rewrite Hfile.
  destruct rows as [|r rows]; [split; [intros [? ?]; discriminate | intros [[] _]; reflexivity]|].
  split.
  - intros [fs' H]. apply bind_Ok in H as (lines & Hcsv & H).
    apply bind_Ok in H as (items & Hrss & _).
    split; [discriminate|]. split.
    + apply (scrape_write_csv_cols (r :: rows)). eexists. exact Hcsv.
    + eapply scrape_write_rss_Ok, Hrss.
  - intros (_ & Hcols & Hrows). rewrite write_csv_lines by exact Hcols. simpl.
    destruct (scrape_write_rss_items now (r :: rows) Hrows) as (items & -> & _).
    eexists. reflexivity.
Qed.

Lemma scrape_first_run_returns_iff_witness :
  let rows := [model_row "S" "a" "2026-01-01" ""] in
  scrape.model_retirements_csv no_files = None
  /\ returns (scrape.main "t" rows no_files)
  /\ rows <> [] /\ Forall columns_only rows /\ Forall csv_row rows.
Proof.
  intros rows.
  assert (returns (scrape.main "t" rows no_files)) as Hret
    by (eexists; vm_compute; reflexivity).
  split; [reflexivity|]. split; [exact Hret|].
  exact (proj1 (proj2 (scrape_first_run_returns_iff "t" rows no_files) eq_refl) Hret).
Defined.

Lemma line_of_field (r : row) (k : string) :
  k ∈ scrape.fieldnames -> field k (line_of r) = field k r.
Proof.
  intros Hk. unfold field at 1. unfold pyrow.get_or_empty.
  rewrite line_of_lookup, decide_True by exact Hk. reflexivity.
Qed.

Lemma line_of_csv_row (r : row) : csv_row (line_of r).
Proof.
  unfold csv_row. rewrite !line_of_lookup. repeat split; eexists; reflexivity.
Qed.

Lemma line_of_source_model (r : row) : source_model (line_of r) = source_model r.
Proof.
  unfold source_model. rewrite !line_of_field; [reflexivity| |];
    unfold scrape.fieldnames; rewrite !elem_of_cons; tauto.
Qed.

Lemma filter_none {A} (P : A -> Prop) `{forall x, Decision (P x)} (l : list A) :
  (forall x, x ∈ l -> ~ P x) -> filter P l = [].
Proof.
  induction l as [|x l IH]; intros HP; [reflexivity|].
  rewrite filter_cons, decide_False by apply HP, list_elem_of_here.
  apply IH. intros y Hy. apply HP, list_elem_of_further, Hy.
Qed.

Lemma load_existing_csv_fold (lines : list row) :
  Forall csv_row lines ->
  scrape.load_existing_csv lines
  = Ok (fold_left (fun d l => odict.set (source_model l) l d) lines []).
Proof.
  intros Hlines. unfold scrape.load_existing_csv.
  destruct (for_each_pure (fun _ => True) csv_row
              (fun existing r =>
                 source ← pyrow.getitem r "source";
                 model ← pyrow.getitem r "model_name";
                 Ok (odict.set (source, model) r existing))
              (fun d l => odict.set (source_model l) l d))
    with (xs := lines) (st := @nil (string * string * row)) as [-> _];
    [|exact I|exact Hlines|reflexivity].
  intros st x _ (Hs & Hm & _).
  rewrite (getitem_field _ _ Hs). simpl. rewrite (getitem_field _ _ Hm). simpl.
  split; [reflexivity | exact I].
Qed.

Lemma scrape_rerun_same_rows now now' (rows : list row) (fs fs1 : scrape.files) :
  scrape.model_retirements_csv fs = None ->
  NoDup (map source_model rows) ->
  scrape.main now rows fs = Ok fs1 ->
  scrape.main now' rows fs1 = Ok fs1.
Proof.
  intros Hfile Hnd Hrun.
  assert (rows <> [] /\ Forall columns_only rows /\ Forall csv_row rows)
    as (Hne & Hcols & Hrows).
  { unfold scrape.main in Hrun. rewrite Hfile in Hrun.
    destruct rows as [|r rows]; [discriminate|].
    apply bind_Ok in Hrun as (lines & Hcsv & H).
    apply bind_Ok in H as (items & Hrss & _).
    split; [discriminate|]. split.
    - apply (scrape_write_csv_cols (r :: rows)). eexists. exact Hcsv.
    - eapply scrape_write_rss_Ok, Hrss. }
  assert (scrape.model_retirements_csv fs1 = Some (map line_of rows)) as Hfile1.
  { unfold scrape.main in Hrun. rewrite Hfile in Hrun.
    destruct rows as [|r rows]; [discriminate|].
    rewrite write_csv_lines in Hrun by exact Hcols.
    apply bind_Ok in Hrun as (lines & [= <-] & H).
    apply bind_Ok in H as (items & _ & [= <-]). reflexivity. }
  clear Hrun. unfold scrape.main. rewrite Hfile1.
  destruct rows as [|r0 rows0] eqn:Erows; [congruence|]. rewrite <- Erows in *.
  assert (Forall csv_row (map line_of rows)) as Hlines.
  { apply Forall_forall. intros l Hl.
    apply list_elem_of_In, in_map_iff in Hl as (r & <- & _). apply line_of_csv_row. }
  assert (map source_model (map line_of rows) = map source_model rows) as Hids.
  { rewrite map_map. apply map_ext. intros r. apply line_of_source_model. }
  rewrite load_existing_csv_fold by exact Hlines. simpl.
  rewrite (fold_set_fresh source_model (map line_of rows) [])
    by (simpl; rewrite Hids; exact Hnd).
  simpl. rewrite diff_rows_filter; [|exact Hrows|].
  - rewrite filter_none; [reflexivity|].
    intros r Hr Hrep. unfold reported in Hrep.
    change (field "source" r, field "model_name" r) with (source_model r) in Hrep.
    rewrite <- line_of_source_model in Hrep.
    rewrite (get_map_distinct source_model (map line_of rows) (line_of r)) in Hrep.
    + rewrite !line_of_field in Hrep
        by (unfold scrape.fieldnames; rewrite !elem_of_cons; tauto).
      destruct Hrep as [H|H]; apply H; reflexivity.
    + rewrite Hids. exact Hnd.
    + apply list_elem_of_fmap_2, Hr.
  - unfold odict.values. rewrite map_map. simpl. rewrite map_id. exact Hlines.
Qed.

(** X14. A run of [scrape.py] on the rows the first run wrote (with distinct
    (source, model) identities) finds no change and leaves the three
    files as they are. *)
Theorem scrape_rerun_same_rows_changes_nothing now now' (rows : list row)
    (fs fs1 : scrape.files) :
  scrape.model_retirements_csv fs = None ->
  NoDup (map source_model rows) ->
  scrape.main now rows fs = Ok fs1 ->
  scrape.main now' rows fs1 = Ok fs1.
Proof. apply scrape_rerun_same_rows. Qed.

Lemma scrape_rerun_same_rows_changes_nothing_witness :
  let rows := [model_row "S" "a" "2026-01-01" ""; model_row "T" "a" "2026-02-01" "b"] in
  scrape.model_retirements_csv no_files = None
  /\ NoDup (map source_model rows)
  /\ exists fs1, scrape.main "t1" rows no_files = Ok fs1
                 /\ scrape.main "t2" rows fs1 = Ok fs1.
Proof.
  intros rows.
  assert (NoDup (map source_model rows)) as Hnd
    by (apply (proj1 (bool_decide_spec _)); vm_compute; exact I).
  assert (exists fs1, scrape.main "t1" rows no_files = Ok fs1) as [fs1 Hrun]
    by (eexists; vm_compute; reflexivity).
  split; [reflexivity|]. split; [exact Hnd|]. exists fs1. split; [exact Hrun|].
  exact (scrape_rerun_same_rows_changes_nothing "t1" "t2" rows no_files fs1
           eq_refl Hnd Hrun).
Defined.

(** ** Model names: which names lose a suffix *)

Lemma rep_counts {R} (P : R -> Prop) p lo hi
    (k : list ascii -> option ascii -> list ascii -> option R) (whole : list ascii) :
  (forall taken prev s r,
      (lo <= length taken)%nat ->
      (forall h, hi = Some h -> (length taken <= h)%nat) ->
      forallb p taken = true ->
      rev taken ++ s = whole -> k taken prev s = Some r -> P r) ->
  forall s n taken prev r,
    length taken = n -> (forall h, hi = Some h -> (n <= h)%nat) ->
    forallb p taken = true ->
    rev taken ++ s = whole -> re.rep p lo hi k n taken prev s = Some r -> P r.
Proof.
  intros Hk. induction s as [|c s IH]; intros n taken prev r Hn Hh Hp Hw; simpl.
  - destruct (lo <=? n)%nat eqn:El; [|discriminate].
    apply Nat.leb_le in El. subst n. apply Hk; assumption.
  - assert ((if (lo <=? n)%nat then k taken prev (c :: s) else None) = Some r -> P r)
      as Hstop.
    { destruct (lo <=? n)%nat eqn:El; [|discriminate].
      apply Nat.leb_le in El. subst n. apply Hk; assumption. }
    destruct (p c && re.below n hi) eqn:E; [|exact Hstop].
    destruct (re.rep p lo hi k (S n) (c :: taken) (Some c) s) eqn:E'; [|exact Hstop].
    intros [= <-]. apply andb_true_iff in E as [Hc Hb].
    eapply (IH (S n) (c :: taken)); [| | | |exact E'].
    + simpl. congruence.
    + intros h ->. simpl in Hb. apply Nat.ltb_lt in Hb. lia.
    + simpl. rewrite Hc, Hp. reflexivity.
    + simpl. rewrite <- app_assoc. exact Hw.
Qed.

Lemma rep_takes_all {R} p lo h
    (k : list ascii -> option ascii -> list ascii -> option R) (rest : list ascii) (r : R) :
  (lo <= h)%nat ->
  forall ds n taken prev,
    forallb p ds = true -> (n + length ds = h)%nat ->
    (forall prev', k (rev ds ++ taken) prev' rest = Some r) ->
    re.rep p lo (Some h) k n taken prev (ds ++ rest) = Some r.
Proof.
  intros Hlo. induction ds as [|c ds IH]; intros n taken prev Hp Hn Hk.
  - simpl in *. assert (n = h) as -> by lia.
    apply Nat.leb_le in Hlo.
    destruct rest as [|c rest]; simpl; rewrite Hlo; [apply Hk|].
    rewrite Nat.ltb_irrefl, andb_false_r. apply Hk.
  - simpl in Hp. apply andb_true_iff in Hp as [Hc Hp]. simpl in Hn.
    cbn [app re.rep]. rewrite Hc. simpl re.below.
    rewrite (proj2 (Nat.ltb_lt n h)) by lia. simpl.
    rewrite (IH (S n) (c :: taken) (Some c)); [reflexivity|exact Hp|lia|].
    intros prev'. specialize (Hk prev'). simpl in Hk.
    rewrite <- app_assoc in Hk. exact Hk.
Qed.

Lemma date_suffix_match prev s m :
  re.match_here patterns.DATE_SUFFIX_RE prev s = Some m ->
  exists ds rest, eight_digits ds /\ at_end rest /\ s = "-"%char :: ds ++ rest.
Proof.
  unfold re.match_here, patterns.DATE_SUFFIX_RE. rewrite run_Lit.
  destruct s as [|c s]; [discriminate|].
  destruct (Ascii.eqb_spec "-"%char c) as [<-|]; [|discriminate].
  cbn [re.run].
  apply (rep_counts
           (fun _ => exists ds rest, eight_digits ds /\ at_end rest
                                     /\ "-"%char :: s = "-"%char :: ds ++ rest)
           text.is_digit 8 (Some 8%nat) _ s); try reflexivity.
  - intros taken prev' s' r Hlo Hhi Hp Hw Hk.
    specialize (Hhi 8%nat eq_refl).
    exists (rev taken), s'. split; [|split].
    + split; [rewrite length_rev; lia|].
      rewrite forallb_forall in *. intros x Hx. apply Hp, in_rev, Hx.
    + destruct s' as [|c1 [|c2 s']]; [left; reflexivity| |discriminate].
      destruct (Ascii.eqb_spec c1 text.newline) as [->|]; [right; reflexivity|discriminate].
    + rewrite Hw. reflexivity.
  - intros h [= <-]. lia.
Qed.

Lemma date_suffix_matches prev ds rest :
  eight_digits ds -> at_end rest ->
  exists m, re.match_here patterns.DATE_SUFFIX_RE prev ("-"%char :: ds ++ rest) = Some m
            /\ re.m_text m = "-"%char :: ds.
Proof.
  intros [Hlen Hp] Hrest. unfold re.match_here, patterns.DATE_SUFFIX_RE.
  rewrite run_Lit. rewrite Ascii.eqb_refl. cbn [re.run].
  eexists. split.
  - apply rep_takes_all; [lia|exact Hp|simpl; lia|].
    intros prev'. destruct Hrest as [->| ->]; reflexivity.
  - simpl. rewrite app_nil_r, rev_app_distr, rev_involutive. reflexivity.
Qed.

Lemma sub_from_skip items (ds rest : list ascii) :
  forall prev, exists prev',
    re.sub_from items (length ds) prev (ds ++ rest) = re.sub_from items 0 prev' rest.
Proof.
  induction ds as [|c ds IH]; intros prev; simpl.
  - exists prev. reflexivity.
  - apply IH.
Qed.

Lemma not_date_suffix_inside c body ds rest prev :
  eight_digits ds -> at_end rest ->
  re.match_here patterns.DATE_SUFFIX_RE prev (c :: body ++ "-"%char :: ds ++ rest) = None.
Proof.
  intros [Hlen Hp] Hrest.
  destruct (re.match_here _ _ _) as [m|] eqn:E; [|reflexivity].
  exfalso. apply date_suffix_match in E as (ds' & rest' & [Hlen' Hp'] & Hrest' & Hs).
  pose proof (f_equal (@length ascii) Hs) as Hl.
  simpl in Hl. rewrite !length_app in Hl. simpl in Hl. rewrite !length_app in Hl.
  destruct Hrest' as [->| ->]; simpl in Hl; [lia|].
  assert (body = [] /\ rest = []) as [-> ->]
    by (destruct body, rest; simpl in Hl; split; (reflexivity || lia)).
  simpl in Hs. rewrite app_nil_r in Hs.
  destruct (exists_last (l := ds)) as (ds0 & d & ->);
    [intros ->; discriminate|].
  change (c :: "-"%char :: ds0 ++ [d]) with ((c :: "-"%char :: ds0) ++ [d]) in Hs.
  change ("-"%char :: ds' ++ [text.newline]) with (("-"%char :: ds') ++ [text.newline]) in Hs.
  apply app_inj_tail in Hs as [_ ->].
  rewrite forallb_app in Hp. simpl in Hp.
  apply andb_true_iff in Hp as [_ Hp]. vm_compute in Hp. discriminate.
Qed.

Lemma sub_date_suffix ds rest :
  eight_digits ds -> at_end rest ->
  forall body prev,
    re.sub_from patterns.DATE_SUFFIX_RE 0 prev (body ++ "-"%char :: ds ++ rest)
    = body ++ rest.
Proof.
  intros Hds Hrest. induction body as [|c body IH]; intros prev.
  - destruct (date_suffix_matches prev ds rest Hds Hrest) as (m & Hm & Ht).
    cbn [app re.sub_from]. rewrite Hm, Ht. destruct Hds as [Hlen _].
    cbn [length]. 
    destruct (sub_from_skip patterns.DATE_SUFFIX_RE ds rest (Some "-"%char))
      as (prev' & Hskip).
    rewrite Hlen in *. rewrite Hskip.
    destruct Hrest as [->| ->]; reflexivity.
  - cbn [app re.sub_from].
    rewrite (not_date_suffix_inside c body ds rest prev Hds Hrest).
    rewrite IH. reflexivity.
Qed.

Lemma search_from_position items s :
  forall prev m,
    re.search_from items prev s = Some m ->
    exists body s' prev', s = body ++ s' /\ re.match_here items prev' s' = Some m.
Proof.
  induction s as [|c s IH]; intros prev m; simpl.
  - destruct (re.match_here items prev []) eqn:E; [|discriminate].
    intros [= <-]. exists [], [], prev. auto.
  - destruct (re.match_here items prev (c :: s)) eqn:E.
    + intros [= <-]. exists [], (c :: s), prev. auto.
    + intros H. apply IH in H as (body & s' & prev' & -> & H).
      exists (c :: body), s', prev'. auto.
Qed.

Lemma search_date_suffix s prev :
  re.search_from patterns.DATE_SUFFIX_RE prev s <> None <-> ends_with_date_suffix s.
Proof.
  split.
  - destruct (re.search_from _ _ _) as [m|] eqn:E; [|congruence]. intros _.
    apply search_from_position in E as (body & s' & prev' & -> & E).
    apply date_suffix_match in E as (ds & rest & Hds & Hrest & ->).
    exists body, ds, rest. auto.
  - intros (body & ds & rest & Hds & Hrest & ->). revert prev.
    induction body as [|c body IH]; intros prev.
    + destruct (date_suffix_matches prev ds rest Hds Hrest) as (m & Hm & _).
      simpl. rewrite Hm. discriminate.
    + simpl. rewrite (not_date_suffix_inside c body ds rest prev Hds Hrest).
      apply IH.
Qed.

(** X15. [normalize_model_name] removes a hyphen and eight digits at the end
    of a name (before the last newline, if the name ends with one),
    whatever precedes them, and leaves a name unchanged exactly when it
    does not end so; [scrape.py] does the same to the stripped name. *)
Theorem normalize_model_name_drops_date_suffix :
  (forall body ds rest,
      eight_digits ds -> at_end rest ->
      scrape_claude_retirements.normalize_model_name
        (Some (text.str (body ++ "-"%char :: ds ++ rest)))
      = Some (text.str (body ++ rest)))
  /\ (forall n,
        scrape_claude_retirements.normalize_model_name (Some n) = Some n
        <-> ~ ends_with_date_suffix (text.chars n))
  /\ (forall n,
        scrape.normalize_model_name (Some n)
        = scrape_claude_retirements.normalize_model_name (Some (text.strip n))).
Proof.
  split; [|split].
  - intros body ds rest Hds Hrest.
    unfold scrape_claude_retirements.normalize_model_name, re.sub_empty.
    assert (pyrow.truthy (Some (text.str (body ++ "-"%char :: ds ++ rest))) = true) as ->.
    { simpl. destruct body; reflexivity. }
    rewrite chars_str, sub_date_suffix by assumption. reflexivity.
  - intros n. rewrite claude_name_fixed. unfold re.search.
    rewrite <- (search_date_suffix (text.chars n) None).
    destruct (re.search_from _ _ _) as [m|].
    + split; [discriminate|]. intros H. exfalso. apply H. discriminate.
    + split; [|reflexivity]. intros _ H. apply H. reflexivity.
  - intros n. unfold scrape.normalize_model_name,
      scrape_claude_retirements.normalize_model_name.
    destruct (pyrow.truthy (Some n)) eqn:E1.
    + destruct (pyrow.truthy (Some (text.strip n))) eqn:E2; [reflexivity|].
      simpl in E2. apply negb_false_iff, String.eqb_eq in E2. rewrite E2. reflexivity.
    + simpl in E1. apply negb_false_iff, String.eqb_eq in E1. subst n. reflexivity.
Qed.

Lemma normalize_model_name_drops_date_suffix_witness :
  let ds := text.chars "20241022" in
  eight_digits ds /\ at_end []
  /\ scrape_claude_retirements.normalize_model_name (Some "claude-3-5-haiku-20241022"%string)
     = Some "claude-3-5-haiku"%string.
Proof.
  intros ds.
  assert (eight_digits ds) as Hds by (split; reflexivity).
  assert (at_end []) as Hend by (left; reflexivity).
  split; [exact Hds|]. split; [exact Hend|].
  exact (proj1 normalize_model_name_drops_date_suffix
           (text.chars "claude-3-5-haiku") ds [] Hds Hend).
Defined.

(** ** The multi-tab script: escaped text and links *)

Lemma replace_one_char (c : ascii) (new s : list ascii) :
  text.replace_from [c] new 0 s
  = flat_map (fun x => if Ascii.eqb c x then new else [x]) s.
Proof.
  induction s as [|x s IH]; [reflexivity|].
  cbn [text.replace_from text.is_prefix flat_map length Nat.sub].
  rewrite andb_true_r, IH. destruct (Ascii.eqb c x); reflexivity.
Qed.

Lemma flat_map_flat_map {A B C} (f : A -> list B) (g : B -> list C) (l : list A) :
  flat_map g (flat_map f l) = flat_map (fun x => flat_map g (f x)) l.
Proof.
  induction l as [|x l IH]; [reflexivity|].
  simpl. rewrite flat_map_app, IH. reflexivity.
Qed.

Lemma escape_xml_chars (s : string) :
  escape_xml s = text.str (flat_map xml_char (text.chars s)).
Proof.
  unfold escape_xml, text.replace. rewrite !chars_str.
  change (text.chars "&") with ["&"%char].
  change (text.chars "<") with ["<"%char].
  change (text.chars ">") with [">"%char].
  rewrite !replace_one_char, !flat_map_flat_map. f_equal.
  apply flat_map_ext. intros c. unfold xml_char.
  rewrite (Ascii.eqb_sym c "&"), (Ascii.eqb_sym c "<"), (Ascii.eqb_sym c ">").
  destruct (Ascii.eqb_spec "&"%char c) as [<-|H1]; [reflexivity|].
  cbn [flat_map app].
  destruct (Ascii.eqb_spec "<"%char c) as [<-|H2]; [reflexivity|].
  cbn [flat_map app].
  destruct (Ascii.eqb_spec ">"%char c) as [<-|H3]; reflexivity.
Qed.

(** X16. The three replacements of [escape_xml], made one after the other,
    amount to one pass that rewrites each character once: the ampersands
    of the entities it writes are not escaped again.  The result has no
    angle bracket, and a text without the three characters is
    unchanged. *)
Theorem escape_xml_one_pass (s : string) :
  escape_xml s = text.str (flat_map xml_char (text.chars s))
  /\ (forall c, c ∈ text.chars (escape_xml s) -> c <> "<"%char /\ c <> ">"%char)
  /\ ((forall c, c ∈ text.chars s -> c <> "&"%char /\ c <> "<"%char /\ c <> ">"%char) ->
      escape_xml s = s).
Proof.
  split; [apply escape_xml_chars|]. rewrite escape_xml_chars, chars_str. split.
  - intros c Hc. apply list_elem_of_In, in_flat_map in Hc as (x & _ & Hc).
    unfold xml_char in Hc.
    destruct (Ascii.eqb_spec x "&"%char) as [E1|H1];
      [|destruct (Ascii.eqb_spec x "<"%char) as [E2|H2];
        [|destruct (Ascii.eqb_spec x ">"%char) as [E3|H3]]].
    all: simpl in Hc.
    all: repeat (destruct Hc as [<-|Hc]; [split; (discriminate || assumption)|]).
    all: destruct Hc.
  - intros Hclean. rewrite <- (str_chars s) at 2. f_equal.
    induction (text.chars s) as [|c l IH]; [reflexivity|].
    destruct (Hclean c (list_elem_of_here _ _)) as (H1 & H2 & H3).
    cbn [flat_map]. rewrite IH by (intros x Hx; apply Hclean, list_elem_of_further, Hx).
    unfold xml_char.
    rewrite (proj2 (Ascii.eqb_neq _ _) H1), (proj2 (Ascii.eqb_neq _ _) H2),
      (proj2 (Ascii.eqb_neq _ _) H3). reflexivity.
Qed.

Lemma escape_xml_one_pass_witness :
  (forall c, c ∈ text.chars "gpt-4o" -> c <> "&"%char /\ c <> "<"%char /\ c <> ">"%char)
  /\ escape_xml "gpt-4o" = "gpt-4o"%string.
Proof.
  assert (forall c, c ∈ text.chars "gpt-4o"
                    -> c <> "&"%char /\ c <> "<"%char /\ c <> ">"%char) as Hclean.
  { intros c Hc. apply list_elem_of_In in Hc. simpl in Hc.
    repeat (destruct Hc as [<-|Hc]; [repeat split; discriminate|]). destruct Hc. }
  split; [exact Hclean|].
  exact (proj2 (proj2 (escape_xml_one_pass "gpt-4o")) Hclean).
Defined.

(** X17. The link of an entry always names one of the four tabs of the page:
    the tab of the type when the type is a key of [TAB_MAP], the tab of
    what is left of the type without " and video" when that is a key, and
    the text tab otherwise. *)
Theorem make_tabs_link_names_a_tab (type_label : string) :
  (exists tab, tab ∈ tabs /\ make_tabs_link type_label = MS_URL_BASE +:+ "?tabs=" +:+ tab)
  /\ (forall tab, odict.get type_label TAB_MAP = Some tab ->
                  make_tabs_link type_label = MS_URL_BASE +:+ "?tabs=" +:+ tab)
  /\ (odict.get type_label TAB_MAP = None ->
      odict.get (text.replace type_label " and video" "") TAB_MAP = None ->
      make_tabs_link type_label = MS_URL_BASE +:+ "?tabs=text").
Proof.
  assert (forall k tab, odict.get k TAB_MAP = Some tab -> tab ∈ tabs) as Htab.
  { intros k tab H. apply odict_get_elem in H. unfold TAB_MAP in H.
    apply list_elem_of_In in H. simpl in H. unfold tabs.
    repeat (destruct H as [[= _ <-]|H]; [rewrite !elem_of_cons; tauto|]). destruct H. }
  unfold make_tabs_link. split; [|split].
  - destruct (odict.get type_label TAB_MAP) as [tab|] eqn:E.
    + exists tab. split; [eapply Htab, E | reflexivity].
    + destruct (odict.get (text.replace type_label " and video" "") TAB_MAP)
        as [tab|] eqn:E'.
      * exists tab. split; [eapply Htab, E' | reflexivity].
      * exists "text"%string. split; [apply list_elem_of_here | reflexivity].
  - intros tab ->. reflexivity.
  - intros -> ->. reflexivity.
Qed.

Lemma make_tabs_link_names_a_tab_witness :
  odict.get "Image and video"%string TAB_MAP = Some "image"%string
  /\ make_tabs_link "Image and video" = MS_URL_BASE +:+ "?tabs=image"
  /\ odict.get "Vision"%string TAB_MAP = None
  /\ make_tabs_link "Vision" = MS_URL_BASE +:+ "?tabs=text".
Proof.
  destruct (make_tabs_link_names_a_tab "Image and video") as (_ & Hkey & _).
  destruct (make_tabs_link_names_a_tab "Vision") as (_ & _ & Hnone).
  split; [reflexivity|]. split; [exact (Hkey "image"%string eq_refl)|].
  split; [reflexivity|]. exact (Hnone eq_refl eq_refl).
Defined.

(** ** Date normalizers: the unified one against the single-source ones *)



(** The dates the unified normalizer compares, and its result. *)
Lemma scrape_normalize_dates t :
  pyrow.truthy (Some t) = true ->
  exists d2 d3,
    scrape.claude_date t (parsed_dates (re.findall patterns.ISO_DATE_RE t)) = Ok d2
    /\ scrape.aws_date t d2 = Ok d3
    /\ scrape.normalize_date_from_text (Some t) = Ok (earliest d3).
Proof.
  intros Ht. unfold scrape.normalize_date_from_text, scrape.iso_dates.
  rewrite Ht, collect_dates_eq. simpl.
  destruct (claude_date_returns t (parsed_dates (re.findall patterns.ISO_DATE_RE t)))
    as [d2 H2].
  destruct (aws_date_returns t d2) as [d3 H3].
  exists d2, d3. rewrite H2. simpl. rewrite H3. auto.
Qed.




(** ** [scrape.py]: from the cells of the pages to the files *)

Lemma built_row_page_row source model d repl text :
  scrape.normalize_date_from_text text = Ok (Some d) ->
  page_row source
    ({[ "source" := source; "model_name" := model; "retirement_date" := d;
        "recommended_replacement" := repl ]} : row).
Proof.
  intros Hd. split; [|split; [|split]].
  - repeat split; eexists; reflexivity.
  - intros k [v Hv].
    repeat (apply lookup_insert_Some in Hv as [[<- _]|[_ Hv]];
            [unfold scrape.fieldnames; rewrite !elem_of_cons; tauto|]).
    apply lookup_singleton_Some in Hv as [<- _].
    unfold scrape.fieldnames. rewrite !elem_of_cons. tauto.
  - reflexivity.
  - eapply normalized_row_well_formed; [exact Hd|reflexivity|eexists; reflexivity].
Qed.

Lemma append_row_page_rows source rows cells :
  Forall (page_row source) rows ->
  exists rows', scrape.append_row source rows cells = Ok rows'
                /\ Forall (page_row source) rows'.
Proof.
  intros Hrows. destruct cells as [[raw_model raw_date] raw_repl].
  unfold scrape.append_row.
  destruct (scrape_normalize_date_returns (Some raw_date)) as [date Hdate].
  rewrite Hdate. simpl.
  destruct date as [d|]; [|eauto].
  destruct (pyrow.truthy (Some d)); [|eauto].
  eexists. split; [reflexivity|].
  apply Forall_app. split; [exact Hrows|].
  constructor; [|constructor]. eapply built_row_page_row, Hdate.
Qed.

Lemma scraped_rows_page_rows source cells :
  exists out, scrape.scraped_rows source cells = Ok out
              /\ Forall (page_row source) out
              /\ NoDup (map (field "model_name") out).
Proof.
  unfold scrape.scraped_rows.
  destruct (for_each_returns (Forall (page_row source)) (scrape.append_row source)
              cells []) as (rows & -> & Hrows); [constructor| |].
  - intros st x Hst. apply append_row_page_rows, Hst.
  - simpl.
    assert (Forall (well_formed "model_name" true) rows) as W
      by (eapply Forall_impl; [exact Hrows|]; intros r (_ & _ & _ & H); exact H).
    rewrite scrape_dedup_fold by exact W.
    eexists. split; [reflexivity|]. split.
    + apply fold_keep_well_formed, Hrows.
    + rewrite fold_keep_idents. apply first_seen_NoDup.
Qed.


Lemma NoDup_source_model (source : string) (rows : list row) :
  Forall (page_row source) rows -> NoDup (map (field "model_name") rows) ->
  NoDup (map source_model rows).
Proof.
  intros _ Hnd. apply (NoDup_fmap_1 snd).
  change (NoDup (map snd (map source_model rows))).
  rewrite map_map. exact Hnd.
Qed.

Lemma page_rows_sources (source : string) (rows : list row) (k : string * string) :
  Forall (page_row source) rows -> k ∈ map source_model rows -> k.1 = source.
Proof.
  intros Hrows Hk. apply list_elem_of_In, in_map_iff in Hk as (r & <- & Hr).
  rewrite Forall_forall in Hrows.
  destruct (Hrows r (proj2 (list_elem_of_In _ _) Hr)) as (_ & _ & Hs & _). exact Hs.
Qed.

(** X20. The script run on what its three scrapers return for pages that gave
    at least one dated row: the first run returns, and a second run on
    the same pages finds no change and leaves the files as they are. *)
Theorem scrape_runs_on_scraped_pages now now'
    (claude aws azure : list (string * string * string)) (fs : scrape.files) :
  scrape.model_retirements_csv fs = None ->
  exists rows1 rows2 rows3,
    scrape.scraped_rows scrape.CLAUDE_URL claude = Ok rows1
    /\ scrape.scraped_rows scrape.AWS_URL aws = Ok rows2
    /\ scrape.scraped_rows scrape.AZURE_URL azure = Ok rows3
    /\ (rows1 ++ rows2 ++ rows3 <> [] ->
        exists fs1,
          scrape.main now (rows1 ++ rows2 ++ rows3) fs = Ok fs1
          /\ scrape.main now' (rows1 ++ rows2 ++ rows3) fs1 = Ok fs1).
Proof.
  intros Hfile.
  destruct (scraped_rows_page_rows scrape.CLAUDE_URL claude) as (rows1 & H1 & P1 & N1).
  destruct (scraped_rows_page_rows scrape.AWS_URL aws) as (rows2 & H2 & P2 & N2).
  destruct (scraped_rows_page_rows scrape.AZURE_URL azure) as (rows3 & H3 & P3 & N3).
  exists rows1, rows2, rows3. repeat (split; [assumption|]).
  intros Hne. set (all_rows := rows1 ++ rows2 ++ rows3) in *.
  assert (Forall csv_row all_rows /\ Forall columns_only all_rows) as [Hcsv Hcols].
  { unfold all_rows. rewrite !Forall_app. repeat split.
    all: eapply Forall_impl; [eassumption|]; intros r (? & ? & _); assumption. }
  assert (NoDup (map source_model all_rows)) as Hnd.
  { unfold all_rows. rewrite !map_app.
    apply NoDup_app. split; [eapply NoDup_source_model; eassumption|]. split.
    - intros k Hk1 Hk. apply (page_rows_sources _ _ _ P1) in Hk1.
      apply elem_of_app in Hk as [Hk|Hk].
      + apply (page_rows_sources _ _ _ P2) in Hk. rewrite Hk1 in Hk. discriminate.
      + apply (page_rows_sources _ _ _ P3) in Hk. rewrite Hk1 in Hk. discriminate.
    - apply NoDup_app. split; [eapply NoDup_source_model; eassumption|]. split.
      + intros k Hk2 Hk. apply (page_rows_sources _ _ _ P2) in Hk2.
        apply (page_rows_sources _ _ _ P3) in Hk. rewrite Hk2 in Hk. discriminate.
      + eapply NoDup_source_model; eassumption. }
  assert (exists fs1, scrape.main now all_rows fs = Ok fs1) as [fs1 Hrun].
  { unfold scrape.main. rewrite Hfile.
    destruct all_rows as [|r rows] eqn:E; [congruence|]. rewrite <- E in *.
    rewrite write_csv_lines by exact Hcols. simpl.
    destruct (scrape_write_rss_items now all_rows Hcsv) as (items & -> & _).
    eexists. reflexivity. }
  exists fs1. split; [exact Hrun|].
  eapply scrape_rerun_same_rows; eassumption.
Qed.

Lemma scrape_runs_on_scraped_pages_witness :
  let claude := [("claude-3-5-haiku-20241022", "Not sooner than February 19, 2026",
                  "claude-haiku-4-5-20251001")]%string in
  let aws := [("Claude 3 Haiku", "No sooner than 9/23/2025", "");
              ("Titan Text", "TBD", "")]%string in
  let azure := [("gpt-4o", "2026-10-01", "gpt-5")]%string in
  scrape.model_retirements_csv no_files = None
  /\ exists rows1 rows2 rows3,
       scrape.scraped_rows scrape.CLAUDE_URL claude = Ok rows1
       /\ scrape.scraped_rows scrape.AWS_URL aws = Ok rows2
       /\ scrape.scraped_rows scrape.AZURE_URL azure = Ok rows3
       /\ (rows1 ++ rows2 ++ rows3 <> [] ->
           exists fs1,
             scrape.main "t1" (rows1 ++ rows2 ++ rows3) no_files = Ok fs1
             /\ scrape.main "t2" (rows1 ++ rows2 ++ rows3) fs1 = Ok fs1).
Proof.
  intros claude aws azure. split; [reflexivity|].
  exact (scrape_runs_on_scraped_pages "t1" "t2" claude aws azure no_files eq_refl).
Defined.

(** The rows of the example pages: dates in ISO form, date suffixes
    removed, the row without a date skipped. *)
Example scraped_rows_example :
  let columns (r : row) :=
    (field "source" r, field "model_name" r, field "retirement_date" r,
     field "recommended_replacement" r) in
  map columns <$> scrape.scraped_rows "AWS"
    [("Claude 3 Haiku", "No sooner than 9/23/2025", ""); ("Titan Text", "TBD", "")]%string
  = Ok [("AWS", "Claude 3 Haiku", "2025-09-23", "")]%string
  /\ map columns <$> scrape.scraped_rows "Claude"
       [("claude-3-5-haiku-20241022", "Not sooner than February 19, 2026",
         "claude-haiku-4-5-20251001")]%string
     = Ok [("Claude", "claude-3-5-haiku", "2026-02-19", "claude-haiku-4-5")]%string.
Proof. split; vm_compute; reflexivity. Qed.

(** ** [scrape.py]: reading the CSV file back *)

Lemma load_existing_csv_keyed (lines : list row) :
  Forall keyed_line lines ->
  scrape.load_existing_csv lines
  = Ok (fold_left (fun d l => odict.set (source_model l) l d) lines []).
Proof.
  intros Hlines. unfold scrape.load_existing_csv.
  destruct (for_each_pure (fun _ => True) keyed_line
              (fun existing r =>
                 source ← pyrow.getitem r "source";
                 model ← pyrow.getitem r "model_name";
                 Ok (odict.set (source, model) r existing))
              (fun d l => odict.set (source_model l) l d))
    with (xs := lines) (st := @nil (string * string * row)) as [-> _];
    [|exact I|exact Hlines|reflexivity].
  intros st x _ (Hs & Hm).
  rewrite (getitem_field _ _ Hs). simpl. rewrite (getitem_field _ _ Hm). simpl.
  split; [reflexivity | exact I].
Qed.

(** X21. [load_existing_csv] raises exactly when a line lacks its source or
    its model name; otherwise an identity (source, model) is mapped to
    the last line that has it, and to nothing when no line has it. *)
Theorem load_existing_csv_last_line (lines : list row) :
  (returns (scrape.load_existing_csv lines) <-> Forall keyed_line lines)
  /\ (forall existing k,
        scrape.load_existing_csv lines = Ok existing ->
        odict.get k existing = last (filter (fun l => source_model l = k) lines)).
Proof.
  assert (returns (scrape.load_existing_csv lines) -> Forall keyed_line lines) as Hret.
  { intros [existing H]. unfold scrape.load_existing_csv in H.
    eapply for_each_Ok_Forall; [|exact H].
    intros st x st' Hb.
    apply bind_Ok in Hb as (source & Hs & Hb).
    apply bind_Ok in Hb as (model & Hm & _).
    split; eapply getitem_Ok_is_Some; eassumption. }
  split; [split; [exact Hret|]|].
  - intros H. rewrite load_existing_csv_keyed by exact H. eexists. reflexivity.
  - intros existing k H.
    rewrite load_existing_csv_keyed in H by (apply Hret; eexists; exact H).
    injection H as <-.
    rewrite (fold_set_get source_model (fun l => l)). simpl.
    destruct (last _); reflexivity.
Qed.

Lemma load_existing_csv_last_line_witness :
  let lines := [model_row "S" "a" "2026-01-01" ""; model_row "S" "a" "2026-02-01" ""] in
  Forall keyed_line lines
  /\ exists existing,
       scrape.load_existing_csv lines = Ok existing
       /\ odict.get ("S", "a")%string existing
          = last (filter (fun l => source_model l = ("S", "a")%string) lines).
Proof.
  intros lines.
  assert (Forall keyed_line lines) as Hk
    by (repeat constructor; eexists; reflexivity).
  split; [exact Hk|].
  destruct (proj2 (proj1 (load_existing_csv_last_line lines)) Hk) as [existing H].
  exists existing. split; [exact H|].
  exact (proj2 (load_existing_csv_last_line lines) existing ("S", "a")%string H).
Defined.

(** ** The multi-tab script: what the feed writer leaves in the feed *)

Lemma ms_rss_item_of_Ok hash now ch item :
  rss_item_of hash now ch = Ok item ->
  length (change_key ch) = 3%nat /\ pubDate item = pubdate now
  /\ link item = make_tabs_link (nth 0 (change_key ch) "").
Proof.
  unfold rss_item_of. destruct (change_key ch) as [|a [|b [|c [|d k]]]]; try discriminate.
  intros [= <-]. repeat split.
Qed.

Lemma ms_write_rss_loop hash now changes :
  forall acc items,
    for_each (fun items ch => item ← rss_item_of hash now ch; Ok (items ++ [item]))
             changes acc = Ok items ->
    exists new_items,
      items = acc ++ new_items
      /\ Forall2 (fun ch item => pubDate item = pubdate now
                                 /\ link item = make_tabs_link (nth 0 (change_key ch) ""))
                 changes new_items.
Proof.
  induction changes as [|ch changes IH]; intros acc items H; simpl in H.
  - injection H as <-. exists []. rewrite app_nil_r. split; [reflexivity | constructor].
  - apply bind_Ok in H as (st & Hb & H).
    apply bind_Ok in Hb as (item & Hitem & [= <-]).
    apply IH in H as (new_items & -> & Hall).
    exists (item :: new_items). rewrite <- app_assoc. split; [reflexivity|].
    constructor; [|exact Hall].
    apply ms_rss_item_of_Ok in Hitem as (_ & Hp & Hl). auto.
Qed.

(** X22. The feed writer raises exactly when the identity of an event has not
    three components; otherwise the feed holds one new entry per event,
    in the order of the events, dated with the clock of the run, followed
    by the entries it already had, unchanged and in their order; without
    events it keeps the entries it had. *)
Theorem ms_write_rss_accumulates hash now (changes : list change)
    (file : option (list rss_item)) :
  (returns (write_rss hash now changes file)
   <-> Forall (fun ch => length (change_key ch) = 3%nat) changes)
  /\ (forall items,
        write_rss hash now changes file = Ok items ->
        exists new_items,
          items = new_items ++ read_existing_rss_items file
          /\ Forall2 (fun ch item =>
                        pubDate item = pubdate now
                        /\ link item = make_tabs_link (nth 0 (change_key ch) ""))
                     changes new_items).
Proof.
  split; [split; [|apply write_rss_returns]|].
  - intros [items H]. unfold write_rss in H.
    destruct changes as [|ch changes]; [constructor|].
    apply bind_Ok in H as (new_items & Hloop & _).
    eapply for_each_Ok_Forall; [|exact Hloop].
    intros st x st' Hb. apply bind_Ok in Hb as (item & Hitem & _).
    apply ms_rss_item_of_Ok in Hitem as [H3 _]. exact H3.
  - intros items H. unfold write_rss in H.
    destruct changes as [|ch changes].
    + injection H as <-. exists []. split; [reflexivity | constructor].
    + apply bind_Ok in H as (new_items & Hloop & [= <-]).
      apply ms_write_rss_loop in Hloop as (new_items' & -> & Hall).
      exists new_items'. split; [reflexivity | exact Hall].
Qed.

Lemma ms_write_rss_accumulates_witness :
  let hash := fun s => Z.of_nat (String.length s) in
  let now := mk_clock "Fri, 06 Nov 2026 00:00:00 +0000" "1793923200.0" in
  let r := tab_row "Audio" "whisper" "001" "2026-09-01" in
  let changes := [new (key_for_row r) r "New model listed"] in
  exists items old_item,
    write_rss hash now changes (Some [old_item]) = Ok items
    /\ exists new_items,
         items = new_items ++ [old_item]
         /\ Forall2 (fun ch item =>
                       pubDate item = pubdate now
                       /\ link item = make_tabs_link (nth 0 (change_key ch) ""))
                    changes new_items.
Proof.
  intros hash now r changes.
  set (old_item := baseline_item hash now).
  assert (exists items, write_rss hash now changes (Some [old_item]) = Ok items)
    as [items H] by (eexists; vm_compute; reflexivity).
  exists items, old_item. split; [exact H|].
  exact (proj2 (ms_write_rss_accumulates hash now changes (Some [old_item])) items H).
Defined.

(** ** The multi-tab script: the texts of the cells *)

Lemma rep_all_of {R} (p : ascii -> bool) (k : list ascii -> option ascii -> list ascii -> option R)
    (f : list ascii -> list ascii -> R) :
  (forall taken prev s, k taken prev s = Some (f taken s)) ->
  forall s n taken prev,
    (1 <= n)%nat ->
    re.rep p 1 None k n taken prev s
    = Some (f (rev (leading p s) ++ taken) (text.lstrip_of p s)).
Proof.
  intros Hk. induction s as [|c s IH]; intros n taken prev Hn;
    (destruct n as [|n]; [lia|]).
  - simpl. apply Hk.
  - cbn [re.rep leading text.lstrip_of re.below Nat.leb]. destruct (p c); cbn [andb].
    + rewrite IH by lia. cbn [rev]. rewrite <- app_assoc. reflexivity.
    + apply Hk.
Qed.

Lemma spaces_match prev c s :
  re.match_here patterns.SPACES_RE prev (c :: s)
  = if text.is_space c
    then Some (re.mkMatch (c :: leading text.is_space s) []
                          (text.lstrip_of text.is_space s))
    else None.
Proof.
  unfold re.match_here, patterns.SPACES_RE. cbn [re.run re.rep].
  destruct (text.is_space c); [|reflexivity]. simpl re.below. cbn [andb].
  rewrite (rep_all_of text.is_space _
             (fun taken s' => re.mkMatch (rev (taken ++ [])) (rev []) s'))
    by (reflexivity || lia).
  rewrite app_nil_r, rev_app_distr, rev_involutive. reflexivity.
Qed.

Lemma leading_lstrip_of p l : leading p l ++ text.lstrip_of p l = l.
Proof.
  induction l as [|c l IH]; [reflexivity|]. simpl.
  destruct (p c); [simpl; rewrite IH|]; reflexivity.
Qed.

Lemma sub_spaces_squeeze (s : list ascii) :
  (forall prev, re.sub_with_from patterns.SPACES_RE [" "%char] 0 prev s = squeeze false s)
  /\ (forall prev,
        re.sub_with_from patterns.SPACES_RE [" "%char]
          (length (leading text.is_space s)) prev s
        = squeeze true s).
Proof.
  induction s as [|c s [IH0 IH1]]; [split; reflexivity|]. split.
  - intros prev. cbn [re.sub_with_from squeeze]. rewrite spaces_match.
    destruct (text.is_space c); [|rewrite IH0; reflexivity].
    cbn [re.m_text length app]. rewrite IH1. reflexivity.
  - intros prev. cbn [leading squeeze].
    destruct (text.is_space c) eqn:E.
    + cbn [length re.sub_with_from]. apply IH1.
    + cbn [length re.sub_with_from]. rewrite spaces_match, E, IH0. reflexivity.
Qed.

Lemma squeeze_spaced l : forall b, spaced b (squeeze b l) = true.
Proof.
  induction l as [|c l IH]; intros b; [reflexivity|]. simpl.
  destruct (text.is_space c) eqn:E.
  - destruct b; [apply IH|]. simpl. rewrite (IH true). reflexivity.
  - simpl. rewrite E. apply IH.
Qed.

Lemma squeeze_only_space l : forall b c,
  c ∈ squeeze b l -> text.is_space c = true -> c = " "%char.
Proof.
  induction l as [|x l IH]; intros b c Hc Hs; [apply elem_of_nil in Hc as []|].
  simpl in Hc. destruct (text.is_space x) eqn:E.
  - destruct b; [eapply IH; eassumption|].
    apply elem_of_cons in Hc as [->|Hc]; [reflexivity | eapply IH; eassumption].
  - apply elem_of_cons in Hc as [->|Hc]; [congruence | eapply IH; eassumption].
Qed.

Lemma spaced_no_double l : forall b l1 l2,
  spaced b l = true -> l <> l1 ++ " "%char :: " "%char :: l2.
Proof.
  induction l as [|c l IH]; intros b l1 l2 Hs E.
  - destruct l1; discriminate.
  - destruct l1 as [|x l1]; simpl in E.
    + injection E as -> ->. simpl in Hs.
      change (text.is_space " ") with true in Hs. cbn in Hs.
      rewrite andb_false_r in Hs. discriminate.
    + injection E as -> E. simpl in Hs.
      destruct (text.is_space x).
      * apply andb_true_iff in Hs as [_ Hs]. eapply IH; eassumption.
      * eapply IH; eassumption.
Qed.

Lemma lstrip_idem l : text.lstrip (text.lstrip l) = text.lstrip l.
Proof.
  induction l as [|c l IH]; [reflexivity|]. simpl.
  destruct (text.is_space c) eqn:E; [exact IH|]. simpl. rewrite E. reflexivity.
Qed.

Lemma lstrip_snoc l c :
  text.is_space c = false -> text.lstrip (l ++ [c]) = text.lstrip l ++ [c].
Proof.
  intros Hc. induction l as [|x l IH]; simpl.
  - rewrite Hc. reflexivity.
  - destruct (text.is_space x); [exact IH | reflexivity].
Qed.

Lemma rstrip_snoc l c : text.is_space c = false -> text.rstrip (l ++ [c]) = l ++ [c].
Proof.
  intros Hc. unfold text.rstrip. rewrite rev_app_distr. simpl. rewrite Hc.
  simpl. rewrite rev_involutive. reflexivity.
Qed.

(** A stripped text is empty or begins and ends with a character that is
    no white space. *)
Lemma strip_chars_ends l :
  text.strip_chars l = []
  \/ exists a m b, text.is_space a = false /\ text.is_space b = false
                   /\ (text.strip_chars l = [a] \/ text.strip_chars l = a :: m ++ [b]).
Proof.
  unfold text.strip_chars, text.rstrip.
  assert (forall m, text.lstrip m = [] \/ exists a m', text.lstrip m = a :: m'
                                                    /\ text.is_space a = false) as Hl.
  { induction m as [|x m IH]; [left; reflexivity|]. simpl.
    destruct (text.is_space x) eqn:E; [exact IH|]. right. eauto. }
  destruct (Hl l) as [->|(a & m & -> & Ha)]; [left; reflexivity|].
  right. simpl.
  destruct (Hl (rev m ++ [a])) as [E|(b & m' & E & Hb)].
  - exfalso. rewrite lstrip_snoc in E by exact Ha. destruct (text.lstrip (rev m)); discriminate.
  - rewrite E. rewrite lstrip_snoc in E by exact Ha.
    destruct (text.lstrip (rev m)) as [|y t] eqn:Et; simpl in E.
    + injection E as <- <-. exists a, [], a. simpl. auto.
    + injection E as <- <-. exists a, (rev t), y.
      split; [exact Ha|]. split; [exact Hb|]. right.
      simpl. rewrite rev_app_distr. reflexivity.
Qed.

Lemma squeeze_snoc l c :
  text.is_space c = false -> forall b, squeeze b (l ++ [c]) = squeeze b l ++ [c].
Proof.
  intros Hc. induction l as [|x l IH]; intros b; simpl.
  - rewrite Hc. reflexivity.
  - destruct (text.is_space x); [destruct b|]; simpl; rewrite IH; reflexivity.
Qed.

Lemma squeeze_stripped l :
  text.strip_chars (squeeze false (text.strip_chars l)) = squeeze false (text.strip_chars l).
Proof.
  destruct (strip_chars_ends l) as [->|(a & m & b & Ha & Hb & [->| ->])].
  - reflexivity.
  - simpl. rewrite Ha. unfold text.strip_chars. simpl. rewrite Ha.
    apply (rstrip_snoc [] a Ha).
  - change (a :: m ++ [b]) with ((a :: m) ++ [b]).
    rewrite squeeze_snoc by exact Hb. simpl. rewrite Ha.
    unfold text.strip_chars. simpl. rewrite Ha.
    apply (rstrip_snoc (a :: squeeze false m) b Hb).
Qed.

Lemma normalize_text_tidy (s : string) : tidy (text.chars (normalize_text (Some s))).
Proof.
  unfold normalize_text, re.sub_with, text.strip at 1.
  rewrite !chars_str.
  change (text.chars " ") with [" "%char].
  rewrite (proj1 (sub_spaces_squeeze _)).
  split; [apply squeeze_stripped|]. split.
  - intros c. apply squeeze_only_space.
  - intros l1 l2. apply (spaced_no_double _ false), squeeze_spaced.
Qed.

(** X23. The text of a cell, once normalized, has no white space at its ends,
    no white space other than the space and no two spaces in a row; no
    text at all gives the empty text. *)
Theorem normalize_text_is_tidy (s : string) :
  tidy (text.chars (normalize_text (Some s)))
  /\ normalize_text None = ""%string.
Proof. split; [apply normalize_text_tidy | reflexivity]. Qed.

(** A second normalization can still change a text: a backtick that
    white space kept from the first is removed by the second. *)
Example normalize_text_twice :
  normalize_text (Some "`` `x"%string) = "`x"%string
  /\ normalize_text (Some "`x"%string) = "x"%string
  /\ normalize_text (Some "  `gpt-4o`   (2024-05-13) "%string) = "gpt-4o` (2024-05-13)"%string.
Proof. repeat split; vm_compute; reflexivity. Qed.

(** ** The multi-tab script: headers and section titles *)

(** X24. [header_key] gives one of the six canonical names or the header
    itself, and a name it gives is mapped to itself: the headers of the
    old layout, which are canonical names, and unknown headers pass
    unchanged. *)
Theorem header_key_canonical (h : string) :
  (header_key h ∈ canonical_headers \/ header_key h = h)
  /\ header_key (header_key h) = header_key h
  /\ Forall (fun c => header_key c = c) canonical_headers.
Proof.
  assert (Forall (fun c => header_key c = c) canonical_headers) as Hfix
    by (repeat constructor; vm_compute; reflexivity).
  assert (header_key h ∈ canonical_headers \/ header_key h = h) as Hcases.
  { unfold header_key, canonical_headers.
    repeat match goal with
           | |- context [if ?b then _ else _] => destruct b
           end;
      first [right; reflexivity | left; rewrite !elem_of_cons; tauto]. }
  split; [exact Hcases|]. split; [|exact Hfix].
  destruct Hcases as [Hc|Hh]; [|rewrite Hh; exact Hh].
  rewrite Forall_forall in Hfix. apply Hfix, Hc.
Qed.

(** The headers of the two layouts of the page. *)
Example header_key_layouts :
  map header_key ["Model Name"; "Model Version"; "Lifecycle Status";
                  "Deprecation Date (No New Customers)"; "Retirement Date";
                  "Replacement Model"]%string
  = ["Model"; "Version"; "Lifecycle status"; "Deprecation date"; "Retirement date";
     "Replacement model"]%string
  /\ map header_key ["Model"; "Version"; "Lifecycle Status"; "Retirement date";
                     "Replacement model"]%string
     = ["Model"; "Version"; "Lifecycle status"; "Retirement date";
        "Replacement model"]%string.
Proof. split; vm_compute; reflexivity. Qed.

(** X25. A section title is mapped to a key of [TAB_MAP] or to nothing, so the
    link of a row of a section found by its title names the tab of the
    section; the empty title is mapped to nothing. *)
Theorem canonical_type_is_a_tab_key (title : string) :
  (forall label, canonical_type_from_title title = Some label ->
                 exists tab, odict.get label TAB_MAP = Some tab
                             /\ make_tabs_link label = MS_URL_BASE +:+ "?tabs=" +:+ tab)
  /\ canonical_type_from_title "" = None.
Proof.
  split; [|reflexivity]. intros label. unfold canonical_type_from_title.
  repeat match goal with
         | |- context [if ?b then _ else _] => destruct b
         end; intros [= <-]; eexists; split; reflexivity.
Qed.

Lemma canonical_type_is_a_tab_key_witness :
  canonical_type_from_title "Image & video" = Some "Image and video"%string
  /\ exists tab, odict.get "Image and video"%string TAB_MAP = Some tab
                 /\ make_tabs_link "Image and video" = MS_URL_BASE +:+ "?tabs=" +:+ tab.
Proof.
  assert (canonical_type_from_title "Image & video" = Some "Image and video"%string) as H
    by (vm_compute; reflexivity).
  split; [exact H|].
  exact (proj1 (canonical_type_is_a_tab_key "Image & video") _ H).
Defined.

(** The variants of the titles the function is written for. *)
Example canonical_type_variants :
  map canonical_type_from_title
      ["Text generation"; "Text models"; "Image & video"; "Audio"; "Embeddings";
       "Speech-to-text"; "Fine-tuned models"]%string
  = [Some "Text"; Some "Text"; Some "Image and video"; Some "Audio"; Some "Embedding";
     Some "Audio"; None]%string.
Proof. vm_compute. reflexivity. Qed.

(** ** The multi-tab script: the rows of a table *)

Lemma table_row_lookup keys values type_label k v :
  table_row keys values type_label !! k = Some v ->
  (k = "Type"%string /\ v = type_label)
  \/ (k <> "Type"%string /\ exists v0, v = normalize_text (Some v0)).
Proof.
  unfold table_row. intros H.
  apply lookup_insert_Some in H as [[<- <-]|[Hk H]]; [left; auto|].
  right. split; [congruence|].
  rewrite lookup_fmap in H.
  destruct (_ !! k) as [v0|]; [|discriminate].
  injection H as <-. eauto.
Qed.

Lemma parse_table_rows thead header_texts trs type_label r :
  r ∈ parse_table thead header_texts trs type_label ->
  exists values,
    r = table_row (map header_key (map (fun h => normalize_text (Some h)) header_texts))
                  values type_label
    /\ (2 <= length values)%nat.
Proof.
  unfold parse_table.
  set (keys := map header_key _). set (headers := map _ header_texts).
  assert (forall acc,
             r ∈ fold_left
                   (fun rows cols =>
                      if (length cols <? 2)%nat then rows
                      else
                        let values := map (fun c => normalize_text (Some c)) cols in
                        if negb thead && bool_decide (values = headers) then rows
                        else rows ++ [table_row keys values type_label])
                   trs acc ->
             r ∈ acc
             \/ exists values, r = table_row keys values type_label
                               /\ (2 <= length values)%nat) as H.
  { induction trs as [|cols trs IH]; intros acc Hr; simpl in Hr; [left; exact Hr|].
    apply IH in Hr as [Hr|Hr]; [|right; exact Hr].
    destruct (length cols <? 2)%nat eqn:E; [left; exact Hr|].
    destruct (negb thead && bool_decide _); [left; exact Hr|].
    apply elem_of_app in Hr as [Hr|Hr]; [left; exact Hr|].
    apply list_elem_of_singleton in Hr as ->. right.
    eexists. split; [reflexivity|].
    rewrite length_map. apply Nat.ltb_ge in E. exact E. }
  intros Hr. apply H in Hr as [Hr|Hr]; [apply elem_of_nil in Hr as [] | exact Hr].
Qed.

(** X26. Every row of a table carries the type label of the table under
    ["Type"], even when the table has a column of that name, so the label
    is the first component of its identity; every other value is a tidy
    text; and a [tr] with fewer than two cells gives no row. *)
Theorem parse_table_rows_typed thead header_texts trs type_label :
  (forall r, r ∈ parse_table thead header_texts trs type_label ->
             r !! "Type"%string = Some type_label
             /\ head (key_for_row r) = Some type_label
             /\ forall k v, r !! k = Some v -> k <> "Type"%string ->
                            tidy (text.chars v))
  /\ (length (parse_table thead header_texts trs type_label) <= length trs)%nat
  /\ (forall cols, (length cols < 2)%nat ->
                   parse_table thead header_texts [cols] type_label = []).
Proof.
  split; [|split].
  - intros r Hr. apply parse_table_rows in Hr as (values & -> & _).
    assert (table_row (map header_key (map (fun h => normalize_text (Some h)) header_texts))
                      values type_label !! "Type"%string = Some type_label) as HT
      by (unfold table_row; apply lookup_insert_eq).
    split; [exact HT|]. split.
    + unfold key_for_row, pyrow.get_or_empty. rewrite HT. reflexivity.
    + intros k v Hv Hk. apply table_row_lookup in Hv as [[-> _]|[_ (v0 & ->)]];
        [congruence|]. apply normalize_text_tidy.
  - unfold parse_table.
    set (f := fun rows cols => _).
    assert (forall acc : list row,
               (length (fold_left f trs acc) <= length acc + length trs)%nat) as H;
      [|apply (H [])].
    induction trs as [|cols trs IH]; intros acc; simpl; [lia|].
    specialize (IH (f acc cols)).
    assert (length (f acc cols) <= S (length acc))%nat; [|lia].
    unfold f. destruct (length cols <? 2)%nat; [lia|].
    destruct (negb thead && bool_decide _); [lia|].
    rewrite length_app. simpl. lia.
  - intros cols Hlen. unfold parse_table. simpl.
    rewrite (proj2 (Nat.ltb_lt _ _) Hlen). reflexivity.
Qed.

Lemma parse_table_rows_typed_witness :
  let rows := parse_table true ["Model"; "Version"; "Type"; "Retirement date"]%string
                [["`gpt-4o`"; "2024-05-13"; "chat"; " 2026-10-01 "]; ["note"]]%string
                "Text" in
  map (fun r => (field "Type" r, field "Model" r, field "Version" r,
                 field "Retirement date" r)) rows
  = [("Text", "gpt-4o", "2024-05-13", "2026-10-01")]%string
  /\ (forall r, r ∈ rows -> r !! "Type"%string = Some "Text"%string)
  /\ parse_table true [] [["note"]]%string "Text" = [].
Proof.
  intros rows.
  destruct (parse_table_rows_typed true ["Model"; "Version"; "Type"; "Retirement date"]%string
              [["`gpt-4o`"; "2024-05-13"; "chat"; " 2026-10-01 "]; ["note"]]%string
              "Text") as (Hrows & _ & _).
  destruct (parse_table_rows_typed true [] [] "Text") as (_ & _ & Hshort).
  split; [vm_compute; reflexivity|]. split.
  - intros r Hr. exact (proj1 (Hrows r Hr)).
  - apply Hshort. simpl. lia.
Defined.

(** ** Date normalizers: what they return *)

Lemma strftime_iso d : valid_date d -> iso_date (datetime.strftime_Ymd d).
Proof.
  intros Hd. exists d. split; [exact Hd|]. split; [reflexivity|].
  split; [apply strptime_strftime, Hd | reflexivity].
Qed.

Lemma earliest_iso dates s :
  Forall valid_date dates -> earliest dates = Some s -> iso_date s.
Proof.
  intros Hv Hs. apply earliest_least in Hs as (d & Hin & -> & _).
  rewrite Forall_forall in Hv. apply strftime_iso, Hv, Hin.
Qed.

(** X27. Whatever text they are given, the four date normalizers return
    nothing or the ISO form of a calendar date, which [strptime] reads
    back. *)
Theorem normalizers_return_iso_dates (text : option string) (s : string) :
  (scrape.normalize_date_from_text text = Ok (Some s) -> iso_date s)
  /\ (scrape_claude_retirements.normalize_retirement_date text = Ok (Some s) -> iso_date s)
  /\ (scrape_aws_retirements.normalize_retirement_date text = Ok (Some s) -> iso_date s)
  /\ (scrape_openai_retirements.extract_earliest_date text = Ok (Some s) -> iso_date s).
Proof.
  split; [|split; [|split]].
  - destruct text as [t|]; [|discriminate]. intros H.
    assert (pyrow.truthy (Some t) = true) as Ht.
    { unfold scrape.normalize_date_from_text in H.
      destruct (pyrow.truthy (Some t)); [reflexivity | discriminate]. }
    destruct (scrape_normalize_dates t Ht) as (d2 & d3 & H2 & H3 & Hn).
    rewrite Hn in H. injection H as H.
    eapply earliest_iso; [|exact H].
    pose proof (parsed_dates_valid (re.findall patterns.ISO_DATE_RE t)) as V1.
    assert (Forall valid_date d2) as V2.
    { unfold scrape.claude_date in H2.
      destruct (re.search patterns.CLAUDE_DATE_RE t) as [m|]; [|injection H2 as <-; exact V1].
      destruct (re.m_groups m) as [|g1 [|g2 [|g3 [|g4 l]]]]; try discriminate.
      eapply try_append_valid; [|exact V1|exact H2]. intros d. apply finish_valid. }
    unfold scrape.aws_date in H3.
    destruct (re.search patterns.AWS_DATE_RE t) as [m|]; [|injection H3 as <-; exact V2].
    destruct (re.m_groups m) as [|g1 [|g2 [|g3 [|g4 l]]]]; try discriminate.
    eapply try_append_valid; [|exact V2|exact H3]. intros d.
    destruct (text.int g3); simpl; [|discriminate].
    destruct (text.int g1); simpl; [|discriminate].
    destruct (text.int g2); simpl; [|discriminate].
    apply make_valid.
  - unfold scrape_claude_retirements.normalize_retirement_date.
    destruct text as [t|]; [|discriminate].
    destruct (pyrow.truthy (Some t)); [|discriminate].
    destruct (re.search patterns.CLAUDE_DATE_RE t) as [m|]; [|discriminate].
    destruct (re.m_groups m) as [|g1 [|g2 [|g3 [|g4 l]]]]; try discriminate.
    destruct (datetime.strptime_BdY (month_day_year g1 g2 g3)) as [dt|] eqn:E;
      [|discriminate].
    intros [= <-]. apply strftime_iso. eapply finish_valid, E.
  - unfold scrape_aws_retirements.normalize_retirement_date.
    destruct text as [t|]; [|discriminate].
    destruct (pyrow.truthy (Some t)); [|discriminate].
    destruct (re.search patterns.AWS_DATE_RE t) as [m|]; [|discriminate].
    destruct (re.m_groups m) as [|g1 [|g2 [|g3 [|g4 l]]]]; try discriminate.
    destruct (text.int g3) as [y|e3]; simpl; [|destruct e3; discriminate].
    destruct (text.int g1) as [mo|e1]; simpl; [|destruct e1; discriminate].
    destruct (text.int g2) as [d|e2]; simpl; [|destruct e2; discriminate].
    destruct (datetime.make y mo d) as [dt|e] eqn:E; [|destruct e; discriminate].
    intros [= <-]. apply strftime_iso. eapply make_valid, E.
  - unfold scrape_openai_retirements.extract_earliest_date.
    destruct (re.findall patterns.ISO_DATE_RE (default ""%string text)) as [|m0 ms];
      [discriminate|].
    rewrite collect_dates_eq. cbn [mbind result_bind app]. intros [= H].
    eapply earliest_iso; [|exact H]. exact (parsed_dates_valid (m0 :: ms)).
Qed.

Lemma normalizers_return_iso_dates_witness :
  scrape.normalize_date_from_text (Some "Not sooner than February 19, 2026"%string)
  = Ok (Some "2026-02-19"%string)
  /\ iso_date "2026-02-19".
Proof.
  assert (scrape.normalize_date_from_text (Some "Not sooner than February 19, 2026"%string)
          = Ok (Some "2026-02-19"%string)) as H by (vm_compute; reflexivity).
  split; [exact H|].
  exact (proj1 (normalizers_return_iso_dates _ _) H).
Defined.

(** ** [scrape.py]: a run that finds changes *)

(** X28. A later run of [scrape.py] on well-formed rows and a well-formed CSV
    file returns: when no row is reported the files are left as they are;
    otherwise the changes file gets the lines of the reported rows only,
    while the feed is rewritten with one entry for every scraped row,
    changed or not. *)
Theorem scrape_changed_run_rewrites_feed now (all_rows lines : list row)
    (fs : scrape.files) :
  scrape.model_retirements_csv fs = Some lines ->
  Forall csv_row lines -> Forall csv_row all_rows -> Forall columns_only all_rows ->
  all_rows <> [] ->
  exists existing fs',
    scrape.load_existing_csv lines = Ok existing
    /\ scrape.main now all_rows fs = Ok fs'
    /\ (filter (reported existing) all_rows = [] -> fs' = fs)
    /\ (filter (reported existing) all_rows <> [] ->
        scrape.model_retirements_changes_csv fs'
        = Some (map line_of (filter (reported existing) all_rows))
        /\ exists items, scrape.rss_xml fs' = Some items
                         /\ map scrape.guid items = map row_guid all_rows).
Proof.
  intros Hfile Hlines Hrows Hcols Hne. unfold scrape.main.
  destruct all_rows as [|r0 rows0] eqn:Erows; [congruence|]. rewrite <- Erows in *.
  rewrite Hfile.
  rewrite load_existing_csv_fold by exact Hlines.
  set (existing := fold_left _ lines []) in *.
  exists existing.
  cbn [mbind result_bind].
  assert (Forall csv_row (odict.values existing)) as Hex.
  { apply Forall_forall. intros l Hl.
    apply list_elem_of_In, in_map_iff in Hl as ([k v] & <- & Hkv).
    apply list_elem_of_In in Hkv.
    assert (forall (ls : list row) acc kv,
               kv ∈ fold_left (fun d l => odict.set (source_model l) l d) ls acc ->
               kv ∈ acc \/ kv.2 ∈ ls) as Hmem.
    { induction ls as [|l0 ls IH]; intros acc kv Hin; simpl in Hin; [left; exact Hin|].
      apply IH in Hin as [Hin|Hin]; [|right; apply list_elem_of_further, Hin].
      apply odict_set_elem in Hin as [->|Hin]; [right; apply list_elem_of_here | left; exact Hin]. }
    apply Hmem in Hkv as [Hkv|Hkv]; [apply elem_of_nil in Hkv as []|].
    rewrite Forall_forall in Hlines. apply Hlines, Hkv. }
  rewrite diff_rows_filter by assumption.
  cbn [mbind result_bind].
  destruct (filter (reported existing) all_rows) as [|c changes] eqn:Ef.
  - exists fs. repeat split; congruence.
  - assert (Forall columns_only (c :: changes)) as Hcc.
    { rewrite <- Ef. apply Forall_forall. intros r Hr.
      apply list_elem_of_filter in Hr as [_ Hr].
      rewrite Forall_forall in Hcols. apply Hcols, Hr. }
    rewrite write_csv_lines by exact Hcc.
    cbn [mbind result_bind].
    destruct (scrape_write_rss_items now all_rows Hrows) as (items & Hitems & Hg & _).
    rewrite Hitems. cbn [mbind result_bind].
    eexists. split; [reflexivity|]. split; [reflexivity|]. split; [discriminate|].
    intros _. split; [reflexivity|].
    exists items. split; [reflexivity | exact Hg].
Qed.

Lemma scrape_changed_run_rewrites_feed_witness :
  let lines := [model_row "S" "a" "2026-01-01" ""; model_row "S" "b" "2026-02-01" ""] in
  let all_rows := [model_row "S" "a" "2026-01-01" ""; model_row "S" "b" "2026-03-01" ""] in
  let fs := scrape.mk_files (Some lines) None None in
  Forall csv_row lines /\ Forall csv_row all_rows /\ Forall columns_only all_rows
  /\ all_rows <> []
  /\ exists existing fs',
       scrape.load_existing_csv lines = Ok existing
       /\ scrape.main "t" all_rows fs = Ok fs'
       /\ (filter (reported existing) all_rows = [] -> fs' = fs)
       /\ (filter (reported existing) all_rows <> [] ->
           scrape.model_retirements_changes_csv fs'
           = Some (map line_of (filter (reported existing) all_rows))
           /\ exists items, scrape.rss_xml fs' = Some items
                            /\ map scrape.guid items = map row_guid all_rows).
Proof.
  intros lines all_rows fs.
  assert (forall s m d, csv_row (model_row s m d "")) as Hcsv
    by (intros; repeat split; eexists; reflexivity).
  assert (forall s m d, columns_only (model_row s m d "")) as Hcol.
  { intros s m d k [v Hv]. unfold model_row in Hv.
    repeat (apply lookup_insert_Some in Hv as [[<- _]|[_ Hv]];
            [unfold scrape.fieldnames; rewrite !elem_of_cons; tauto|]).
    apply lookup_singleton_Some in Hv as [<- _].
    unfold scrape.fieldnames. rewrite !elem_of_cons. tauto. }
  assert (Forall csv_row lines) as H1
    by (constructor; [apply Hcsv | constructor; [apply Hcsv | constructor]]).
  assert (Forall csv_row all_rows) as H2
    by (constructor; [apply Hcsv | constructor; [apply Hcsv | constructor]]).
  assert (Forall columns_only all_rows) as H3
    by (constructor; [apply Hcol | constructor; [apply Hcol | constructor]]).
  assert (all_rows <> []) as H4 by discriminate.
  split; [exact H1|]. split; [exact H2|]. split; [exact H3|]. split; [exact H4|].
  exact (scrape_changed_run_rewrites_feed "t" all_rows lines fs eq_refl H1 H2 H3 H4).
Defined.

(** The example: of two rows one has a new date; it alone goes to the
    changes file, and the feed gets both. *)
Example scrape_changed_run_example :
  let lines := [model_row "S" "a" "2026-01-01" ""; model_row "S" "b" "2026-02-01" ""] in
  let all_rows := [model_row "S" "a" "2026-01-01" ""; model_row "S" "b" "2026-03-01" ""] in
  exists fs',
    scrape.main "t" all_rows (scrape.mk_files (Some lines) None None) = Ok fs'
    /\ length (default [] (scrape.model_retirements_changes_csv fs')) = 1%nat
    /\ (scrape.guid <$> default [] (scrape.rss_xml fs'))
       = ["S|a|2026-01-01"; "S|b|2026-03-01"]%string.
Proof.
  eexists. split; [vm_compute; reflexivity|]. split; vm_compute; reflexivity.
Qed.

(** [normalize_model_name] gives a text for a text. *)
Lemma model_name_of_normalize (raw : string) :
  scrape.normalize_model_name (Some raw) = Some (scrape.model_name_of raw).
Proof.
  unfold scrape.model_name_of, scrape.normalize_model_name.
  destruct (pyrow.truthy (Some raw)); reflexivity.
Qed.
